(** * apa102_gpiod: the APA102 LED driver over two bit-banged GPIO lines

    A shallow embedding of [apa102_gpiod/apa102.py] and the properties of
    its framebuffer encoding, its validation, its dirty tracking and its
    bit transmission loop.

    Conventions of the embedding.
    - A Python [int] is a [Z]; a byte of a [bytes], [bytearray] or
      [memoryview] object is a [Z] that the store operations keep within
      [0, 256).
    - A field of a [LedOutput] named tuple holds any number the caller put
      there: an [int] or a [float] (a [spec_float], compared with integers
      exactly, as Python compares them).
    - An exception is a value of [exn]; a function that may raise returns a
      [result]; a method that mutates the object runs in the state and
      exception monad [M], which keeps the state reached when it raises.
    - The line handle of [gpiod] is the external collaborator: it records
      the pairs written to it and carries the oracle that decides which
      write fails with [OSError]. *)

From Stdlib Require Import ZArith List String Ascii Lia Bool.
From Stdlib Require Import Floats.SpecFloat DecimalString.
Import ListNotations.
Open Scope Z_scope.

(* ================================================================= *)
(** ** Python values, messages and exceptions *)

(** What a field of a [LedOutput] can hold. *)
Inductive pyval : Type :=
| PyInt (z : Z)
| PyFloat (f : spec_float).

(** [isinstance(v, int)]. *)
Definition isinstance_int (v : pyval) : bool :=
  match v with
  | PyInt _ => true
  | PyFloat _ => false
  end.

(** The sign and mantissa of a finite float as one integer. *)
Definition signed (s : bool) (m : positive) : Z :=
  if s then Z.neg m else Z.pos m.

(** [a <= v] for an integer [a]: exact on floats, false on NaN. *)
Definition int_le_val (a : Z) (v : pyval) : bool :=
  match v with
  | PyInt z => a <=? z
  | PyFloat (S754_zero _) => a <=? 0
  | PyFloat (S754_infinity s) => negb s
  | PyFloat S754_nan => false
  | PyFloat (S754_finite s m e) =>
      if 0 <=? e then a <=? signed s m * 2 ^ e
      else a * 2 ^ (- e) <=? signed s m
  end.

(** [v <= b] for an integer [b]. *)
Definition val_le_int (v : pyval) (b : Z) : bool :=
  match v with
  | PyInt z => z <=? b
  | PyFloat (S754_zero _) => 0 <=? b
  | PyFloat (S754_infinity s) => s
  | PyFloat S754_nan => false
  | PyFloat (S754_finite s m e) =>
      if 0 <=? e then signed s m * 2 ^ e <=? b
      else signed s m <=? b * 2 ^ (- e)
  end.

(** The chained comparison [lo <= v <= hi]. *)
Definition between (lo : Z) (v : pyval) (hi : Z) : bool :=
  int_le_val lo v && val_le_int v hi.

(** An f-string once evaluated: literal text and [!r] conversions. *)
Inductive piece : Type :=
| Lit (s : string)
| Repr (v : pyval).

Definition message : Type := list piece.

Inductive exn : Type :=
| ValueError (msg : message)
| IndexError (msg : message)
| TypeError
| StructError
| OSError.

Inductive result (A : Type) : Type :=
| Ok (a : A)
| Raise (e : exn).

Arguments Ok {A} a.
Arguments Raise {A} e.

Definition rbind {A B : Type} (c : result A) (k : A -> result B) : result B :=
  match c with
  | Ok a => k a
  | Raise e => Raise e
  end.

Declare Scope result_scope.
Delimit Scope result_scope with result.
Notation "x <- c ;; k" := (rbind c (fun x => k))
  (at level 61, c at next level, right associativity) : result_scope.

Section Rendering.

(** [repr] of a float is the shortest decimal that reads back as the
    same double; the development only needs it to be some string. *)
Variable repr_float : spec_float -> string.

Definition repr (v : pyval) : string :=
  match v with
  | PyInt z => NilZero.string_of_int (Z.to_int z)
  | PyFloat f => repr_float f
  end.

Definition render_piece (p : piece) : string :=
  match p with
  | Lit s => s
  | Repr v => repr v
  end.

Fixpoint render (m : message) : string :=
  match m with
  | [] => EmptyString
  | p :: m' => append (render_piece p) (render m')
  end.

End Rendering.

(** [needle in hay] on strings. *)
Fixpoint contains (needle hay : string) : bool :=
  prefix needle hay ||
  match hay with
  | EmptyString => false
  | String _ hay' => contains needle hay'
  end.

(* ================================================================= *)
(** ** Sequences: [range], indexing and slices *)

(** [range(n)]: empty when [n] is not positive. *)
Definition range (n : Z) : list Z :=
  map Z.of_nat (seq 0 (Z.to_nat n)).

Definition len {A : Type} (l : list A) : Z := Z.of_nat (List.length l).

(** [l[i]] for a non-negative constant index. *)
Definition getitem (l : list Z) (i : nat) : result Z :=
  match nth_error l i with
  | Some x => Ok x
  | None => Raise (IndexError [Lit "index out of range"])
  end.

(** The bounds of [l[start:stop]] once adjusted to the length, as
    [PySlice_AdjustIndices] does for a step of one. *)
Definition adjust (n i : Z) : Z :=
  if i <? 0 then (if i + n <? 0 then 0 else i + n)
  else if n <=? i then n else i.

Definition slice_start (n start : Z) : nat := Z.to_nat (adjust n start).

Definition slice_length (n start stop : Z) : nat :=
  Z.to_nat (adjust n stop - adjust n start).

Definition getslice {A : Type} (l : list A) (start stop : Z) : list A :=
  firstn (slice_length (len l) start stop) (skipn (slice_start (len l) start) l).

Fixpoint list_eqb (l1 l2 : list Z) : bool :=
  match l1, l2 with
  | [], [] => true
  | x :: l1', y :: l2' => (x =? y) && list_eqb l1' l2'
  | _, _ => false
  end.

(* ================================================================= *)
(** ** The module-level functions *)

Record LedOutput : Type := mkLedOutput {
  brt : pyval;
  r : pyval;
  g : pyval;
  b : pyval
}.

(** APA102 start sequence, 4 bytes of zeroes. *)
Definition APA102_START : list Z := [0x00; 0x00; 0x00; 0x00].

Definition class_name_LedOutput : string := "LedOutput".

Definition _check_ledoutput_range (o : LedOutput) : result unit :=
  if negb (between 0 (brt o) 0x1f && isinstance_int (brt o)) then
    Raise (ValueError [Lit class_name_LedOutput;
                       Lit ": brightness setting invalid got ";
                       Repr (brt o);
                       Lit ", expected integer within [0, 0x1f]"])
  else if negb (between 0 (r o) 0xff && isinstance_int (r o)) then
    Raise (ValueError [Lit class_name_LedOutput;
                       Lit ": red setting invalid: got ";
                       Repr (r o);
                       Lit ", expected integer within [0, 0xff]"])
  else if negb (between 0 (g o) 0xff && isinstance_int (g o)) then
    Raise (ValueError [Lit class_name_LedOutput;
                       Lit ": green setting invalid: got ";
                       Repr (r o);
                       Lit ", expected integer within [0, 0xff]"])
  else if negb (between 0 (b o) 0xff && isinstance_int (b o)) then
    Raise (ValueError [Lit class_name_LedOutput;
                       Lit ": blue setting invalid: got ";
                       Repr (r o);
                       Lit ", expected integer within [0, 0xff]"])
  else Ok tt.

(** Truthiness of an [int]. *)
Definition truthy (z : Z) : bool := negb (z =? 0).

Definition _generate_end_sequence (leds : Z) : list Z :=
  let edges_required := if truthy leds then leds - 1 else 0 in
  let bytes_required :=
    if truthy edges_required then
      (if truthy (edges_required mod 16) then edges_required / 16 + 1
       else edges_required / 16)
    else 0 in
  fold_left (fun output _ => output ++ [0x00]) (range bytes_required) [].

(** [v | k]: defined on integers only. *)
Definition py_or (v : pyval) (k : Z) : result pyval :=
  match v with
  | PyInt z => Ok (PyInt (Z.lor z k))
  | PyFloat _ => Raise TypeError
  end.

(** [v & k]. *)
Definition py_and (z k : Z) : Z := Z.land z k.

(** One ['B'] item of [struct.pack]: an integer within [0, 255]. *)
Definition struct_B (v : pyval) : result Z :=
  match v with
  | PyInt z => if (0 <=? z) && (z <=? 255) then Ok z else Raise StructError
  | PyFloat _ => Raise StructError
  end.

Definition _pack_wrgb (o : LedOutput) : result (list Z) :=
  (v0 <- py_or (brt o) 0xe0 ;;
   b0 <- struct_B v0 ;;
   b1 <- struct_B (b o) ;;
   b2 <- struct_B (g o) ;;
   b3 <- struct_B (r o) ;;
   Ok [b0; b1; b2; b3])%result.

Definition _ledoutput_from_led_command (command : list Z) : result LedOutput :=
  (c0 <- getitem command 0 ;;
   c3 <- getitem command 3 ;;
   c2 <- getitem command 2 ;;
   c1 <- getitem command 1 ;;
   Ok (mkLedOutput (PyInt (py_and c0 0x1f)) (PyInt c3) (PyInt c2) (PyInt c1)))%result.

(* ================================================================= *)
(** ** The state and exception monad *)

(** A computation on a mutable object of type [S]: it returns or raises,
    and in both cases leaves the object in some state. *)
Definition M (S A : Type) : Type := S -> result A * S.

Definition ret {S A : Type} (a : A) : M S A := fun s => (Ok a, s).

Definition raise {S A : Type} (e : exn) : M S A := fun s => (Raise e, s).

Definition bind {S A B : Type} (c : M S A) (k : A -> M S B) : M S B :=
  fun s =>
    match c s with
    | (Ok a, s') => k a s'
    | (Raise e, s') => (Raise e, s')
    end.

Definition get {S : Type} : M S S := fun s => (Ok s, s).

Definition modify {S : Type} (f : S -> S) : M S unit := fun s => (Ok tt, f s).

(** A function that only returns or raises, run inside a method. *)
Definition lift {S A : Type} (c : result A) : M S A := fun s => (c, s).

(** A computation on a part [T] of the object, run on the object. *)
Definition zoom {S T A : Type} (proj : S -> T) (upd : T -> S -> S)
    (c : M T A) : M S A :=
  fun s => let (x, t') := c (proj s) in (x, upd t' s).

Declare Scope monad_scope.
Delimit Scope monad_scope with monad.
Notation "x <- c ;; k" := (bind c (fun x => k))
  (at level 61, c at next level, right associativity) : monad_scope.
Notation "c ;; k" := (bind c (fun _ => k))
  (at level 61, right associativity) : monad_scope.

(** [for x in xs: body(x)]. *)
Fixpoint for_each {S A : Type} (xs : list A) (body : A -> M S unit) : M S unit :=
  match xs with
  | [] => ret tt
  | x :: xs' => (body x ;; for_each xs' body)%monad
  end.

(** [if c: body]. *)
Definition when {S : Type} (c : bool) (body : M S unit) : M S unit :=
  if c then body else ret tt.

(* ================================================================= *)
(** ** The line handle of gpiod *)

(** The pair of output lines (clock, data) requested from the chip: what
    was written to it so far, whether it was released, and the oracle of
    the collaborator: given the writes so far and the pair to write,
    whether this write fails. *)
Record Lines : Type := mkLines {
  written : list (Z * Z);
  lines_released : bool;
  faulty : list (Z * Z) -> Z * Z -> bool
}.

Definition set_values (v : Z * Z) : M Lines unit :=
  fun l =>
    if faulty l (written l) v then (Raise OSError, l)
    else (Ok tt, mkLines (written l ++ [v]) (lines_released l) (faulty l)).

Definition release_lines (l : Lines) : Lines :=
  mkLines (written l) true (faulty l).

(* ================================================================= *)
(** ** Byte buffers *)

(** [d[k] = v] on a [bytearray]: the index is checked, then the value. *)
Definition bytearray_setitem (k : nat) (v : pyval) : M (list Z) unit :=
  fun d =>
    if (k <? List.length d)%nat then
      match v with
      | PyInt z =>
          if (0 <=? z) && (z <? 256) then
            (Ok tt, firstn k d ++ [z] ++ skipn (S k) d)
          else (Raise (ValueError [Lit "byte must be in range(0, 256)"]), d)
      | PyFloat _ => (Raise TypeError, d)
      end
    else (Raise (IndexError [Lit "bytearray index out of range"]), d).

Definition _pack_wrgb_direct (o : LedOutput) : M (list Z) unit :=
  (v0 <- lift (py_or (brt o) 0xe0) ;;
   bytearray_setitem 0 v0 ;;
   bytearray_setitem 1 (b o) ;;
   bytearray_setitem 2 (g o) ;;
   bytearray_setitem 3 (r o))%monad.

(** The [memoryview] over [_data]: it holds no bytes of its own. *)
Inductive memoryview : Type :=
| ViewOfData
| Released.

(* ================================================================= *)
(** ** The class APA102 *)

Record APA102 : Type := mkAPA102 {
  _leds : Z;
  _data_modified : bool;
  _lines : Lines;
  _data : list Z;
  _view : memoryview;
  _wrgb_buffer : list Z
}.

Definition class_name_APA102 : string := "APA102".

Definition set_data_modified (f : bool) (s : APA102) : APA102 :=
  mkAPA102 (_leds s) f (_lines s) (_data s) (_view s) (_wrgb_buffer s).

Definition set_lines (l : Lines) (s : APA102) : APA102 :=
  mkAPA102 (_leds s) (_data_modified s) l (_data s) (_view s) (_wrgb_buffer s).

Definition set_data (d : list Z) (s : APA102) : APA102 :=
  mkAPA102 (_leds s) (_data_modified s) (_lines s) d (_view s) (_wrgb_buffer s).

Definition set_view (v : memoryview) (s : APA102) : APA102 :=
  mkAPA102 (_leds s) (_data_modified s) (_lines s) (_data s) v (_wrgb_buffer s).

Definition set_wrgb_buffer (w : list Z) (s : APA102) : APA102 :=
  mkAPA102 (_leds s) (_data_modified s) (_lines s) (_data s) (_view s) w.

Definition released_view_error : exn :=
  ValueError [Lit "operation forbidden on released memoryview object"].

(** [self._view[start:stop]]: reads the bytes of [_data]. *)
Definition view_getslice (start stop : Z) : M APA102 (list Z) :=
  fun s =>
    match _view s with
    | ViewOfData => (Ok (getslice (_data s) start stop), s)
    | Released => (Raise released_view_error, s)
    end.

(** [self._view[start:stop] = src]: writes through to [_data]; a view
    cannot change its length. *)
Definition view_setslice (start stop : Z) (src : list Z) : M APA102 unit :=
  fun s =>
    match _view s with
    | ViewOfData =>
        let d := _data s in
        let a := slice_start (len d) start in
        let n := slice_length (len d) start stop in
        if (n =? List.length src)%nat then
          (Ok tt, set_data (firstn a d ++ src ++ skipn (a + n) d) s)
        else
          (Raise (ValueError
             [Lit "memoryview assignment: lvalue and rvalue have different structures"]),
           s)
    | Released => (Raise released_view_error, s)
    end.

Definition __len__ (s : APA102) : Z := _leds s.

(** [len(self)]: the interpreter refuses a negative [__len__]. *)
Definition len_self : M APA102 Z :=
  fun s =>
    if __len__ s <? 0 then
      (Raise (ValueError [Lit "__len__() should return >= 0"]), s)
    else (Ok (__len__ s), s).

Definition out_of_range_error : exn :=
  IndexError [Lit class_name_APA102; Lit ": "; Lit "out-of-range LED index"].

Definition __getitem__ (i : Z) : M APA102 LedOutput :=
  (s <- get ;;
   if negb ((0 <=? i) && (i <? _leds s)) then raise out_of_range_error
   else
     command <- view_getslice (4 + i * 4) (8 + i * 4) ;;
     lift (_ledoutput_from_led_command command))%monad.

Definition set_unchecked (i : Z) (o : LedOutput) : M APA102 unit :=
  (zoom _wrgb_buffer set_wrgb_buffer (_pack_wrgb_direct o) ;;
   s <- get ;;
   stored <- view_getslice (4 + i * 4) (8 + i * 4) ;;
   when (negb (list_eqb (_wrgb_buffer s) stored))
     (view_setslice (4 + i * 4) (8 + i * 4) (_wrgb_buffer s) ;;
      modify (set_data_modified true)))%monad.

Definition __setitem__ (i : Z) (o : LedOutput) : M APA102 unit :=
  (lift (_check_ledoutput_range o) ;;
   s <- get ;;
   if negb ((0 <=? i) && (i <? _leds s)) then raise out_of_range_error
   else set_unchecked i o)%monad.

(** The loop of [__contains__] over the indices still to compare: it
    returns at the first stored word equal to the packed output. *)
Fixpoint contains_scan (o : LedOutput) (indices : list Z) : M APA102 bool :=
  match indices with
  | [] => ret false
  | i :: rest =>
      (packed <- lift (_pack_wrgb o) ;;
       stored <- view_getslice (4 + i * 4) (8 + i * 4) ;;
       if list_eqb packed stored then ret true else contains_scan o rest)%monad
  end.

Definition __contains__ (o : LedOutput) : M APA102 bool :=
  (n <- len_self ;; contains_scan o (range n))%monad.

(** One bit of [commit]: the data line first, then the clock. *)
Definition send_bit (byte : Z) (k : Z) : M Lines unit :=
  (let bit := Z.land (Z.shiftr byte k) 0x01 in
   set_values (0, bit) ;;
   set_values (1, bit))%monad.

(** The body of the loop of [commit]: byte [i] of the framebuffer, bit 7
    down to bit 0. *)
Definition commit_iteration (i : Z) : M APA102 unit :=
  (self <- get ;;
   byte <- lift (getitem (_data self) (Z.to_nat i)) ;;
   zoom _lines set_lines
     (send_bit byte 7 ;;
      send_bit byte 6 ;;
      send_bit byte 5 ;;
      send_bit byte 4 ;;
      send_bit byte 3 ;;
      send_bit byte 2 ;;
      send_bit byte 1 ;;
      send_bit byte 0))%monad.

Definition commit : M APA102 unit :=
  (s <- get ;;
   when (_data_modified s)
     (for_each (range (len (_data s))) commit_iteration ;;
      modify (set_data_modified false)))%monad.

Definition close : M APA102 unit :=
  (modify (set_view Released) ;;
   modify (fun s => set_lines (release_lines (_lines s)) s))%monad.

(** [bytes * n]: empty when [n] is not positive. *)
Definition repeat_bytes (w : list Z) (n : Z) : list Z :=
  List.concat (repeat w (Z.to_nat n)).

(** The constructor. [gpiod] stands for [gpiod.Chip(chip).get_lines((clk,
    data))] followed by the request of the lines as outputs: it gives
    the line handle or raises [OSError]. A constructor that raises
    leaves no object. *)
Definition __init__ (gpiod : string -> Z * Z -> result Lines)
    (chip : string) (leds clk data : Z) (reset : bool) : result APA102 :=
  (lines <- gpiod chip (clk, data) ;;
   zero <- _pack_wrgb (mkLedOutput (PyInt 0) (PyInt 0) (PyInt 0) (PyInt 0)) ;;
   let self0 := mkAPA102 leds true lines APA102_START ViewOfData [] in
   match len_self self0 with
   | (Raise e, _) => Raise e
   | (Ok n, _) =>
       let self :=
         mkAPA102 leds true lines
           (APA102_START ++ repeat_bytes zero n ++ _generate_end_sequence leds)
           ViewOfData [0; 0; 0; 0] in
       if reset then
         match commit self with
         | (Ok _, self') => Ok self'
         | (Raise e, _) => Raise e
         end
       else Ok self
   end)%result.

(* ================================================================= *)
(** ** The program of examples/single_color.py *)

(** What the script does with the controller it has constructed: one
    set per LED, a commit, a close. *)
Definition single_color_body (brightness red green blue : Z) : M APA102 unit :=
  (n <- len_self ;;
   for_each (range n)
     (fun led =>
        __setitem__ led
          (mkLedOutput (PyInt brightness) (PyInt red) (PyInt green) (PyInt blue))) ;;
   commit ;;
   close)%monad.

(** The script once its arguments are parsed, integers all: how it ends
    and the controller it leaves, when it constructed one. *)
Definition single_color_main (gpiod : string -> Z * Z -> result Lines)
    (chip : string) (clk data leds brightness red green blue : Z)
    : result unit * option APA102 :=
  match __init__ gpiod chip leds clk data true with
  | Raise e => (Raise e, None)
  | Ok leds_object =>
      let (x, s) := single_color_body brightness red green blue leds_object in
      (x, Some s)
  end.

(* ================================================================= *)
(** ** The vocabulary of the properties *)

(** The framebuffer of [n] LEDs of which the first [k] hold the word
    [w] and the others the word of a dark LED. *)
Definition painted (n : Z) (w : list Z) (k : nat) : list Z :=
  APA102_START ++ List.concat (repeat w k)
  ++ List.concat (repeat [0xe0; 0; 0; 0] (Z.to_nat n - k))
  ++ _generate_end_sequence n.


(** The outcome is an [IndexError]. *)
Definition is_index_error {A : Type} (x : result A) : bool :=
  match x with
  | Raise (IndexError _) => true
  | _ => false
  end.

(** The field a message names. *)
Inductive field : Type := Brightness | Red | Green | Blue.

Definition field_word (f : field) : string :=
  match f with
  | Brightness => "brightness"
  | Red => "red"
  | Green => "green"
  | Blue => "blue"
  end.

Definition field_value (f : field) (o : LedOutput) : pyval :=
  match f with
  | Brightness => brt o
  | Red => r o
  | Green => g o
  | Blue => b o
  end.

Definition field_bound (f : field) : Z :=
  match f with
  | Brightness => 31
  | _ => 255
  end.

(** An integer within [lo, hi]. *)
Definition int_within (lo hi : Z) (v : pyval) : bool :=
  match v with
  | PyInt z => (lo <=? z) && (z <=? hi)
  | PyFloat _ => false
  end.

(** The place of a field in the order the check tests the fields. *)
Definition field_rank (f : field) : nat :=
  match f with
  | Brightness => 0
  | Red => 1
  | Green => 2
  | Blue => 3
  end.

(** The field holds an integer within its bounds. *)
Definition field_ok (f : field) (o : LedOutput) : bool :=
  int_within 0 (field_bound f) (field_value f o).

(** A valid output: integer brightness in [0, 31], integer channels in
    [0, 255]. *)
Definition valid (o : LedOutput) : bool :=
  int_within 0 31 (brt o) && int_within 0 255 (r o) &&
  int_within 0 255 (g o) && int_within 0 255 (b o).

Definition byteb (x : Z) : bool := (0 <=? x) && (x <? 256).

(** A 4-byte word whose first byte has its top three bits set. *)
Definition marked_word (w : list Z) : bool :=
  match w with
  | [w0; w1; w2; w3] =>
      byteb w0 && byteb w1 && byteb w2 && byteb w3 && (Z.shiftr w0 5 =? 7)
  | _ => false
  end.

(** The ceiling of [a / 16] is the [k] with [16 (k - 1) < a <= 16 k]. *)
Definition is_ceil16 (a k : Z) : Prop := 16 * (k - 1) < a <= 16 * k.

(** Bit [k] of a byte, as a line level. *)
Definition bit_at (byte k : Z) : Z := if Z.testbit byte k then 1 else 0.

Definition bits_msb_first (byte : Z) : list Z :=
  map (bit_at byte) [7; 6; 5; 4; 3; 2; 1; 0].

(** The pair-writes (clock, data) that carry one byte: for each bit the
    data with the clock low, then the clock high over the same data. *)
Definition byte_waveform (byte : Z) : list (Z * Z) :=
  flat_map (fun bit => [(0, bit); (1, bit)]) (bits_msb_first byte).

Definition waveform (bytes : list Z) : list (Z * Z) :=
  flat_map byte_waveform bytes.

(** Writing a list of pairs to the lines, one call each. *)
Fixpoint write_all (ws : list (Z * Z)) : M Lines unit :=
  match ws with
  | [] => ret tt
  | w :: ws' => (set_values w ;; write_all ws')%monad
  end.

(** The line handle after the pairs [ws] were written to it. *)
Definition wrote (ws : list (Z * Z)) (l : Lines) : Lines :=
  mkLines (written l ++ ws) (lines_released l) (faulty l).

(** Writing a list of pairs to the lines of a controller. *)
Definition transmit (ws : list (Z * Z)) : M APA102 unit :=
  zoom _lines set_lines (write_all ws).

(** What a LED samples: the data line at each write that takes the clock
    from low to high. *)
Fixpoint rising_edges (clock : Z) (trace : list (Z * Z)) : list Z :=
  match trace with
  | [] => []
  | (c, d) :: rest =>
      if (clock =? 0) && (c =? 1) then d :: rising_edges c rest
      else rising_edges c rest
  end.

Definition byte_of_bits (bits : list Z) : Z :=
  fold_left (fun acc bit => 2 * acc + bit) bits 0.

Fixpoint bytes_of_bits (bits : list Z) : list Z :=
  match bits with
  | b7 :: b6 :: b5 :: b4 :: b3 :: b2 :: b1 :: b0 :: rest =>
      byte_of_bits [b7; b6; b5; b4; b3; b2; b1; b0] :: bytes_of_bits rest
  | _ => []
  end.

(** The bytes the chain receives from a sequence of pair-writes. *)
Definition received (clock : Z) (trace : list (Z * Z)) : list Z :=
  bytes_of_bits (rising_edges clock trace).

(** A line handle none of whose writes fails. *)
Definition reliable (l : Lines) : Prop :=
  forall history v, faulty l history v = false.

(** None of the writes [ws] fails on the handle [l]. *)
Fixpoint accepts (l : Lines) (ws : list (Z * Z)) : bool :=
  match ws with
  | [] => true
  | w :: ws' =>
      negb (faulty l (written l) w) &&
      accepts (mkLines (written l ++ [w]) (lines_released l) (faulty l)) ws'
  end.

(** The length of the framebuffer of [n] LEDs. *)
Definition frame_length (n : Z) : Z :=
  4 + 4 * n + len (_generate_end_sequence n).

(** The stored word of LED [i]. *)
Definition led_word (s : APA102) (i : Z) : list Z :=
  getslice (_data s) (4 + i * 4) (8 + i * 4).

(** The words of all the LEDs, in index order: what lies between the
    start sequence and the end sequence. *)
Definition led_words (s : APA102) : list Z :=
  firstn (Z.to_nat (4 * _leds s)) (skipn 4 (_data s)).

(** The framebuffer [d] with the word [w] stored for LED [i]. *)
Definition store_word (i : Z) (w : list Z) (d : list Z) : list Z :=
  firstn (Z.to_nat (4 + i * 4)) d ++ w ++ skipn (Z.to_nat (4 + i * 4) + 4) d.

(** The layout of the framebuffer: bytes only, the start sequence, one
    marked word per LED, the end sequence; and a scratch word of four
    bytes. *)
Definition well_formed (s : APA102) : bool :=
  (0 <=? _leds s) &&
  (len (_data s) =? frame_length (_leds s)) &&
  forallb byteb (_data s) &&
  list_eqb (firstn 4 (_data s)) APA102_START &&
  forallb (fun i => marked_word (led_word s i)) (range (_leds s)) &&
  list_eqb (skipn (Z.to_nat (4 + 4 * _leds s)) (_data s))
           (_generate_end_sequence (_leds s)) &&
  (List.length (_wrgb_buffer s) =? 4)%nat.

(** The object was not closed. *)
Definition live (s : APA102) : bool :=
  match _view s with
  | ViewOfData => true
  | Released => false
  end.

(** The operations of a controller and the state each one leaves. *)
Inductive op : Type :=
| Get (i : Z)
| Set_ (i : Z) (o : LedOutput)
| SetUnchecked (i : Z) (o : LedOutput)
| Length
| Contains (o : LedOutput)
| Commit
| Close.

Definition run_op (o : op) (s : APA102) : APA102 :=
  match o with
  | Get i => snd (__getitem__ i s)
  | Set_ i v => snd (__setitem__ i v s)
  | SetUnchecked i v => snd (set_unchecked i v s)
  | Length => snd (len_self s)
  | Contains v => snd (__contains__ v s)
  | Commit => snd (commit s)
  | Close => snd (close s)
  end.

(** A sequence of operations, one after the other. *)
Definition run_ops (ops : list op) (s : APA102) : APA102 :=
  fold_left (fun st o => run_op o st) ops s.

(** The caller's side of the contract: [set_unchecked] checks nothing,
    so its index and value are the caller's to get right. *)
Definition respects_contract (o : op) (s : APA102) : bool :=
  match o with
  | SetUnchecked i v => (0 <=? i) && (i <? _leds s) && valid v
  | _ => true
  end.

(** The states a program reaches: a constructed controller, then any
    operations within the contract. *)
Inductive reachable (gpiod : string -> Z * Z -> result Lines) : APA102 -> Prop :=
| reach_init chip leds clk data reset s :
    __init__ gpiod chip leds clk data reset = Ok s ->
    reachable gpiod s
| reach_step o s :
    reachable gpiod s ->
    respects_contract o s = true ->
    reachable gpiod (run_op o s).

(** Fixtures: a handle that never fails, one that fails from its n-th
    write on, and the controllers built over them. *)
Definition quiet_lines : Lines := mkLines [] false (fun _ _ => false).

Definition failing_lines (n : nat) : Lines :=
  mkLines [] false (fun history _ => (n <=? List.length history)%nat).

(** A handle whose sixth write fails once, while it raises the clock. *)
Definition glitching_lines : Lines :=
  mkLines [] false
    (fun history v => (List.length history =? 5)%nat && (fst v =? 1)).

Definition gpiod_quiet (_ : string) (_ : Z * Z) : result Lines := Ok quiet_lines.

Definition fresh (leds : Z) (lines : Lines) : APA102 :=
  mkAPA102 leds true lines
    (APA102_START ++ repeat_bytes [0xe0; 0; 0; 0] leds ++ _generate_end_sequence leds)
    ViewOfData [0; 0; 0; 0].

Definition off : LedOutput := mkLedOutput (PyInt 0) (PyInt 0) (PyInt 0) (PyInt 0).

(* ================================================================= *)
(** ** The end sequence *)

Lemma fold_append_zero (A : Type) (xs : list A) (acc : list Z) :
  fold_left (fun output _ => output ++ [0x00]) xs acc
  = acc ++ repeat 0 (List.length xs).
Proof.
  revert acc; induction xs as [| x xs IH]; intros acc; simpl.
  - now rewrite app_nil_r.
  - rewrite IH, <- app_assoc. reflexivity.
Qed.

Lemma range_length (n : Z) : List.length (range n) = Z.to_nat n.
Proof. unfold range. now rewrite length_map, length_seq. Qed.

(** The number of bytes the function decides on. *)
Lemma end_sequence_repeat (leds : Z) :
  _generate_end_sequence leds
  = repeat 0
      (Z.to_nat (if truthy (if truthy leds then leds - 1 else 0) then
                   (if truthy ((if truthy leds then leds - 1 else 0) mod 16)
                    then (if truthy leds then leds - 1 else 0) / 16 + 1
                    else (if truthy leds then leds - 1 else 0) / 16)
                 else 0)).
Proof.
  unfold _generate_end_sequence. cbv zeta.
  now rewrite fold_append_zero, range_length.
Qed.

Lemma end_sequence_ceiling (N : Z) :
  0 <= N ->
  exists k, 0 <= k /\ is_ceil16 (Z.max (N - 1) 0) k /\
            _generate_end_sequence N = repeat 0 (Z.to_nat k).
Proof.
  intros HN. rewrite end_sequence_repeat. unfold truthy, is_ceil16.
  destruct (Z.eqb_spec N 0) as [-> | HN0]; simpl negb; cbv iota.
  - exists 0. simpl. repeat split; lia.
  - destruct (Z.eqb_spec (N - 1) 0) as [E | E]; simpl negb; cbv iota.
    + exists 0. rewrite E. simpl. repeat split; lia.
    + pose proof (Z.div_mod (N - 1) 16 ltac:(lia)) as D.
      pose proof (Z.mod_pos_bound (N - 1) 16 ltac:(lia)) as B.
      destruct (Z.eqb_spec ((N - 1) mod 16) 0) as [E' | E']; simpl negb; cbv iota.
      * exists ((N - 1) / 16). repeat split; try lia.
      * exists ((N - 1) / 16 + 1). repeat split; try lia.
Qed.

Lemma end_sequence_length (N : Z) :
  0 <= N -> is_ceil16 (Z.max (N - 1) 0) (len (_generate_end_sequence N)).
Proof.
  intros HN. destruct (end_sequence_ceiling N HN) as (k & Hk & Hc & ->).
  unfold len. rewrite repeat_length, Z2Nat.id by lia. exact Hc.
Qed.

(** C1, as amended: for every non-negative LED count [N] the end
    sequence is made of zero bytes only, and their number [k] is the
    ceiling of [max (N - 1) 0 / 16], that is [16 (k - 1) < max (N - 1) 0
    <= 16 k]; for [N] in 0, 1, 2, 16, 17, 1000 the byte counts are
    0, 0, 1, 1, 1, 63. *)
Theorem end_sequence_zero_bytes_ceiling :
  (forall N : Z, 0 <= N ->
     exists k, 0 <= k /\ is_ceil16 (Z.max (N - 1) 0) k /\
               _generate_end_sequence N = repeat 0 (Z.to_nat k)) /\
  map (fun N => len (_generate_end_sequence N)) [0; 1; 2; 16; 17; 1000]
  = [0; 0; 1; 1; 1; 63].
Proof.
  split.
  - exact end_sequence_ceiling.
  - vm_compute. reflexivity.
Qed.

Lemma end_sequence_zero_bytes_ceiling_witness :
  0 <= 17 /\
  exists k, 0 <= k /\ is_ceil16 (Z.max (17 - 1) 0) k /\
            _generate_end_sequence 17 = repeat 0 (Z.to_nat k).
Proof.
  split; [lia | apply (proj1 end_sequence_zero_bytes_ceiling 17); lia].
Defined.

(** C1, as stated, fails at 17 LEDs: 16 edges are one byte, not two. *)
Lemma end_sequence_counts_as_stated_fail :
  map (fun N => len (_generate_end_sequence N)) [0; 1; 2; 16; 17; 1000]
  <> [0; 0; 1; 1; 2; 63].
Proof. vm_compute. discriminate. Qed.

(* ================================================================= *)
(** ** Packing and unpacking *)

Lemma int_within_inv (lo hi : Z) (v : pyval) :
  int_within lo hi v = true -> exists z, v = PyInt z /\ lo <= z <= hi.
Proof.
  destruct v as [z | f]; simpl; [| discriminate].
  intros H. apply andb_prop in H as [H1 H2].
  exists z. split; [reflexivity | lia].
Qed.

Lemma valid_inv (o : LedOutput) :
  valid o = true ->
  exists w x y z,
    o = mkLedOutput (PyInt w) (PyInt x) (PyInt y) (PyInt z) /\
    0 <= w <= 31 /\ 0 <= x <= 255 /\ 0 <= y <= 255 /\ 0 <= z <= 255.
Proof.
  unfold valid. intros H.
  apply andb_prop in H as [H Hb]. apply andb_prop in H as [H Hg].
  apply andb_prop in H as [Hw Hr].
  apply int_within_inv in Hw as (w & Ew & Hw), Hr as (x & Ex & Hx).
  apply int_within_inv in Hg as (y & Ey & Hy), Hb as (z & Ez & Hz).
  exists w, x, y, z. destruct o; simpl in *; subst. auto.
Qed.

Lemma in_range (n z : Z) : 0 <= z < n -> In z (range n).
Proof.
  intros H. unfold range. apply in_map_iff. exists (Z.to_nat z).
  split; [lia | apply in_seq; lia].
Qed.

Lemma range_inv (n z : Z) : In z (range n) -> 0 <= z < n.
Proof.
  unfold range. intros H. apply in_map_iff in H as (k & <- & H).
  apply in_seq in H. lia.
Qed.

(** A check that holds on every element of [range n], by evaluation. *)
Lemma by_cases_below (n : Z) (P : Z -> bool) :
  forallb P (range n) = true -> forall z, 0 <= z < n -> P z = true.
Proof.
  intros H z Hz. rewrite forallb_forall in H. apply H, in_range, Hz.
Qed.

(** The marker leaves the five bits of the brightness alone and keeps
    the byte a byte. *)
Lemma marker_facts (w : Z) :
  0 <= w <= 31 ->
  Z.land (Z.lor w 0xe0) 0x1f = w /\ 0 <= Z.lor w 0xe0 <= 255.
Proof.
  intros H.
  assert (C : ((Z.land (Z.lor w 0xe0) 0x1f =? w) &&
               ((0 <=? Z.lor w 0xe0) && (Z.lor w 0xe0 <=? 255))) = true).
  { apply (by_cases_below 32
             (fun w => (Z.land (Z.lor w 0xe0) 0x1f =? w) &&
                       ((0 <=? Z.lor w 0xe0) && (Z.lor w 0xe0 <=? 255))));
      [vm_compute; reflexivity | lia]. }
  apply andb_prop in C as [C1 C2]. apply andb_prop in C2 as [C2 C3].
  split; lia.
Qed.

(** A byte whose top three bits are set is the marker over its low five
    bits. *)
Lemma marked_byte_facts (x : Z) :
  0 <= x < 256 -> Z.shiftr x 5 = 7 ->
  Z.lor (Z.land x 0x1f) 0xe0 = x /\ 0 <= Z.land x 0x1f <= 31.
Proof.
  intros H E.
  assert (C : (negb (Z.shiftr x 5 =? 7) ||
               ((Z.lor (Z.land x 0x1f) 0xe0 =? x) &&
                ((0 <=? Z.land x 0x1f) && (Z.land x 0x1f <=? 31)))) = true).
  { apply (by_cases_below 256
             (fun x => negb (Z.shiftr x 5 =? 7) ||
                       ((Z.lor (Z.land x 0x1f) 0xe0 =? x) &&
                        ((0 <=? Z.land x 0x1f) && (Z.land x 0x1f <=? 31)))));
      [vm_compute; reflexivity | lia]. }
  rewrite E in C. simpl in C.
  apply andb_prop in C as [C1 C2]. apply andb_prop in C2 as [C2 C3].
  split; lia.
Qed.

Lemma struct_B_byte (z : Z) : 0 <= z <= 255 -> struct_B (PyInt z) = Ok z.
Proof.
  intros H. unfold struct_B.
  destruct (Z.leb_spec 0 z); [| lia]. destruct (Z.leb_spec z 255); [| lia].
  reflexivity.
Qed.

(** What packing a valid output gives. *)
Lemma pack_of_valid (w x y z : Z) :
  0 <= w <= 31 -> 0 <= x <= 255 -> 0 <= y <= 255 -> 0 <= z <= 255 ->
  _pack_wrgb (mkLedOutput (PyInt w) (PyInt x) (PyInt y) (PyInt z))
  = Ok [Z.lor w 0xe0; z; y; x].
Proof.
  intros Hw Hx Hy Hz. unfold _pack_wrgb. cbn [py_or rbind brt r g b].
  rewrite (struct_B_byte (Z.lor w 0xe0)) by (apply marker_facts; exact Hw).
  rewrite !struct_B_byte by assumption. reflexivity.
Qed.

Lemma unpack_after_pack (v : LedOutput) :
  valid v = true ->
  (w <- _pack_wrgb v ;; _ledoutput_from_led_command w)%result = Ok v.
Proof.
  intros H. apply valid_inv in H as (w & x & y & z & -> & Hw & Hx & Hy & Hz).
  rewrite pack_of_valid by assumption.
  cbn [rbind _ledoutput_from_led_command getitem nth_error].
  unfold py_and. now rewrite (proj1 (marker_facts w Hw)).
Qed.

Lemma marked_word_inv (w : list Z) :
  marked_word w = true ->
  exists w0 w1 w2 w3,
    w = [w0; w1; w2; w3] /\ 0 <= w0 < 256 /\ 0 <= w1 < 256 /\
    0 <= w2 < 256 /\ 0 <= w3 < 256 /\ Z.shiftr w0 5 = 7.
Proof.
  destruct w as [| w0 [| w1 [| w2 [| w3 [| ? ?]]]]]; simpl; try discriminate.
  unfold byteb. intros H.
  repeat (apply andb_prop in H as [H ?]).
  exists w0, w1, w2, w3. repeat split; try reflexivity; lia.
Qed.

Lemma pack_after_unpack (w : list Z) :
  marked_word w = true ->
  (v <- _ledoutput_from_led_command w ;; _pack_wrgb v)%result = Ok w.
Proof.
  intros H.
  apply marked_word_inv in H as (w0 & w1 & w2 & w3 & -> & H0 & H1 & H2 & H3 & E).
  destruct (marked_byte_facts w0 H0 E) as [Hm Hb].
  cbn [rbind _ledoutput_from_led_command getitem nth_error].
  unfold py_and. rewrite pack_of_valid by lia. now rewrite Hm.
Qed.

(** C3: packing and unpacking are mutually inverse: unpacking the
    packed form of a valid output gives the output back, and packing the
    unpacked form of a 4-byte word whose first byte has its top three
    bits set gives the word back. *)
Theorem pack_unpack_mutually_inverse :
  (forall v : LedOutput, valid v = true ->
     (w <- _pack_wrgb v ;; _ledoutput_from_led_command w)%result = Ok v) /\
  (forall w : list Z, marked_word w = true ->
     (v <- _ledoutput_from_led_command w ;; _pack_wrgb v)%result = Ok w).
Proof.
  split; [exact unpack_after_pack | exact pack_after_unpack].
Qed.

Lemma pack_unpack_mutually_inverse_witness :
  (valid (mkLedOutput (PyInt 11) (PyInt 125) (PyInt 65) (PyInt 200)) = true /\
   (w <- _pack_wrgb (mkLedOutput (PyInt 11) (PyInt 125) (PyInt 65) (PyInt 200)) ;;
    _ledoutput_from_led_command w)%result
   = Ok (mkLedOutput (PyInt 11) (PyInt 125) (PyInt 65) (PyInt 200))) /\
  (marked_word [0xef; 0x45; 0xab; 0xde] = true /\
   (v <- _ledoutput_from_led_command [0xef; 0x45; 0xab; 0xde] ;;
    _pack_wrgb v)%result
   = Ok [0xef; 0x45; 0xab; 0xde]).
Proof.
  split; (split; [reflexivity |]).
  - apply (proj1 pack_unpack_mutually_inverse). reflexivity.
  - apply (proj2 pack_unpack_mutually_inverse). reflexivity.
Defined.

(* ================================================================= *)
(** ** Validation *)

(** Each test of the check is the test of the data model: an integer
    within the bounds. A float fails it whatever the comparison says. *)
Lemma range_test_int_within (lo hi : Z) (v : pyval) :
  between lo v hi && isinstance_int v = int_within lo hi v.
Proof.
  destruct v as [z | f]; simpl.
  - unfold between. simpl. apply andb_true_r.
  - apply andb_false_r.
Qed.

Lemma check_accepts_valid (o : LedOutput) :
  valid o = true -> _check_ledoutput_range o = Ok tt.
Proof.
  unfold valid, _check_ledoutput_range. rewrite !range_test_int_within.
  intros H.
  apply andb_prop in H as [H Hb]. apply andb_prop in H as [H Hg].
  apply andb_prop in H as [Hw Hr].
  rewrite Hw, Hr, Hg, Hb. reflexivity.
Qed.

(** The check raises on every output that is not valid, and the literal
    text of its message names a field that is invalid. *)
Lemma check_rejects_invalid (o : LedOutput) :
  valid o = false ->
  exists (f : field) (text tail : string) (shown : pyval),
    _check_ledoutput_range o
    = Raise (ValueError [Lit class_name_LedOutput; Lit text; Repr shown; Lit tail]) /\
    contains (field_word f) text = true /\
    int_within 0 (field_bound f) (field_value f o) = false.
Proof.
  unfold valid, _check_ledoutput_range. rewrite !range_test_int_within.
  intros H.
  destruct (int_within 0 31 (brt o)) eqn:E1; simpl negb; cbv iota.
  2:{ exists Brightness. do 3 eexists. split; [reflexivity |]. split; [reflexivity | exact E1]. }
  destruct (int_within 0 255 (r o)) eqn:E2; simpl negb; cbv iota.
  2:{ exists Red. do 3 eexists. split; [reflexivity |]. split; [reflexivity | exact E2]. }
  destruct (int_within 0 255 (g o)) eqn:E3; simpl negb; cbv iota.
  2:{ exists Green. do 3 eexists. split; [reflexivity |]. split; [reflexivity | exact E3]. }
  destruct (int_within 0 255 (b o)) eqn:E4; simpl negb; cbv iota.
  2:{ exists Blue. do 3 eexists. split; [reflexivity |]. split; [reflexivity | exact E4]. }
  discriminate H.
Qed.

(** The indexed set validates before anything else: an invalid output
    raises the error of the check and leaves the object as it was. *)
Lemma setitem_rejects_invalid (i : Z) (o : LedOutput) (s : APA102) :
  valid o = false ->
  exists msg, _check_ledoutput_range o = Raise (ValueError msg) /\
              __setitem__ i o s = (Raise (ValueError msg), s).
Proof.
  intros H. destruct (check_rejects_invalid o H) as (f & text & tail & shown & E & _).
  eexists. split; [exact E |].
  unfold __setitem__, bind, lift. rewrite E. reflexivity.
Qed.

(** For the brightness and the red channel the message shows the value
    of the field it names. *)
Lemma check_shows_brightness (o : LedOutput) :
  int_within 0 31 (brt o) = false ->
  exists text tail,
    _check_ledoutput_range o
    = Raise (ValueError [Lit class_name_LedOutput; Lit text; Repr (brt o); Lit tail]) /\
    contains "brightness" text = true.
Proof.
  intros H. unfold _check_ledoutput_range. rewrite range_test_int_within, H.
  do 2 eexists. split; reflexivity.
Qed.

Lemma check_shows_red (o : LedOutput) :
  int_within 0 31 (brt o) = true ->
  int_within 0 255 (r o) = false ->
  exists text tail,
    _check_ledoutput_range o
    = Raise (ValueError [Lit class_name_LedOutput; Lit text; Repr (r o); Lit tail]) /\
    contains "red" text = true.
Proof.
  intros H1 H2. unfold _check_ledoutput_range.
  rewrite !range_test_int_within, H1, H2.
  do 2 eexists. split; reflexivity.
Qed.

(** For the green and the blue channel the message names the field and
    shows the value of the red one. *)
Lemma check_green_shows_red (o : LedOutput) :
  int_within 0 31 (brt o) = true ->
  int_within 0 255 (r o) = true ->
  int_within 0 255 (g o) = false ->
  exists text tail,
    _check_ledoutput_range o
    = Raise (ValueError [Lit class_name_LedOutput; Lit text; Repr (r o); Lit tail]) /\
    contains "green" text = true.
Proof.
  intros H1 H2 H3. unfold _check_ledoutput_range.
  rewrite !range_test_int_within, H1, H2, H3.
  do 2 eexists. split; reflexivity.
Qed.

Lemma check_blue_shows_red (o : LedOutput) :
  int_within 0 31 (brt o) = true ->
  int_within 0 255 (r o) = true ->
  int_within 0 255 (g o) = true ->
  int_within 0 255 (b o) = false ->
  exists text tail,
    _check_ledoutput_range o
    = Raise (ValueError [Lit class_name_LedOutput; Lit text; Repr (r o); Lit tail]) /\
    contains "blue" text = true.
Proof.
  intros H1 H2 H3 H4. unfold _check_ledoutput_range.
  rewrite !range_test_int_within, H1, H2, H3, H4.
  do 2 eexists. split; reflexivity.
Qed.

(** C2 at the input [LedOutput(0, 0, 300, 0)]: the indexed set raises a
    [ValueError] that names the green field, and the value it prints is
    the red one, 0; the invalid value 300 is nowhere in the message. *)
Theorem setitem_green_message_prints_red (repr_float : spec_float -> string) :
  exists msg,
    __setitem__ 0 (mkLedOutput (PyInt 0) (PyInt 0) (PyInt 300) (PyInt 0))
                (fresh 8 quiet_lines)
    = (Raise (ValueError msg), fresh 8 quiet_lines) /\
    render repr_float msg
    = "LedOutput: green setting invalid: got 0, expected integer within [0, 0xff]"%string /\
    contains "green" (render repr_float msg) = true /\
    contains "300" (render repr_float msg) = false /\
    ~ In (Repr (PyInt 300)) msg.
Proof.
  eexists. split; [reflexivity |].
  split; [reflexivity |]. split; [reflexivity |]. split; [reflexivity |].
  simpl. intros [H | [H | [H | [H | []]]]]; discriminate H.
Qed.

(* ================================================================= *)
(** ** Writing to the lines *)

Lemma set_lines_same (s : APA102) : set_lines (_lines s) s = s.
Proof. now destruct s. Qed.

Lemma wrote_nil (l : Lines) : wrote [] l = l.
Proof. destruct l. unfold wrote. simpl. now rewrite app_nil_r. Qed.

Lemma wrote_app (a b : list (Z * Z)) (l : Lines) :
  wrote b (wrote a l) = wrote (a ++ b) l.
Proof. unfold wrote. simpl. now rewrite app_assoc. Qed.

Lemma write_all_app (a b : list (Z * Z)) (l : Lines) :
  write_all (a ++ b) l = (write_all a ;; write_all b)%monad l.
Proof.
  revert l. induction a as [| w a IH]; intros l; simpl.
  - reflexivity.
  - unfold bind. destruct (set_values w l) as [[[] | e] l1].
    + rewrite IH. reflexivity.
    + reflexivity.
Qed.

(** Over a handle that never fails every pair is written. *)
Lemma write_all_reliable (ws : list (Z * Z)) (l : Lines) :
  reliable l -> write_all ws l = (Ok tt, wrote ws l).
Proof.
  revert l. induction ws as [| w ws IH]; intros l R; simpl.
  - unfold ret. now rewrite wrote_nil.
  - unfold bind, set_values. rewrite R.
    change (mkLines (written l ++ [w]) (lines_released l) (faulty l))
      with (wrote [w] l).
    rewrite IH by (intros h v; apply R). now rewrite wrote_app.
Qed.

(** In general a prefix is written: all of it when the call returns,
    less when it raises, and then what it raises is [OSError]. *)
Lemma write_all_outcome (ws : list (Z * Z)) (l : Lines) :
  exists n : nat,
    snd (write_all ws l) = wrote (firstn n ws) l /\
    ((fst (write_all ws l) = Ok tt /\ n = List.length ws) \/
     (fst (write_all ws l) = Raise OSError /\ (n < List.length ws)%nat)).
Proof.
  revert l. induction ws as [| w ws IH]; intros l; simpl.
  - exists 0%nat. simpl. rewrite wrote_nil. auto.
  - unfold bind, set_values. destruct (faulty l (written l) w).
    + exists 0%nat. simpl. rewrite wrote_nil. split; [reflexivity |].
      right. split; [reflexivity | lia].
    + change (mkLines (written l ++ [w]) (lines_released l) (faulty l))
        with (wrote [w] l).
      destruct (IH (wrote [w] l)) as (n & Hs & Ho).
      exists (S n). simpl firstn.
      change (w :: firstn n ws) with ([w] ++ firstn n ws).
      rewrite <- (wrote_app [w]). split; [exact Hs |].
      simpl List.length. destruct Ho as [[Ho Hn] | [Ho Hn]]; [left | right];
        (split; [exact Ho | lia]).
Qed.

(** The expression of the source for bit [k] is bit [k]. *)
Lemma shifted_mask_is_bit (byte k : Z) :
  0 <= k -> Z.land (Z.shiftr byte k) 0x01 = bit_at byte k.
Proof.
  intros Hk. unfold bit_at. change 0x01 with (Z.ones 1).
  rewrite Z.land_ones by lia. change (2 ^ 1) with 2.
  rewrite <- Z.bit0_mod, Z.shiftr_spec by lia. rewrite Z.add_0_l.
  now destruct (Z.testbit byte k).
Qed.

Lemma send_bit_writes (byte k : Z) (l : Lines) :
  0 <= k ->
  send_bit byte k l = write_all [(0, bit_at byte k); (1, bit_at byte k)] l.
Proof.
  intros Hk. unfold send_bit. cbv zeta. rewrite shifted_mask_is_bit by exact Hk.
  simpl. unfold bind.
  destruct (set_values (0, bit_at byte k) l) as [[[] | e] l1]; [| reflexivity].
  destruct (set_values (1, bit_at byte k) l1) as [[[] | e] l2]; reflexivity.
Qed.

Lemma then_writes (c k : M Lines unit) (a b : list (Z * Z)) :
  (forall l, c l = write_all a l) ->
  (forall l, k l = write_all b l) ->
  forall l, (c ;; k)%monad l = write_all (a ++ b) l.
Proof.
  intros Hc Hk l. rewrite write_all_app. unfold bind. rewrite Hc.
  destruct (write_all a l) as [[[] | e] l1]; [apply Hk | reflexivity].
Qed.

(** The sixteen writes of one iteration are the waveform of the byte. *)
Lemma send_bits_write_byte (byte : Z) (l : Lines) :
  (send_bit byte 7 ;; send_bit byte 6 ;; send_bit byte 5 ;; send_bit byte 4 ;;
   send_bit byte 3 ;; send_bit byte 2 ;; send_bit byte 1 ;; send_bit byte 0)%monad l
  = write_all (byte_waveform byte) l.
Proof.
  revert l. unfold byte_waveform, bits_msb_first. cbn [map flat_map].
  rewrite app_nil_r.
  repeat (apply then_writes; [intros l; apply send_bit_writes; lia |]).
  intros l; apply send_bit_writes; lia.
Qed.

(* ================================================================= *)
(** ** The transmission of [commit] *)

Lemma transmit_run (ws : list (Z * Z)) (s : APA102) :
  transmit ws s
  = (fst (write_all ws (_lines s)), set_lines (snd (write_all ws (_lines s))) s).
Proof.
  unfold transmit, zoom. now destruct (write_all ws (_lines s)).
Qed.

Lemma transmit_app (a b : list (Z * Z)) (s : APA102) :
  transmit (a ++ b) s = (transmit a ;; transmit b)%monad s.
Proof.
  unfold bind. rewrite !transmit_run, write_all_app. unfold bind.
  destruct (write_all a (_lines s)) as [[[] | e] l1]; [| reflexivity].
  cbn [fst snd]. reflexivity.
Qed.

Lemma transmit_nil (s : APA102) : transmit [] s = (Ok tt, s).
Proof. rewrite transmit_run. simpl. now rewrite set_lines_same. Qed.

Lemma commit_iteration_transmits (pre rest : list Z) (x : Z) (s : APA102) :
  _data s = pre ++ x :: rest ->
  commit_iteration (Z.of_nat (List.length pre)) s = transmit (byte_waveform x) s.
Proof.
  intros E. unfold commit_iteration, bind at 1, get.
  rewrite Nat2Z.id, E. unfold getitem.
  rewrite nth_error_app2, Nat.sub_diag by lia. simpl nth_error.
  unfold transmit, zoom. rewrite <- send_bits_write_byte.
  unfold bind, lift. reflexivity.
Qed.

Lemma transmit_keeps_data (ws : list (Z * Z)) (s : APA102) :
  _data (snd (transmit ws s)) = _data s.
Proof. rewrite transmit_run. reflexivity. Qed.

(** The loop over the indices of the bytes still to send transmits the
    waveform of those bytes. *)
Lemma commit_loop_transmits (rest pre : list Z) (s : APA102) :
  _data s = pre ++ rest ->
  for_each (map Z.of_nat (seq (List.length pre) (List.length rest)))
           commit_iteration s
  = transmit (waveform rest) s.
Proof.
  revert pre s. induction rest as [| x rest IH]; intros pre s E.
  - simpl. unfold ret. now rewrite transmit_nil.
  - simpl List.length. simpl seq. simpl map. simpl for_each.
    change (waveform (x :: rest)) with (byte_waveform x ++ waveform rest).
    rewrite transmit_app. unfold bind.
    rewrite (commit_iteration_transmits pre rest x s E).
    pose proof (transmit_keeps_data (byte_waveform x) s) as K.
    destruct (transmit (byte_waveform x) s) as [[[] | e] s1]; [| reflexivity].
    simpl in K.
    replace (S (List.length pre)) with (List.length (pre ++ [x]))
      by (rewrite length_app; simpl; lia).
    apply IH. rewrite K, E, <- app_assoc. reflexivity.
Qed.

(** [commit] on a modified framebuffer: transmit its waveform, then
    clear the flag. *)
Lemma commit_dirty (s : APA102) :
  _data_modified s = true ->
  commit s
  = (transmit (waveform (_data s)) ;; modify (set_data_modified false))%monad s.
Proof.
  intros D. unfold commit, bind at 1, get. rewrite D. unfold when.
  pose proof (commit_loop_transmits (_data s) [] s eq_refl) as L.
  change (List.length (@nil Z)) with 0%nat in L.
  unfold bind. unfold range, len. rewrite Nat2Z.id, L. reflexivity.
Qed.

(** [commit] on an unmodified framebuffer does nothing. *)
Lemma commit_clean (s : APA102) :
  _data_modified s = false -> commit s = (Ok tt, s).
Proof.
  intros D. unfold commit, bind, get. rewrite D. reflexivity.
Qed.

Lemma write_all_accepted (ws : list (Z * Z)) (l : Lines) :
  accepts l ws = true -> write_all ws l = (Ok tt, wrote ws l).
Proof.
  revert l. induction ws as [| w ws IH]; intros l A; simpl.
  - unfold ret. now rewrite wrote_nil.
  - simpl in A. apply andb_prop in A as [A1 A2].
    unfold bind, set_values. apply negb_true_iff in A1. rewrite A1.
    rewrite IH by exact A2.
    change (mkLines (written l ++ [w]) (lines_released l) (faulty l))
      with (wrote [w] l).
    now rewrite wrote_app.
Qed.

Lemma reliable_accepts (ws : list (Z * Z)) (l : Lines) :
  reliable l -> accepts l ws = true.
Proof.
  revert l. induction ws as [| w ws IH]; intros l R; simpl.
  - reflexivity.
  - rewrite R. simpl. apply IH. intros h v. apply R.
Qed.

(** A transmitting [commit] whose writes all succeed: the waveform of
    the whole framebuffer is written and the flag is cleared. *)
Lemma commit_accepted (s : APA102) :
  _data_modified s = true ->
  accepts (_lines s) (waveform (_data s)) = true ->
  commit s
  = (Ok tt,
     set_data_modified false
       (set_lines (wrote (waveform (_data s)) (_lines s)) s)).
Proof.
  intros D A. rewrite commit_dirty by exact D.
  unfold bind. rewrite transmit_run, write_all_accepted by exact A.
  reflexivity.
Qed.

(** What [commit] leaves when it raises: it raised [OSError] while
    writing, part of the waveform went out, and nothing else changed. *)
Lemma commit_raised (s s' : APA102) (e : exn) :
  commit s = (Raise e, s') ->
  e = OSError /\ _data_modified s = true /\
  exists n : nat,
    (n < List.length (waveform (_data s)))%nat /\
    s' = set_lines (wrote (firstn n (waveform (_data s))) (_lines s)) s.
Proof.
  intros C. destruct (_data_modified s) eqn:D.
  2:{ rewrite commit_clean in C by exact D. discriminate C. }
  rewrite commit_dirty in C by exact D. unfold bind in C.
  rewrite transmit_run in C.
  destruct (write_all_outcome (waveform (_data s)) (_lines s)) as (n & Hs & Ho).
  destruct Ho as [[Ho Hn] | [Ho Hn]]; rewrite Ho, Hs in C.
  - discriminate C.
  - injection C as <- <-. split; [reflexivity |]. split; [reflexivity |].
    exists n. split; [exact Hn | reflexivity].
Qed.

(** Whatever [commit] does, it is to the flag and to the lines. *)
Lemma commit_outcome (s : APA102) :
  exists (flag : bool) (ws : list (Z * Z)),
    snd (commit s) = set_data_modified flag (set_lines (wrote ws (_lines s)) s).
Proof.
  destruct (_data_modified s) eqn:D.
  - rewrite commit_dirty by exact D. unfold bind. rewrite transmit_run.
    destruct (write_all_outcome (waveform (_data s)) (_lines s)) as (n & Hs & Ho).
    rewrite Hs. exists (match fst (write_all (waveform (_data s)) (_lines s)) with
                        | Ok _ => false | Raise _ => true end).
    exists (firstn n (waveform (_data s))).
    destruct (fst (write_all (waveform (_data s)) (_lines s))); simpl.
    + reflexivity.
    + destruct s; simpl in *. now rewrite D.
  - rewrite commit_clean by exact D. exists false, []. simpl.
    rewrite wrote_nil. destruct s; simpl in *. now rewrite D.
Qed.

(* ================================================================= *)
(** ** The waveform *)

Lemma byte_waveform_length (byte : Z) : List.length (byte_waveform byte) = 16%nat.
Proof. reflexivity. Qed.

Lemma waveform_length (bytes : list Z) :
  List.length (waveform bytes) = (16 * List.length bytes)%nat.
Proof.
  induction bytes as [| x bytes IH].
  - reflexivity.
  - change (waveform (x :: bytes)) with (byte_waveform x ++ waveform bytes).
    rewrite length_app, byte_waveform_length, IH. simpl List.length. lia.
Qed.

(** The sixteen writes of byte [j] sit at offset [16 j]. *)
Lemma waveform_at_byte (bytes : list Z) (j : nat) (byte : Z) :
  nth_error bytes j = Some byte ->
  firstn 16 (skipn (16 * j) (waveform bytes)) = byte_waveform byte.
Proof.
  revert j. induction bytes as [| x bytes IH]; intros j H.
  - destruct j; discriminate H.
  - change (waveform (x :: bytes)) with (byte_waveform x ++ waveform bytes).
    destruct j as [| j].
    + injection H as ->. rewrite Nat.mul_0_r, skipn_O.
      rewrite firstn_app, byte_waveform_length, Nat.sub_diag, firstn_O.
      rewrite app_nil_r. apply firstn_all2. rewrite byte_waveform_length. lia.
    + simpl in H. replace (16 * S j)%nat with (16 * j + 16)%nat by lia.
      rewrite <- skipn_skipn.
      rewrite (skipn_app 16), byte_waveform_length, Nat.sub_diag.
      rewrite (skipn_all2 (byte_waveform x)) by (rewrite byte_waveform_length; lia).
      rewrite skipn_O. cbn [app]. apply IH, H.
Qed.

Lemma nth_error_firstn_skipn (A : Type) (l : list A) (a n m : nat) :
  (m < n)%nat -> nth_error (firstn n (skipn a l)) m = nth_error l (a + m).
Proof.
  intros H. rewrite nth_error_firstn.
  destruct (Nat.ltb_spec m n); [| lia]. apply nth_error_skipn.
Qed.

(** Bit [7 - k] of byte [j] takes the writes [16 j + 2 k], with the
    clock low, and [16 j + 2 k + 1], with the clock high. *)
Lemma waveform_at_bit (bytes : list Z) (j k : nat) (byte : Z) :
  nth_error bytes j = Some byte -> (k < 8)%nat ->
  nth_error (waveform bytes) (16 * j + 2 * k)
  = Some (0, bit_at byte (7 - Z.of_nat k)) /\
  nth_error (waveform bytes) (16 * j + 2 * k + 1)
  = Some (1, bit_at byte (7 - Z.of_nat k)).
Proof.
  intros H Hk. pose proof (waveform_at_byte bytes j byte H) as W.
  rewrite <- (nth_error_firstn_skipn _ _ _ 16) by lia.
  rewrite <- Nat.add_assoc.
  rewrite <- (nth_error_firstn_skipn _ (waveform bytes) _ 16) by lia.
  rewrite W.
  do 8 (destruct k as [| k]; [split; reflexivity |]). lia.
Qed.

Lemma rising_edges_byte (byte clock : Z) (rest : list (Z * Z)) :
  rising_edges clock (byte_waveform byte ++ rest)
  = bits_msb_first byte ++ rising_edges 1 rest.
Proof.
  unfold byte_waveform, bits_msb_first. cbn [map flat_map app rising_edges].
  change (0 =? 1) with false. rewrite andb_false_r. reflexivity.
Qed.

Lemma byte_of_its_bits (x : Z) :
  0 <= x < 256 -> byte_of_bits (bits_msb_first x) = x.
Proof.
  intros H. apply Z.eqb_eq.
  apply (by_cases_below 256 (fun x => byte_of_bits (bits_msb_first x) =? x));
    [vm_compute; reflexivity | exact H].
Qed.

(** A chain that samples the data at each rising clock edge receives
    the bytes of the framebuffer, in order. *)
Lemma received_waveform (bytes : list Z) (clock : Z) :
  forallb byteb bytes = true -> received clock (waveform bytes) = bytes.
Proof.
  unfold received. revert clock.
  induction bytes as [| x bytes IH]; intros clock H.
  - reflexivity.
  - simpl in H. apply andb_prop in H as [Hx H].
    change (waveform (x :: bytes)) with (byte_waveform x ++ waveform bytes).
    rewrite rising_edges_byte.
    change (bytes_of_bits (bits_msb_first x ++ rising_edges 1 (waveform bytes)))
      with (byte_of_bits (bits_msb_first x)
            :: bytes_of_bits (rising_edges 1 (waveform bytes))).
    rewrite IH by exact H. rewrite byte_of_its_bits; [reflexivity |].
    unfold byteb in Hx. apply andb_prop in Hx as [H1 H2]. lia.
Qed.

(* ================================================================= *)
(** ** Slices of the framebuffer *)

Lemma list_eqb_eq (l1 l2 : list Z) : list_eqb l1 l2 = true <-> l1 = l2.
Proof.
  revert l2. induction l1 as [| x l1 IH]; intros [| y l2]; simpl;
    try (split; [discriminate | discriminate]); [tauto |].
  rewrite andb_true_iff, Z.eqb_eq, IH. split.
  - intros [-> ->]. reflexivity.
  - intros E. injection E as -> ->. auto.
Qed.

Lemma list_eqb_refl (l : list Z) : list_eqb l l = true.
Proof. now apply list_eqb_eq. Qed.

Lemma adjust_inside (n i : Z) : 0 <= i <= n -> adjust n i = i.
Proof.
  intros H. unfold adjust.
  destruct (Z.ltb_spec i 0); [lia |].
  destruct (Z.leb_spec n i); lia.
Qed.

Lemma adjust_bounds (n i : Z) : 0 <= n -> 0 <= adjust n i <= n.
Proof.
  intros H. unfold adjust.
  destruct (Z.ltb_spec i 0).
  - destruct (Z.ltb_spec (i + n) 0); lia.
  - destruct (Z.leb_spec n i); lia.
Qed.

(** A slice never reaches past the end of the buffer. *)
Lemma slice_within (n start stop : Z) :
  0 <= n ->
  (slice_length n start stop = 0 \/
   slice_start n start + slice_length n start stop <= Z.to_nat n)%nat.
Proof.
  intros H. unfold slice_start, slice_length.
  pose proof (adjust_bounds n start H). pose proof (adjust_bounds n stop H).
  lia.
Qed.

(** The slice of the word of an LED that the buffer has room for. *)
Lemma word_slice (A : Type) (l : list A) (i : Z) :
  0 <= i -> 8 + i * 4 <= len l ->
  slice_start (len l) (4 + i * 4) = Z.to_nat (4 + i * 4) /\
  slice_length (len l) (4 + i * 4) (8 + i * 4) = 4%nat.
Proof.
  intros Hi Hl. unfold slice_start, slice_length.
  rewrite !adjust_inside by lia. split; [reflexivity | lia].
Qed.

Lemma getslice_word (A : Type) (l : list A) (i : Z) :
  0 <= i -> 8 + i * 4 <= len l ->
  getslice l (4 + i * 4) (8 + i * 4) = firstn 4 (skipn (Z.to_nat (4 + i * 4)) l).
Proof.
  intros Hi Hl. unfold getslice.
  destruct (word_slice A l i Hi Hl) as [-> ->]. reflexivity.
Qed.

(** The buffer around the word at offset [a]. *)
Lemma split_around (A : Type) (l : list A) (a n : nat) :
  l = firstn a l ++ firstn n (skipn a l) ++ skipn (a + n) l.
Proof.
  rewrite (Nat.add_comm a n), <- skipn_skipn, !firstn_skipn. reflexivity.
Qed.

(** A slice that ends within a prefix ignores what follows it. *)
Lemma slice_of_prefix (A : Type) (pre rest : list A) (a n : nat) :
  (a + n <= List.length pre)%nat ->
  firstn n (skipn a (pre ++ rest)) = firstn n (skipn a pre).
Proof.
  intros H. rewrite skipn_app, firstn_app, length_skipn.
  replace (n - (List.length pre - a))%nat with 0%nat by lia.
  rewrite firstn_O. apply app_nil_r.
Qed.

(** What lies after a prefix ignores what the prefix holds. *)
Lemma skip_past_prefix (A : Type) (pre pre' rest : list A) (a : nat) :
  List.length pre = List.length pre' -> (List.length pre <= a)%nat ->
  skipn a (pre ++ rest) = skipn a (pre' ++ rest).
Proof.
  intros E H. rewrite !skipn_app, <- E.
  rewrite (skipn_all2 pre), (skipn_all2 pre') by lia. reflexivity.
Qed.

(* ================================================================= *)
(** ** The layout invariant *)

Lemma len_nonneg (A : Type) (l : list A) : 0 <= len l.
Proof. unfold len. lia. Qed.

Lemma well_formed_inv (s : APA102) :
  well_formed s = true ->
  0 <= _leds s /\
  len (_data s) = frame_length (_leds s) /\
  forallb byteb (_data s) = true /\
  firstn 4 (_data s) = APA102_START /\
  (forall i, 0 <= i < _leds s -> marked_word (led_word s i) = true) /\
  skipn (Z.to_nat (4 + 4 * _leds s)) (_data s) = _generate_end_sequence (_leds s) /\
  List.length (_wrgb_buffer s) = 4%nat.
Proof.
  unfold well_formed. intros H.
  apply andb_prop in H as [H H7]. apply andb_prop in H as [H H6].
  apply andb_prop in H as [H H5]. apply andb_prop in H as [H H4].
  apply andb_prop in H as [H H3]. apply andb_prop in H as [H1 H2].
  repeat split.
  - lia.
  - lia.
  - exact H3.
  - now apply list_eqb_eq.
  - intros i Hi. rewrite forallb_forall in H5. apply H5, in_range, Hi.
  - now apply list_eqb_eq.
  - now apply Nat.eqb_eq.
Qed.

Lemma well_formed_intro (s : APA102) :
  0 <= _leds s ->
  len (_data s) = frame_length (_leds s) ->
  forallb byteb (_data s) = true ->
  firstn 4 (_data s) = APA102_START ->
  (forall i, 0 <= i < _leds s -> marked_word (led_word s i) = true) ->
  skipn (Z.to_nat (4 + 4 * _leds s)) (_data s) = _generate_end_sequence (_leds s) ->
  List.length (_wrgb_buffer s) = 4%nat ->
  well_formed s = true.
Proof.
  intros H1 H2 H3 H4 H5 H6 H7. unfold well_formed.
  repeat (apply andb_true_intro; split).
  - lia.
  - lia.
  - exact H3.
  - now apply list_eqb_eq.
  - apply forallb_forall. intros i Hi. apply H5, range_inv, Hi.
  - now apply list_eqb_eq.
  - now apply Nat.eqb_eq.
Qed.

(** The framebuffer has room for the word of every LED. *)
Lemma word_room (s : APA102) (i : Z) :
  well_formed s = true -> 0 <= i < _leds s -> 8 + i * 4 <= len (_data s).
Proof.
  intros W Hi. apply well_formed_inv in W as (_ & L & _).
  rewrite L. unfold frame_length.
  pose proof (len_nonneg Z (_generate_end_sequence (_leds s))). lia.
Qed.

(** The layout reads only the LED count, the framebuffer and the
    length of the scratch word. *)
Lemma well_formed_ext (s s' : APA102) :
  _leds s' = _leds s -> _data s' = _data s ->
  List.length (_wrgb_buffer s') = List.length (_wrgb_buffer s) ->
  well_formed s' = well_formed s.
Proof.
  intros E1 E2 E3. unfold well_formed, led_word. now rewrite E1, E2, E3.
Qed.

(* ================================================================= *)
(** ** Storing a word *)

Section StoreWord.

Variables (d w : list Z) (i : Z).
Hypothesis Hi : 0 <= i.
Hypothesis room : 8 + i * 4 <= len d.
Hypothesis four : List.length w = 4%nat.

Lemma prefix_length : List.length (firstn (Z.to_nat (4 + i * 4)) d) = Z.to_nat (4 + i * 4).
Proof. rewrite length_firstn. unfold len in room. lia. Qed.

Lemma store_word_length : List.length (store_word i w d) = List.length d.
Proof.
  unfold store_word. rewrite !length_app, prefix_length, four, length_skipn.
  unfold len in room. lia.
Qed.

Lemma store_word_len : len (store_word i w d) = len d.
Proof. unfold len. now rewrite store_word_length. Qed.

Lemma store_word_same :
  getslice (store_word i w d) (4 + i * 4) (8 + i * 4) = w.
Proof.
  rewrite getslice_word by (rewrite ?store_word_len; lia).
  unfold store_word. rewrite skipn_app, prefix_length, Nat.sub_diag, skipn_O.
  rewrite skipn_all2 by (rewrite prefix_length; lia). cbn [app].
  rewrite firstn_app, four, Nat.sub_diag, firstn_O, app_nil_r.
  apply firstn_all2. lia.
Qed.

Lemma store_word_other (j : Z) :
  0 <= j -> 8 + j * 4 <= len d -> j <> i ->
  getslice (store_word i w d) (4 + j * 4) (8 + j * 4)
  = getslice d (4 + j * 4) (8 + j * 4).
Proof.
  intros Hj Hr Hne.
  rewrite !getslice_word by (rewrite ?store_word_len; lia).
  destruct (Z.lt_trichotomy j i) as [Hlt | [Heq | Hgt]]; [| lia |].
  - unfold store_word. rewrite slice_of_prefix by (rewrite prefix_length; lia).
    rewrite (split_around Z d (Z.to_nat (4 + i * 4)) 4) at 2.
    rewrite slice_of_prefix by (rewrite prefix_length; lia). reflexivity.
  - f_equal. unfold store_word.
    rewrite (split_around Z d (Z.to_nat (4 + i * 4)) 4) at 3.
    rewrite !app_assoc. apply skip_past_prefix.
    + rewrite !length_app, four, !length_firstn, length_skipn.
      unfold len in room. lia.
    + rewrite length_app, prefix_length, four. lia.
Qed.

Lemma store_word_start : firstn 4 (store_word i w d) = firstn 4 d.
Proof.
  unfold store_word.
  rewrite <- (skipn_O (firstn _ d ++ _)), slice_of_prefix
    by (rewrite prefix_length; lia).
  rewrite (split_around Z d (Z.to_nat (4 + i * 4)) 4) at 2.
  rewrite <- (skipn_O (firstn _ d ++ _)), slice_of_prefix
    by (rewrite prefix_length; lia).
  reflexivity.
Qed.

Lemma store_word_tail (n : nat) :
  (Z.to_nat (4 + i * 4) + 4 <= n)%nat ->
  skipn n (store_word i w d) = skipn n d.
Proof.
  intros H. unfold store_word.
  rewrite (split_around Z d (Z.to_nat (4 + i * 4)) 4) at 3.
  rewrite !app_assoc. apply skip_past_prefix.
  - rewrite !length_app, four, !length_firstn, length_skipn.
    unfold len in room. lia.
  - rewrite length_app, prefix_length, four. lia.
Qed.

Lemma store_word_bytes :
  forallb byteb d = true -> forallb byteb w = true ->
  forallb byteb (store_word i w d) = true.
Proof.
  intros Hd Hw. unfold store_word. rewrite !forallb_app, Hw.
  rewrite (split_around Z d (Z.to_nat (4 + i * 4)) 4) in Hd.
  rewrite !forallb_app in Hd.
  apply andb_prop in Hd as [H1 H2]. apply andb_prop in H2 as [H2 H3].
  now rewrite H1, H3.
Qed.

End StoreWord.

(* ================================================================= *)
(** ** The indexed get and set *)

Lemma index_test (i n : Z) :
  negb ((0 <=? i) && (i <? n)) = false <-> 0 <= i < n.
Proof.
  rewrite negb_false_iff, andb_true_iff, Z.leb_le, Z.ltb_lt. tauto.
Qed.

Lemma index_test_fails (i n : Z) :
  negb ((0 <=? i) && (i <? n)) = true <-> (i < 0 \/ n <= i).
Proof.
  rewrite negb_true_iff, andb_false_iff, Z.leb_gt, Z.ltb_ge. tauto.
Qed.

(** Reading leaves the object as it was. *)
Lemma getitem_keeps_state (i : Z) (s : APA102) : snd (__getitem__ i s) = s.
Proof.
  unfold __getitem__, bind, get.
  destruct (negb ((0 <=? i) && (i <? _leds s))); [reflexivity |].
  unfold view_getslice. destruct (_view s); [| reflexivity].
  unfold lift. destruct (_ledoutput_from_led_command _); reflexivity.
Qed.

Lemma getitem_out_of_range (i : Z) (s : APA102) :
  i < 0 \/ _leds s <= i ->
  __getitem__ i s = (Raise out_of_range_error, s).
Proof.
  intros H. unfold __getitem__, bind, get.
  apply index_test_fails in H. rewrite H. reflexivity.
Qed.

(** In range, on a live object, the get unpacks the stored word. *)
Lemma getitem_in_range (i : Z) (s : APA102) :
  live s = true -> 0 <= i < _leds s ->
  __getitem__ i s = (_ledoutput_from_led_command (led_word s i), s).
Proof.
  intros L H. unfold __getitem__, bind, get.
  apply index_test in H. rewrite H.
  unfold view_getslice, live in *. destruct (_view s); [| discriminate L].
  unfold lift, led_word. destruct (_ledoutput_from_led_command _); reflexivity.
Qed.

Lemma stored_word_marked (i : Z) (s : APA102) :
  well_formed s = true -> 0 <= i < _leds s ->
  marked_word (led_word s i) = true.
Proof.
  intros W H. apply well_formed_inv in W as (_ & _ & _ & _ & M & _). now apply M.
Qed.

(** The scratch word after packing a valid output into it. *)
Lemma pack_direct_valid (w x y z : Z) (scratch : list Z) :
  0 <= w <= 31 -> 0 <= x <= 255 -> 0 <= y <= 255 -> 0 <= z <= 255 ->
  List.length scratch = 4%nat ->
  _pack_wrgb_direct (mkLedOutput (PyInt w) (PyInt x) (PyInt y) (PyInt z)) scratch
  = (Ok tt, [Z.lor w 0xe0; z; y; x]).
Proof.
  intros Hw Hx Hy Hz L.
  destruct scratch as [| a [| b0 [| c [| d0 [| ? ?]]]]]; try discriminate L.
  pose proof (proj2 (marker_facts w Hw)) as Hm.
  unfold _pack_wrgb_direct, bind, lift, bytearray_setitem.
  cbn [py_or brt r g b List.length Nat.ltb Nat.leb firstn skipn app].
  replace ((0 <=? Z.lor w 224) && (Z.lor w 224 <? 256)) with true
    by (symmetry; apply andb_true_intro; split; [apply Z.leb_le | apply Z.ltb_lt]; lia).
  replace ((0 <=? z) && (z <? 256)) with true
    by (symmetry; apply andb_true_intro; split; [apply Z.leb_le | apply Z.ltb_lt]; lia).
  cbn [List.length Nat.ltb Nat.leb firstn skipn app].
  replace ((0 <=? y) && (y <? 256)) with true
    by (symmetry; apply andb_true_intro; split; [apply Z.leb_le | apply Z.ltb_lt]; lia).
  cbn [List.length Nat.ltb Nat.leb firstn skipn app].
  replace ((0 <=? x) && (x <? 256)) with true
    by (symmetry; apply andb_true_intro; split; [apply Z.leb_le | apply Z.ltb_lt]; lia).
  reflexivity.
Qed.

(** The state a set leaves: the scratch word holds the packed output,
    and when it differs from the stored word it is stored and the flag
    is set. *)
Lemma set_unchecked_valid (i : Z) (v : LedOutput) (s : APA102) (packed : list Z) :
  well_formed s = true -> live s = true -> 0 <= i < _leds s ->
  valid v = true -> _pack_wrgb v = Ok packed ->
  set_unchecked i v s
  = (Ok tt,
     if list_eqb packed (led_word s i) then set_wrgb_buffer packed s
     else set_data_modified true
            (set_data (store_word i packed (_data s)) (set_wrgb_buffer packed s))).
Proof.
  intros W L Hi V P.
  pose proof (word_room s i W Hi) as R.
  apply well_formed_inv in W as (_ & _ & _ & _ & _ & _ & S4).
  apply valid_inv in V as (w & x & y & z & -> & Hw & Hx & Hy & Hz).
  rewrite pack_of_valid in P by assumption. injection P as <-.
  unfold set_unchecked, bind at 1, zoom.
  rewrite pack_direct_valid by assumption.
  unfold bind at 1, get. unfold bind at 1, view_getslice.
  unfold live in L. cbn [_view set_wrgb_buffer _data _wrgb_buffer].
  destruct (_view s) eqn:Ev; [| discriminate L].
  unfold led_word.
  destruct (list_eqb [Z.lor w 224; z; y; x]
              (getslice (_data s) (4 + i * 4) (8 + i * 4))) eqn:E;
    cbn [negb when].
  - reflexivity.
  - unfold bind, view_setslice. cbn [_view _data set_wrgb_buffer]. rewrite Ev.
    destruct (word_slice Z (_data s) i ltac:(lia) R) as [-> ->].
    cbn [List.length Nat.eqb]. unfold modify, store_word. reflexivity.
Qed.

Lemma setitem_valid (i : Z) (v : LedOutput) (s : APA102) :
  valid v = true -> 0 <= i < _leds s ->
  __setitem__ i v s = set_unchecked i v s.
Proof.
  intros V H. unfold __setitem__, bind at 1, lift.
  rewrite check_accepts_valid by exact V.
  unfold bind at 1, get. apply index_test in H. rewrite H. reflexivity.
Qed.

Lemma setitem_out_of_range (i : Z) (v : LedOutput) (s : APA102) :
  valid v = true -> i < 0 \/ _leds s <= i ->
  __setitem__ i v s = (Raise out_of_range_error, s).
Proof.
  intros V H. unfold __setitem__, bind, lift, get.
  rewrite check_accepts_valid by exact V.
  apply index_test_fails in H. rewrite H. reflexivity.
Qed.

Lemma marker_top (w : Z) : 0 <= w <= 31 -> Z.shiftr (Z.lor w 0xe0) 5 = 7.
Proof.
  intros H. apply Z.eqb_eq.
  apply (by_cases_below 32 (fun w => Z.shiftr (Z.lor w 0xe0) 5 =? 7));
    [vm_compute; reflexivity | lia].
Qed.

(** The packed form of a valid output: a marked word of four bytes that
    unpacks to the output. *)
Lemma packed_valid (v : LedOutput) :
  valid v = true ->
  exists packed,
    _pack_wrgb v = Ok packed /\ marked_word packed = true /\
    List.length packed = 4%nat /\ forallb byteb packed = true /\
    _ledoutput_from_led_command packed = Ok v.
Proof.
  intros V. pose proof (unpack_after_pack v V) as U.
  apply valid_inv in V as (w & x & y & z & -> & Hw & Hx & Hy & Hz).
  rewrite pack_of_valid in * by assumption.
  exists [Z.lor w 0xe0; z; y; x].
  assert (B : forallb byteb [Z.lor w 0xe0; z; y; x] = true).
  { pose proof (proj2 (marker_facts w Hw)). unfold forallb, byteb.
    repeat (apply andb_true_intro; split);
      try apply Z.leb_le; try apply Z.ltb_lt; try reflexivity; lia. }
  repeat split.
  - unfold marked_word. cbn [forallb] in B.
    apply andb_prop in B as [B0 B]. apply andb_prop in B as [B1 B].
    apply andb_prop in B as [B2 B]. apply andb_prop in B as [B3 _].
    rewrite B0, B1, B2, B3, (marker_top w Hw). reflexivity.
  - exact B.
  - exact U.
Qed.

(** The state after a valid set, read back. *)
Lemma set_then_get (i : Z) (v : LedOutput) (s : APA102) :
  well_formed s = true -> live s = true -> 0 <= i < _leds s ->
  valid v = true ->
  exists s',
    __setitem__ i v s = (Ok tt, s') /\ __getitem__ i s' = (Ok v, s') /\
    _leds s' = _leds s /\ live s' = true.
Proof.
  intros W L Hi V.
  destruct (packed_valid v V) as (packed & P & M & L4 & B & U).
  rewrite setitem_valid by assumption.
  rewrite (set_unchecked_valid i v s packed) by assumption.
  pose proof (word_room s i W Hi) as R.
  destruct (list_eqb packed (led_word s i)) eqn:E.
  - eexists. split; [reflexivity |]. split; [| split; [reflexivity | exact L]].
    rewrite getitem_in_range by assumption.
    apply list_eqb_eq in E.
    change (led_word (set_wrgb_buffer packed s) i) with (led_word s i).
    now rewrite <- E, U.
  - eexists. split; [reflexivity |]. split; [| split; [reflexivity | exact L]].
    rewrite getitem_in_range by assumption.
    unfold led_word. cbn [_data set_data_modified set_data].
    rewrite store_word_same by (assumption || lia). now rewrite U.
Qed.

(** C8: for every index [i] in [0, N) and every valid output [v], on a
    controller that was not closed, [Set(i, v)] returns and the [Get(i)]
    that follows returns [v]. *)
Theorem get_after_set_returns_value (s : APA102) (i : Z) (v : LedOutput) :
  well_formed s = true -> live s = true ->
  0 <= i < _leds s -> valid v = true ->
  exists s',
    __setitem__ i v s = (Ok tt, s') /\
    __getitem__ i s' = (Ok v, s').
Proof.
  intros W L Hi V.
  destruct (set_then_get i v s W L Hi V) as (s' & HS & HG & _).
  exists s'. split; assumption.
Qed.

Lemma get_after_set_returns_value_witness :
  well_formed (fresh 8 quiet_lines) = true /\
  live (fresh 8 quiet_lines) = true /\
  0 <= 0 < _leds (fresh 8 quiet_lines) /\
  valid (mkLedOutput (PyInt 1) (PyInt 4) (PyInt 5) (PyInt 6)) = true /\
  exists s',
    __setitem__ 0 (mkLedOutput (PyInt 1) (PyInt 4) (PyInt 5) (PyInt 6))
                (fresh 8 quiet_lines) = (Ok tt, s') /\
    __getitem__ 0 s' = (Ok (mkLedOutput (PyInt 1) (PyInt 4) (PyInt 5) (PyInt 6)), s').
Proof.
  split; [reflexivity |]. split; [reflexivity |].
  split; [simpl; lia |]. split; [reflexivity |].
  apply (get_after_set_returns_value (fresh 8 quiet_lines) 0
           (mkLedOutput (PyInt 1) (PyInt 4) (PyInt 5) (PyInt 6)));
    [reflexivity | reflexivity | simpl; lia | reflexivity].
Defined.

(* ================================================================= *)
(** ** Index errors *)

Lemma getitem_released (i : Z) (s : APA102) :
  live s = false -> 0 <= i < _leds s ->
  __getitem__ i s = (Raise released_view_error, s).
Proof.
  intros L H. unfold __getitem__, bind, get.
  apply index_test in H. rewrite H.
  unfold view_getslice, live in *. destruct (_view s); [discriminate L | reflexivity].
Qed.

Lemma set_unchecked_released (i : Z) (v : LedOutput) (s : APA102) (packed : list Z) :
  well_formed s = true -> live s = false ->
  valid v = true -> _pack_wrgb v = Ok packed ->
  set_unchecked i v s = (Raise released_view_error, set_wrgb_buffer packed s).
Proof.
  intros W L V P.
  apply well_formed_inv in W as (_ & _ & _ & _ & _ & _ & S4).
  apply valid_inv in V as (w & x & y & z & -> & Hw & Hx & Hy & Hz).
  rewrite pack_of_valid in P by assumption. injection P as <-.
  unfold set_unchecked, bind at 1, zoom.
  rewrite pack_direct_valid by assumption.
  unfold bind at 1, get. unfold bind at 1, view_getslice.
  unfold live in L. cbn [_view set_wrgb_buffer].
  destruct (_view s); [discriminate L | reflexivity].
Qed.

(** C9: [Get(i)] and [Set(i, v)] with a valid [v] raise an [IndexError]
    for every index [i] with [i < 0] or [i >= N], and for every [i] in
    [0, N) neither raises one: on a controller that was not closed both
    return. *)
Theorem index_error_iff_out_of_range (s : APA102) (i : Z) (v : LedOutput) :
  well_formed s = true -> valid v = true ->
  ((i < 0 \/ _leds s <= i) ->
     __getitem__ i s = (Raise out_of_range_error, s) /\
     __setitem__ i v s = (Raise out_of_range_error, s)) /\
  (0 <= i < _leds s ->
     is_index_error (fst (__getitem__ i s)) = false /\
     is_index_error (fst (__setitem__ i v s)) = false /\
     (live s = true ->
        (exists u, __getitem__ i s = (Ok u, s)) /\
        (exists s', __setitem__ i v s = (Ok tt, s')))).
Proof.
  intros W V. split.
  - intros H. split.
    + apply getitem_out_of_range, H.
    + apply setitem_out_of_range; assumption.
  - intros H. destruct (live s) eqn:L.
    + destruct (set_then_get i v s W L H V) as (s' & HS & _).
      pose proof (stored_word_marked i s W H) as M.
      pose proof (pack_after_unpack _ M) as U.
      rewrite getitem_in_range, HS by assumption.
      destruct (_ledoutput_from_led_command (led_word s i)) as [u | e] eqn:E;
        [| discriminate U].
      repeat split; try reflexivity.
      * now exists u.
      * now exists s'.
    + destruct (packed_valid v V) as (packed & P & _).
      rewrite getitem_released, setitem_valid by assumption.
      rewrite (set_unchecked_released i v s packed) by assumption.
      repeat split; try reflexivity; discriminate.
Qed.

Lemma index_error_iff_out_of_range_witness :
  (well_formed (fresh 8 quiet_lines) = true /\ valid off = true) /\
  is_index_error (fst (__getitem__ (-1) (fresh 8 quiet_lines))) = true /\
  is_index_error (fst (__setitem__ (-1) off (fresh 8 quiet_lines))) = true /\
  is_index_error (fst (__getitem__ 8 (fresh 8 quiet_lines))) = true /\
  is_index_error (fst (__setitem__ 8 off (fresh 8 quiet_lines))) = true /\
  is_index_error (fst (__getitem__ 0 (fresh 8 quiet_lines))) = false /\
  is_index_error (fst (__setitem__ 0 off (fresh 8 quiet_lines))) = false /\
  is_index_error (fst (__getitem__ 7 (fresh 8 quiet_lines))) = false /\
  is_index_error (fst (__setitem__ 7 off (fresh 8 quiet_lines))) = false.
Proof.
  split; [split; reflexivity |].
  pose proof (fun i => index_error_iff_out_of_range (fresh 8 quiet_lines) i off
                         eq_refl eq_refl) as T.
  destruct (proj1 (T (-1)) ltac:(simpl; lia)) as [G1 S1].
  destruct (proj1 (T 8) ltac:(simpl; lia)) as [G8 S8].
  destruct (proj2 (T 0) ltac:(simpl; lia)) as (G0 & S0 & _).
  destruct (proj2 (T 7) ltac:(simpl; lia)) as (G7 & S7 & _).
  rewrite G1, S1, G8, S8.
  repeat split; try reflexivity; assumption.
Defined.

(* ================================================================= *)
(** ** The bit protocol of [commit] *)

(** C5: a transmitting [commit] sends each byte of the framebuffer most
    significant bit first, with exactly two pair-writes per bit: the
    first carries the bit on the data line with the clock low, the second
    raises the clock over the same data, so the data line holds the bit
    one write before the clock is asserted and the clock is low just
    before; for a byte 0x88 the data at the eight clock assertions is
    1, 0, 0, 0, 1, 0, 0, 0. *)
Theorem commit_sends_bits_data_before_clock (s : APA102) :
  _data_modified s = true ->
  accepts (_lines s) (waveform (_data s)) = true ->
  exists ws : list (Z * Z),
    commit s
    = (Ok tt, set_data_modified false (set_lines (wrote ws (_lines s)) s)) /\
    List.length ws = (2 * 8 * List.length (_data s))%nat /\
    (forall (j k : nat) (byte : Z),
       nth_error (_data s) j = Some byte -> (k < 8)%nat ->
       nth_error ws (16 * j + 2 * k) = Some (0, bit_at byte (7 - Z.of_nat k)) /\
       nth_error ws (16 * j + 2 * k + 1) = Some (1, bit_at byte (7 - Z.of_nat k))) /\
    (forall j : nat,
       nth_error (_data s) j = Some 0x88 ->
       map snd (filter (fun w => fst w =? 1) (firstn 16 (skipn (16 * j) ws)))
       = [1; 0; 0; 0; 1; 0; 0; 0]).
Proof.
  intros D A. exists (waveform (_data s)).
  split; [apply commit_accepted; assumption |].
  split; [rewrite waveform_length; lia |].
  split.
  - intros j k byte H Hk. apply waveform_at_bit; assumption.
  - intros j H. rewrite (waveform_at_byte _ _ _ H). reflexivity.
Qed.

Lemma commit_sends_bits_data_before_clock_witness :
  _data_modified (set_data [0; 0; 0; 0; 0xe0; 0x88; 0; 0] (fresh 1 quiet_lines)) = true /\
  accepts (_lines (set_data [0; 0; 0; 0; 0xe0; 0x88; 0; 0] (fresh 1 quiet_lines)))
          (waveform [0; 0; 0; 0; 0xe0; 0x88; 0; 0]) = true /\
  exists ws : list (Z * Z),
    commit (set_data [0; 0; 0; 0; 0xe0; 0x88; 0; 0] (fresh 1 quiet_lines))
    = (Ok tt,
       set_data_modified false
         (set_lines (wrote ws quiet_lines)
            (set_data [0; 0; 0; 0; 0xe0; 0x88; 0; 0] (fresh 1 quiet_lines)))) /\
    map snd (filter (fun w => fst w =? 1) (firstn 16 (skipn (16 * 5) ws)))
    = [1; 0; 0; 0; 1; 0; 0; 0].
Proof.
  split; [reflexivity |]. split; [vm_compute; reflexivity |].
  destruct (commit_sends_bits_data_before_clock
              (set_data [0; 0; 0; 0; 0xe0; 0x88; 0; 0] (fresh 1 quiet_lines))
              eq_refl ltac:(vm_compute; reflexivity))
    as (ws & C & _ & _ & E).
  exists ws. split; [exact C | exact (E 5%nat eq_refl)].
Defined.

(* ================================================================= *)
(** ** A failed [commit] *)

(** C6: [commit] has no partial-success state: when a write to the
    lines raises partway, [commit] raises that [OSError] with the dirty
    flag still set and the framebuffer untouched, so a retried [commit]
    runs the whole transmission again from the first byte, and clears the
    flag once all of it went out. *)
Theorem failed_commit_stays_dirty (s s' : APA102) (e : exn) :
  commit s = (Raise e, s') ->
  e = OSError /\
  _data_modified s' = true /\
  _data s' = _data s /\
  (exists n : nat,
     (n < List.length (waveform (_data s)))%nat /\
     _lines s' = wrote (firstn n (waveform (_data s))) (_lines s)) /\
  commit s'
  = (transmit (waveform (_data s)) ;; modify (set_data_modified false))%monad s' /\
  (accepts (_lines s') (waveform (_data s)) = true ->
   commit s'
   = (Ok tt,
      set_data_modified false
        (set_lines (wrote (waveform (_data s)) (_lines s')) s'))).
Proof.
  intros C. apply commit_raised in C as (-> & D & n & Hn & ->).
  split; [reflexivity |]. split; [exact D |]. split; [reflexivity |].
  split; [exists n; split; [exact Hn | reflexivity] |].
  split.
  - apply (commit_dirty (set_lines _ s)). exact D.
  - intros A. apply (commit_accepted (set_lines _ s)); [exact D | exact A].
Qed.

Lemma failed_commit_stays_dirty_witness :
  commit (fresh 1 glitching_lines)
  = (Raise OSError,
     set_lines (wrote (firstn 5 (waveform (_data (fresh 1 glitching_lines))))
                      glitching_lines)
               (fresh 1 glitching_lines)) /\
  _data_modified
    (set_lines (wrote (firstn 5 (waveform (_data (fresh 1 glitching_lines))))
                      glitching_lines)
               (fresh 1 glitching_lines)) = true.
Proof.
  assert (C : commit (fresh 1 glitching_lines)
              = (Raise OSError,
                 set_lines
                   (wrote (firstn 5 (waveform (_data (fresh 1 glitching_lines))))
                          glitching_lines)
                   (fresh 1 glitching_lines))) by (vm_compute; reflexivity).
  split; [exact C |].
  exact (proj1 (proj2 (failed_commit_stays_dirty _ _ _ C))).
Defined.

(* ================================================================= *)
(** ** The frame of [commit] *)

(** A get reads the LED count, the view and the framebuffer only. *)
Lemma getitem_reads (i : Z) (s s' : APA102) :
  _leds s' = _leds s -> _data s' = _data s -> _view s' = _view s ->
  fst (__getitem__ i s') = fst (__getitem__ i s).
Proof.
  intros E1 E2 E3. unfold __getitem__, bind, get. rewrite E1.
  destruct (negb ((0 <=? i) && (i <? _leds s))); [reflexivity |].
  unfold view_getslice. rewrite E2, E3.
  destruct (_view s); [| reflexivity].
  unfold lift. destruct (_ledoutput_from_led_command _); reflexivity.
Qed.

(** C10: [commit] never modifies the framebuffer: after it, transmitting
    or not, returning or raising, the bytes of the framebuffer are the
    same and every [Get(i)] returns what it returned before; of the
    state of the controller only the dirty flag may differ, and the line
    handle has at most more writes on record. *)
Theorem commit_keeps_framebuffer (s : APA102) :
  _data (snd (commit s)) = _data s /\
  (forall i : Z, fst (__getitem__ i (snd (commit s))) = fst (__getitem__ i s)) /\
  exists (flag : bool) (ws : list (Z * Z)),
    snd (commit s) = set_data_modified flag (set_lines (wrote ws (_lines s)) s).
Proof.
  destruct (commit_outcome s) as (flag & ws & E).
  split; [now rewrite E |]. split.
  - intros i. apply getitem_reads; now rewrite E.
  - now exists flag, ws.
Qed.

(* ================================================================= *)
(** ** What the operations leave of the framebuffer *)

Lemma view_getslice_keeps_state (a b0 : Z) (s : APA102) :
  snd (view_getslice a b0 s) = s.
Proof. unfold view_getslice. now destruct (_view s). Qed.

Lemma contains_scan_keeps_state (o : LedOutput) (indices : list Z) (s : APA102) :
  snd (contains_scan o indices s) = s.
Proof.
  induction indices as [| i rest IH]; cbn [contains_scan].
  - reflexivity.
  - unfold bind, lift. destruct (_pack_wrgb o) as [packed | e]; [| reflexivity].
    pose proof (view_getslice_keeps_state (4 + i * 4) (8 + i * 4) s) as K.
    destruct (view_getslice (4 + i * 4) (8 + i * 4) s) as [[stored | e] s1];
      cbn [snd] in K; subst s1; [| reflexivity].
    destruct (list_eqb packed stored); [reflexivity | exact IH].
Qed.

Lemma contains_keeps_state (o : LedOutput) (s : APA102) :
  snd (__contains__ o s) = s.
Proof.
  unfold __contains__, bind, len_self.
  destruct (__len__ s <? 0); [reflexivity |].
  apply contains_scan_keeps_state.
Qed.

(** Storing through the view keeps the length of the buffer, whatever
    the bounds of the slice. *)
Lemma view_setslice_frame (a b0 : Z) (src : list Z) (s : APA102) :
  len (_data (snd (view_setslice a b0 src s))) = len (_data s) /\
  _leds (snd (view_setslice a b0 src s)) = _leds s /\
  _view (snd (view_setslice a b0 src s)) = _view s /\
  _data_modified (snd (view_setslice a b0 src s)) = _data_modified s.
Proof.
  unfold view_setslice. destruct (_view s) eqn:Ev; [| auto].
  destruct (Nat.eqb_spec (slice_length (len (_data s)) a b0) (List.length src))
    as [E | E]; [| auto].
  cbn [snd _data _leds _view _data_modified set_data].
  repeat split; try assumption.
  pose proof (slice_within (len (_data s)) a b0 (len_nonneg Z (_data s))) as H.
  revert E H.
  generalize (slice_length (len (_data s)) a b0), (slice_start (len (_data s)) a).
  intros n k E H. unfold len in *. rewrite Nat2Z.id in H.
  f_equal. rewrite !length_app, length_firstn, length_skipn, <- E. lia.
Qed.

(** [set_unchecked], whatever its arguments: the LED count and the
    length of the framebuffer stay. *)
Lemma set_unchecked_frame (i : Z) (o : LedOutput) (s : APA102) :
  len (_data (snd (set_unchecked i o s))) = len (_data s) /\
  _leds (snd (set_unchecked i o s)) = _leds s.
Proof.
  unfold set_unchecked, bind, zoom, get, when, modify.
  destruct (_pack_wrgb_direct o (_wrgb_buffer s)) as [[[] | e] scratch]; [| auto].
  pose proof (view_getslice_keeps_state (4 + i * 4) (8 + i * 4)
                (set_wrgb_buffer scratch s)) as K.
  destruct (view_getslice (4 + i * 4) (8 + i * 4) (set_wrgb_buffer scratch s))
    as [[stored | e] s1]; cbn [snd] in K; subst s1; [| auto].
  cbn [_wrgb_buffer set_wrgb_buffer].
  destruct (negb (list_eqb scratch stored)); [| auto].
  pose proof (view_setslice_frame (4 + i * 4) (8 + i * 4) scratch
                (set_wrgb_buffer scratch s)) as (F1 & F2 & _).
  destruct (view_setslice (4 + i * 4) (8 + i * 4) scratch (set_wrgb_buffer scratch s))
    as [[[] | e] s1]; cbn [snd] in F1, F2 |- *; auto.
Qed.

Lemma setitem_frame (i : Z) (o : LedOutput) (s : APA102) :
  len (_data (snd (__setitem__ i o s))) = len (_data s) /\
  _leds (snd (__setitem__ i o s)) = _leds s.
Proof.
  pose proof (set_unchecked_frame i o s) as F.
  unfold __setitem__, bind, lift, get, raise.
  destruct (_check_ledoutput_range o) as [[] | e]; [| auto].
  destruct (negb ((0 <=? i) && (i <? _leds s))); [auto | exact F].
Qed.

(** No operation changes the LED count or the length of the
    framebuffer. *)
Lemma run_op_frame (o : op) (s : APA102) :
  len (_data (run_op o s)) = len (_data s) /\ _leds (run_op o s) = _leds s.
Proof.
  destruct o as [i | i v | i v | | v | |]; unfold run_op.
  - now rewrite getitem_keeps_state.
  - apply setitem_frame.
  - apply set_unchecked_frame.
  - unfold len_self. now destruct (__len__ s <? 0).
  - now rewrite contains_keeps_state.
  - destruct (commit_outcome s) as (flag & ws & ->). auto.
  - auto.
Qed.

(* ================================================================= *)
(** ** The constructed framebuffer *)

Lemma concat_repeat_length (w : list Z) (n : nat) :
  List.length (List.concat (repeat w n)) = (n * List.length w)%nat.
Proof.
  induction n as [| n IH]; simpl.
  - reflexivity.
  - rewrite length_app, IH. reflexivity.
Qed.

Lemma concat_repeat_bytes (w : list Z) (n : nat) :
  forallb byteb w = true -> forallb byteb (List.concat (repeat w n)) = true.
Proof.
  intros H. induction n as [| n IH]; simpl.
  - reflexivity.
  - now rewrite forallb_app, H, IH.
Qed.

(** Past [k] words of a run of [n] equal words there are [n - k] left. *)
Lemma skipn_words (w rest : list Z) (k n : nat) :
  List.length w = 4%nat -> (k <= n)%nat ->
  skipn (4 * k) (List.concat (repeat w n) ++ rest)
  = List.concat (repeat w (n - k)) ++ rest.
Proof.
  intros L. revert n. induction k as [| k IH]; intros n H.
  - rewrite Nat.mul_0_r, skipn_O, Nat.sub_0_r. reflexivity.
  - destruct n as [| n]; [lia |].
    replace (4 * S k)%nat with (4 * k + 4)%nat by lia.
    rewrite <- skipn_skipn. cbn [repeat List.concat].
    rewrite <- app_assoc, skipn_app, L, Nat.sub_diag, skipn_O.
    rewrite (skipn_all2 w) by lia. cbn [app].
    rewrite IH by lia. reflexivity.
Qed.

Lemma end_sequence_bytes (n : Z) : forallb byteb (_generate_end_sequence n) = true.
Proof.
  rewrite end_sequence_repeat. generalize (Z.to_nat
    (if truthy (if truthy n then n - 1 else 0)
     then
      if truthy ((if truthy n then n - 1 else 0) mod 16)
      then (if truthy n then n - 1 else 0) / 16 + 1
      else (if truthy n then n - 1 else 0) / 16
     else 0)).
  intros k. induction k as [| k IH]; simpl; [reflexivity | exact IH].
Qed.

Lemma fresh_length (n : Z) (lines : Lines) :
  0 <= n -> len (_data (fresh n lines)) = frame_length n.
Proof.
  intros H. unfold fresh, frame_length, repeat_bytes, len. cbn [_data].
  rewrite !length_app, concat_repeat_length. simpl List.length. lia.
Qed.

Lemma fresh_after_words (n : Z) (lines : Lines) (k : nat) :
  (k <= Z.to_nat n)%nat ->
  skipn (4 + 4 * k) (_data (fresh n lines))
  = List.concat (repeat [0xe0; 0; 0; 0] (Z.to_nat n - k)) ++ _generate_end_sequence n.
Proof.
  intros H. unfold fresh, repeat_bytes. cbn [_data].
  rewrite (Nat.add_comm 4), <- skipn_skipn.
  change (skipn 4 (APA102_START ++ ?x)) with x.
  apply skipn_words; [reflexivity | exact H].
Qed.

Lemma fresh_word (n : Z) (lines : Lines) (i : Z) :
  0 <= i < n -> led_word (fresh n lines) i = [0xe0; 0; 0; 0].
Proof.
  intros H. unfold led_word.
  rewrite getslice_word; [| lia |].
  - replace (Z.to_nat (4 + i * 4)) with (4 + 4 * Z.to_nat i)%nat by lia.
    rewrite fresh_after_words by lia.
    destruct (Z.to_nat n - Z.to_nat i)%nat as [| m] eqn:E; [lia |].
    reflexivity.
  - rewrite fresh_length by lia. unfold frame_length.
    pose proof (len_nonneg Z (_generate_end_sequence n)). lia.
Qed.

(** A constructed framebuffer has the layout. *)
Lemma fresh_well_formed (n : Z) (lines : Lines) :
  0 <= n -> well_formed (fresh n lines) = true.
Proof.
  intros H. apply well_formed_intro.
  - exact H.
  - apply fresh_length, H.
  - unfold fresh, repeat_bytes. cbn [_data].
    rewrite !forallb_app, concat_repeat_bytes, end_sequence_bytes; reflexivity.
  - reflexivity.
  - intros i Hi. cbn [_leds fresh] in Hi. now rewrite fresh_word.
  - cbn [_leds fresh].
    replace (Z.to_nat (4 + 4 * n)) with (4 + 4 * Z.to_nat n)%nat by lia.
    rewrite fresh_after_words, Nat.sub_diag by lia. reflexivity.
  - reflexivity.
Qed.

(** Construction without reset, over lines that could be requested. *)
Lemma init_without_reset (gpiod : string -> Z * Z -> result Lines)
    (chip : string) (leds clk data : Z) (lines : Lines) :
  gpiod chip (clk, data) = Ok lines -> 0 <= leds ->
  __init__ gpiod chip leds clk data false = Ok (fresh leds lines).
Proof.
  intros G H. unfold __init__. rewrite G. cbn [rbind].
  change (_pack_wrgb (mkLedOutput (PyInt 0) (PyInt 0) (PyInt 0) (PyInt 0)))
    with (@Ok (list Z) [0xe0; 0; 0; 0]).
  cbn [rbind]. unfold len_self, __len__. cbn [_leds].
  destruct (Z.ltb_spec leds 0); [lia | reflexivity].
Qed.

(** What a construction that returned has built. *)
Lemma init_inv (gpiod : string -> Z * Z -> result Lines)
    (chip : string) (leds clk data : Z) (reset : bool) (s : APA102) :
  __init__ gpiod chip leds clk data reset = Ok s ->
  exists lines,
    gpiod chip (clk, data) = Ok lines /\ 0 <= leds /\
    ((reset = false /\ s = fresh leds lines) \/
     (reset = true /\ commit (fresh leds lines) = (Ok tt, s))).
Proof.
  unfold __init__. destruct (gpiod chip (clk, data)) as [lines | e]; [| discriminate].
  cbn [rbind].
  change (_pack_wrgb (mkLedOutput (PyInt 0) (PyInt 0) (PyInt 0) (PyInt 0)))
    with (@Ok (list Z) [0xe0; 0; 0; 0]).
  cbn [rbind]. unfold len_self, __len__. cbn [_leds].
  destruct (Z.ltb_spec leds 0); [discriminate |].
  change (mkAPA102 leds true lines
            (APA102_START ++ repeat_bytes [0xe0; 0; 0; 0] leds ++ _generate_end_sequence leds)
            ViewOfData [0; 0; 0; 0]) with (fresh leds lines).
  intros E. exists lines. split; [reflexivity |]. split; [lia |].
  destruct reset.
  - right. split; [reflexivity |].
    destruct (commit (fresh leds lines)) as [[[] | e] s1]; [| discriminate E].
    now injection E as ->.
  - left. split; [reflexivity |]. now injection E as <-.
Qed.

(* ================================================================= *)
(** ** The layout is an invariant *)

(** A set within the contract keeps the layout. *)
Lemma set_unchecked_well_formed (i : Z) (v : LedOutput) (s : APA102) :
  well_formed s = true -> 0 <= i < _leds s -> valid v = true ->
  well_formed (snd (set_unchecked i v s)) = true.
Proof.
  intros W Hi V.
  destruct (packed_valid v V) as (packed & P & M & L4 & B & _).
  pose proof (word_room s i W Hi) as R.
  destruct (live s) eqn:L.
  - rewrite (set_unchecked_valid i v s packed) by assumption. cbn [snd].
    destruct (list_eqb packed (led_word s i)) eqn:E.
    + rewrite <- W. apply well_formed_ext; try reflexivity.
      cbn [_wrgb_buffer set_wrgb_buffer].
      apply well_formed_inv in W as (_ & _ & _ & _ & _ & _ & S4). congruence.
    + apply well_formed_inv in W as (W1 & W2 & W3 & W4 & W5 & W6 & W7).
      apply well_formed_intro;
        cbn [_leds _data _wrgb_buffer set_data_modified set_data set_wrgb_buffer].
      * exact W1.
      * rewrite store_word_len by (assumption || lia). exact W2.
      * apply store_word_bytes; assumption.
      * rewrite store_word_start by (assumption || lia). exact W4.
      * intros j Hj. unfold led_word.
        cbn [_data set_data_modified set_data set_wrgb_buffer].
        destruct (Z.eq_dec j i) as [-> | Hne].
        -- rewrite store_word_same by (assumption || lia). exact M.
        -- rewrite store_word_other; try assumption; try lia.
           ++ apply W5, Hj.
           ++ rewrite W2. unfold frame_length.
              pose proof (len_nonneg Z (_generate_end_sequence (_leds s))). lia.
      * rewrite store_word_tail by (assumption || lia). exact W6.
      * exact L4.
  - rewrite (set_unchecked_released i v s packed) by assumption. cbn [snd].
    rewrite <- W. apply well_formed_ext; try reflexivity.
    cbn [_wrgb_buffer set_wrgb_buffer].
    apply well_formed_inv in W as (_ & _ & _ & _ & _ & _ & S4). congruence.
Qed.

Lemma setitem_well_formed (i : Z) (v : LedOutput) (s : APA102) :
  well_formed s = true -> well_formed (snd (__setitem__ i v s)) = true.
Proof.
  intros W. destruct (valid v) eqn:V.
  - destruct (Z_lt_dec i 0) as [H | H];
      [rewrite setitem_out_of_range by (assumption || lia); exact W |].
    destruct (Z_le_dec (_leds s) i) as [H' | H'];
      [rewrite setitem_out_of_range by (assumption || lia); exact W |].
    rewrite setitem_valid by (assumption || lia).
    apply set_unchecked_well_formed; (assumption || lia).
  - destruct (setitem_rejects_invalid i v s V) as (msg & _ & ->). exact W.
Qed.

(** Every operation within the contract keeps the layout. *)
Lemma run_op_well_formed (o : op) (s : APA102) :
  well_formed s = true -> respects_contract o s = true ->
  well_formed (run_op o s) = true.
Proof.
  intros W C. destruct o as [i | i v | i v | | v | |]; unfold run_op.
  - now rewrite getitem_keeps_state.
  - apply setitem_well_formed, W.
  - cbn [respects_contract] in C. apply andb_prop in C as [C V].
    apply andb_prop in C as [C1 C2].
    apply set_unchecked_well_formed; [exact W | lia | exact V].
  - unfold len_self. now destruct (__len__ s <? 0).
  - now rewrite contains_keeps_state.
  - destruct (commit_outcome s) as (flag & ws & ->). rewrite <- W.
    now apply well_formed_ext.
  - rewrite <- W. now apply well_formed_ext.
Qed.

(** The layout holds in every state a program reaches. *)
Lemma reachable_well_formed (gpiod : string -> Z * Z -> result Lines) (s : APA102) :
  reachable gpiod s -> well_formed s = true.
Proof.
  induction 1 as [chip leds clk data reset s E | o s R IH C].
  - apply init_inv in E as (lines & _ & H & [[_ ->] | [_ E]]).
    + apply fresh_well_formed, H.
    + destruct (commit_outcome (fresh leds lines)) as (flag & ws & K).
      rewrite E in K. cbn [snd] in K. subst s.
      rewrite <- (fresh_well_formed leds lines H). now apply well_formed_ext.
  - apply run_op_well_formed; assumption.
Qed.

(* ================================================================= *)
(** ** The framebuffer of a constructed controller *)

Lemma run_ops_frame (ops : list op) (s : APA102) :
  len (_data (run_ops ops s)) = len (_data s) /\ _leds (run_ops ops s) = _leds s.
Proof.
  unfold run_ops. revert s. induction ops as [| o ops IH]; intros s; simpl.
  - auto.
  - destruct (IH (run_op o s)) as [-> ->]. apply run_op_frame.
Qed.

(** C7: for every non-negative [N], constructing a controller with [N]
    LEDs succeeds when the lines can be requested, and the framebuffer it
    yields is the 4-zero-byte start sequence, then [N] copies of the
    packed form of (brightness 0, r 0, g 0, b 0), then the end sequence
    for [N]; its length is [4 + 4 N + K] with [K] the number of bytes of
    the end sequence, and no operation, and so no sequence of operations,
    changes this length. *)
Theorem constructed_framebuffer_is_fixed
    (gpiod : string -> Z * Z -> result Lines)
    (chip : string) (N clk data : Z) (lines : Lines) :
  0 <= N -> gpiod chip (clk, data) = Ok lines ->
  __init__ gpiod chip N clk data false = Ok (fresh N lines) /\
  (forall (reset : bool) (s : APA102),
     __init__ gpiod chip N clk data reset = Ok s ->
     exists zero,
       _pack_wrgb off = Ok zero /\
       _leds s = N /\
       _data s
       = APA102_START ++ List.concat (repeat zero (Z.to_nat N))
         ++ _generate_end_sequence N /\
       len (_data s) = 4 + 4 * N + len (_generate_end_sequence N) /\
       forall ops : list op,
         len (_data (run_ops ops s)) = 4 + 4 * N + len (_generate_end_sequence N)).
Proof.
  intros H G. split; [apply init_without_reset; assumption |].
  intros reset s E. exists [0xe0; 0; 0; 0]. split; [reflexivity |].
  apply init_inv in E as (lines' & _ & _ & E).
  assert (K : _leds s = N /\ _data s = _data (fresh N lines')).
  { destruct E as [[_ ->] | [_ E]]; [split; reflexivity |].
    destruct (commit_outcome (fresh N lines')) as (flag & ws & K).
    rewrite E in K. cbn [snd] in K. subst s. split; reflexivity. }
  destruct K as [K1 K2]. split; [exact K1 |]. split; [exact K2 |].
  assert (L : len (_data s) = 4 + 4 * N + len (_generate_end_sequence N))
    by (rewrite K2; apply fresh_length, H).
  split; [exact L |].
  intros ops. rewrite (proj1 (run_ops_frame ops s)). exact L.
Qed.

Lemma constructed_framebuffer_is_fixed_witness :
  (0 <= 8 /\ gpiod_quiet "/dev/gpiochip0" (24, 23) = Ok quiet_lines) /\
  __init__ gpiod_quiet "/dev/gpiochip0" 8 24 23 false = Ok (fresh 8 quiet_lines).
Proof.
  split; [split; [lia | reflexivity] |].
  apply (proj1 (constructed_framebuffer_is_fixed gpiod_quiet "/dev/gpiochip0"
                  8 24 23 quiet_lines ltac:(lia) eq_refl)).
Defined.

(* ================================================================= *)
(** ** The dirty flag *)

(** The framebuffer is the start sequence, the words of the LEDs and the
    end sequence. *)
Lemma layout_split (s : APA102) :
  well_formed s = true ->
  _data s = APA102_START ++ led_words s ++ _generate_end_sequence (_leds s).
Proof.
  intros W. apply well_formed_inv in W as (W1 & _ & _ & W4 & _ & W6 & _).
  unfold led_words. rewrite <- W4, <- W6.
  replace (Z.to_nat (4 + 4 * _leds s)) with (4 + Z.to_nat (4 * _leds s))%nat by lia.
  apply split_around.
Qed.

(** A stored word unpacks to a valid output that packs to the word. *)
Lemma unpack_marked (w : list Z) :
  marked_word w = true ->
  exists v, _ledoutput_from_led_command w = Ok v /\ valid v = true /\
            _pack_wrgb v = Ok w.
Proof.
  intros M. pose proof (pack_after_unpack w M) as P.
  apply marked_word_inv in M as (w0 & w1 & w2 & w3 & -> & H0 & H1 & H2 & H3 & E).
  destruct (marked_byte_facts w0 H0 E) as [_ Hb].
  eexists. split; [reflexivity |]. split; [| exact P].
  unfold valid, int_within, py_and. cbn [brt r g b].
  repeat (apply andb_true_intro; split); apply Z.leb_le; lia.
Qed.

(** Setting the value a get returns stores nothing. *)
Lemma set_same_value (i : Z) (v : LedOutput) (s : APA102) :
  well_formed s = true -> live s = true -> 0 <= i < _leds s ->
  __getitem__ i s = (Ok v, s) ->
  __setitem__ i v s = (Ok tt, set_wrgb_buffer (led_word s i) s).
Proof.
  intros W L Hi G.
  destruct (unpack_marked _ (stored_word_marked i s W Hi)) as (u & U & V & P).
  rewrite getitem_in_range, U in G by assumption. injection G as <-.
  rewrite setitem_valid by assumption.
  rewrite (set_unchecked_valid i u s (led_word s i)) by assumption.
  now rewrite list_eqb_refl.
Qed.

(** Setting a valid value other than the one a get returns stores it and
    sets the flag. *)
Lemma set_other_value (i : Z) (u v : LedOutput) (s : APA102) :
  well_formed s = true -> live s = true -> 0 <= i < _leds s ->
  __getitem__ i s = (Ok u, s) -> valid v = true -> v <> u ->
  exists packed,
    _pack_wrgb v = Ok packed /\
    __setitem__ i v s
    = (Ok tt,
       set_data_modified true
         (set_data (store_word i packed (_data s)) (set_wrgb_buffer packed s))).
Proof.
  intros W L Hi G V Hne.
  destruct (packed_valid v V) as (packed & P & _ & _ & _ & U).
  exists packed. split; [exact P |].
  rewrite setitem_valid by assumption.
  rewrite (set_unchecked_valid i v s packed) by assumption.
  destruct (list_eqb packed (led_word s i)) eqn:E; [| reflexivity].
  apply list_eqb_eq in E. rewrite getitem_in_range, <- E, U in G by assumption.
  injection G as G. contradiction.
Qed.

(** C4: [commit] is delta-aware through the dirty flag. With the flag
    set it transmits the entire framebuffer, start sequence, all LED
    words, end sequence, in buffer order, and then clears the flag; with
    the flag clear it writes nothing to the lines. Setting an LED to the
    value it holds leaves the flag as it is, setting it to a different
    value sets it. The flag is set by the constructor, so the first
    [commit] after a construction without reset transmits the whole
    buffer, and a second one right after transmits nothing. *)
Theorem commit_is_delta_aware :
  (forall s : APA102,
     well_formed s = true -> _data_modified s = true ->
     accepts (_lines s) (waveform (_data s)) = true ->
     commit s
     = (Ok tt,
        set_data_modified false
          (set_lines (wrote (waveform (_data s)) (_lines s)) s)) /\
     _data s = APA102_START ++ led_words s ++ _generate_end_sequence (_leds s) /\
     forall clock, received clock (waveform (_data s)) = _data s) /\
  (forall s : APA102, _data_modified s = false -> commit s = (Ok tt, s)) /\
  (forall (s : APA102) (i : Z) (v : LedOutput),
     well_formed s = true -> live s = true -> 0 <= i < _leds s ->
     __getitem__ i s = (Ok v, s) ->
     exists s',
       __setitem__ i v s = (Ok tt, s') /\
       _data_modified s' = _data_modified s /\
       _data s' = _data s /\ _lines s' = _lines s) /\
  (forall (s : APA102) (i : Z) (u v : LedOutput),
     well_formed s = true -> live s = true -> 0 <= i < _leds s ->
     __getitem__ i s = (Ok u, s) -> valid v = true -> v <> u ->
     exists s',
       __setitem__ i v s = (Ok tt, s') /\ _data_modified s' = true) /\
  (forall (gpiod : string -> Z * Z -> result Lines) (chip : string)
          (N clk data : Z) (lines : Lines),
     0 <= N -> gpiod chip (clk, data) = Ok lines ->
     accepts lines (waveform (_data (fresh N lines))) = true ->
     exists s0 s1,
       __init__ gpiod chip N clk data false = Ok s0 /\
       _data_modified s0 = true /\
       commit s0 = (Ok tt, s1) /\
       written (_lines s1) = written lines ++ waveform (_data s0) /\
       commit s1 = (Ok tt, s1)).
Proof.
  split; [| split; [| split; [| split]]].
  - intros s W D A. split; [apply commit_accepted; assumption |].
    split; [apply layout_split, W |].
    intros clock. apply received_waveform.
    now apply well_formed_inv in W as (_ & _ & B & _).
  - exact commit_clean.
  - intros s i v W L Hi G. eexists. split; [apply set_same_value; assumption |].
    repeat split.
  - intros s i u v W L Hi G V Hne.
    destruct (set_other_value i u v s W L Hi G V Hne) as (packed & _ & ->).
    eexists. split; reflexivity.
  - intros gpiod chip N clk data lines H G A.
    exists (fresh N lines). eexists.
    split; [apply init_without_reset; assumption |].
    split; [reflexivity |].
    split; [apply commit_accepted; [reflexivity | exact A] |].
    split; [reflexivity |].
    apply commit_clean. reflexivity.
Qed.

Lemma commit_is_delta_aware_witness :
  (well_formed (fresh 8 quiet_lines) = true /\
   _data_modified (fresh 8 quiet_lines) = true /\
   accepts (_lines (fresh 8 quiet_lines))
           (waveform (_data (fresh 8 quiet_lines))) = true) /\
  commit (fresh 8 quiet_lines)
  = (Ok tt,
     set_data_modified false
       (set_lines (wrote (waveform (_data (fresh 8 quiet_lines)))
                         (_lines (fresh 8 quiet_lines)))
                  (fresh 8 quiet_lines))) /\
  (live (fresh 8 quiet_lines) = true /\ 0 <= 0 < _leds (fresh 8 quiet_lines) /\
   __getitem__ 0 (fresh 8 quiet_lines) = (Ok off, fresh 8 quiet_lines) /\
   valid (mkLedOutput (PyInt 31) (PyInt 255) (PyInt 255) (PyInt 255)) = true /\
   mkLedOutput (PyInt 31) (PyInt 255) (PyInt 255) (PyInt 255) <> off) /\
  exists s',
    __setitem__ 0 (mkLedOutput (PyInt 31) (PyInt 255) (PyInt 255) (PyInt 255))
                (fresh 8 quiet_lines) = (Ok tt, s') /\
    _data_modified s' = true.
Proof.
  destruct commit_is_delta_aware as (T1 & _ & _ & T4 & _).
  assert (W : well_formed (fresh 8 quiet_lines) = true) by reflexivity.
  assert (A : accepts (_lines (fresh 8 quiet_lines))
                      (waveform (_data (fresh 8 quiet_lines))) = true)
    by (vm_compute; reflexivity).
  assert (Hne : mkLedOutput (PyInt 31) (PyInt 255) (PyInt 255) (PyInt 255) <> off)
    by discriminate.
  split; [split; [exact W | split; [reflexivity | exact A]] |].
  split; [exact (proj1 (T1 (fresh 8 quiet_lines) W eq_refl A)) |].
  split; [split; [reflexivity | split; [simpl; lia | split; [reflexivity |
          split; [reflexivity | exact Hne]]]] |].
  apply (T4 (fresh 8 quiet_lines) 0 off
            (mkLedOutput (PyInt 31) (PyInt 255) (PyInt 255) (PyInt 255)));
    [exact W | reflexivity | simpl; lia | reflexivity | reflexivity | exact Hne].
Defined.

(* ================================================================= *)
(** ** The scenarios of the unit tests *)

(** Every end sequence carries at least the edges required, sixteen to
    the byte. *)
Lemma end_sequence_covers_edges (N : Z) :
  0 <= N -> Z.max (N - 1) 0 <= 16 * len (_generate_end_sequence N).
Proof.
  intros H. pose proof (end_sequence_length N H) as C. unfold is_ceil16 in C. lia.
Qed.

(** Eight LEDs: the first commit writes the 37 bytes of the framebuffer,
    the second nothing; a set to a new value makes the next commit write
    them again, a set to the same value does not. *)
Example delta_update_scenario :
  let white := mkLedOutput (PyInt 31) (PyInt 255) (PyInt 255) (PyInt 255) in
  let s0 := fresh 8 quiet_lines in
  let s1 := snd (commit s0) in
  let s2 := snd (commit s1) in
  let s3 := snd (__setitem__ 0 white s2) in
  let s4 := snd (commit s3) in
  let s5 := snd (__setitem__ 0 white s4) in
  let s6 := snd (commit s5) in
  map (fun s => (_data_modified s, List.length (written (_lines s))))
      [s0; s1; s2; s3; s4; s5; s6]
  = [(true, 0%nat); (false, 592%nat); (false, 592%nat); (true, 592%nat);
     (false, 1184%nat); (false, 1184%nat); (false, 1184%nat)].
Proof. vm_compute. reflexivity. Qed.

(** The membership test of the unit tests. *)
Example contains_scenario :
  let present := mkLedOutput (PyInt 5) (PyInt 5) (PyInt 5) (PyInt 5) in
  let absent := mkLedOutput (PyInt 0) (PyInt 123) (PyInt 111) (PyInt 200) in
  let s := snd (__setitem__ 0 present (fresh 8 quiet_lines)) in
  fst (__contains__ present s) = Ok true /\
  fst (__contains__ absent s) = Ok false.
Proof. vm_compute. split; reflexivity. Qed.

(* ================================================================= *)
(** ** Failures of the collaborator *)

(** A write that the handle refuses makes the whole sequence raise. *)
Lemma write_all_rejected (ws : list (Z * Z)) (l : Lines) :
  accepts l ws = false -> fst (write_all ws l) = Raise OSError.
Proof.
  revert l. induction ws as [| w ws IH]; intros l A; simpl in *.
  - discriminate A.
  - unfold bind, set_values. destruct (faulty l (written l) w); [reflexivity |].
    simpl in A. specialize (IH _ A).
    destruct (write_all ws _) as [[[] | e] l1]; simpl in IH |- *;
      [discriminate IH | exact IH].
Qed.

(** A transmitting [commit] over lines that refuse one of its writes
    raises [OSError] and keeps the flag. *)
Lemma commit_rejected (s : APA102) :
  _data_modified s = true ->
  accepts (_lines s) (waveform (_data s)) = false ->
  fst (commit s) = Raise OSError /\ _data_modified (snd (commit s)) = true.
Proof.
  intros D A. rewrite commit_dirty by exact D. unfold bind.
  rewrite transmit_run, (write_all_rejected _ _ A). split; [reflexivity | exact D].
Qed.

(** Construction with reset commits the zeroed framebuffer. *)
Lemma init_with_reset (gpiod : string -> Z * Z -> result Lines)
    (chip : string) (leds clk data : Z) (lines : Lines) :
  gpiod chip (clk, data) = Ok lines -> 0 <= leds ->
  accepts lines (waveform (_data (fresh leds lines))) = true ->
  __init__ gpiod chip leds clk data true
  = Ok (set_data_modified false
          (set_lines (wrote (waveform (_data (fresh leds lines))) lines)
                     (fresh leds lines))).
Proof.
  intros G H A. unfold __init__. rewrite G. cbn [rbind].
  change (_pack_wrgb (mkLedOutput (PyInt 0) (PyInt 0) (PyInt 0) (PyInt 0)))
    with (@Ok (list Z) [0xe0; 0; 0; 0]).
  cbn [rbind]. unfold len_self, __len__. cbn [_leds].
  destruct (Z.ltb_spec leds 0); [lia |].
  change (mkAPA102 leds true lines
            (APA102_START ++ repeat_bytes [0xe0; 0; 0; 0] leds ++ _generate_end_sequence leds)
            ViewOfData [0; 0; 0; 0]) with (fresh leds lines).
  now rewrite (commit_accepted (fresh leds lines) eq_refl A).
Qed.

(** Lines that cannot be requested leave no controller. *)
Lemma init_without_lines (gpiod : string -> Z * Z -> result Lines)
    (chip : string) (leds clk data : Z) (reset : bool) (e : exn) :
  gpiod chip (clk, data) = Raise e ->
  __init__ gpiod chip leds clk data reset = Raise e.
Proof. intros G. unfold __init__. now rewrite G. Qed.

(** A negative LED count is refused when the length is taken. *)
Lemma init_negative (gpiod : string -> Z * Z -> result Lines)
    (chip : string) (leds clk data : Z) (reset : bool) (lines : Lines) :
  gpiod chip (clk, data) = Ok lines -> leds < 0 ->
  __init__ gpiod chip leds clk data reset
  = Raise (ValueError [Lit "__len__() should return >= 0"]).
Proof.
  intros G H. unfold __init__. rewrite G. cbn [rbind].
  change (_pack_wrgb (mkLedOutput (PyInt 0) (PyInt 0) (PyInt 0) (PyInt 0)))
    with (@Ok (list Z) [0xe0; 0; 0; 0]).
  cbn [rbind]. unfold len_self, __len__. cbn [_leds].
  destruct (Z.ltb_spec leds 0); [reflexivity | lia].
Qed.

(** A float is refused by the check even when it compares within the
    bounds, as the unit tests expect of [float(0)]. *)
Example check_rejects_float_zero :
  exists msg,
    _check_ledoutput_range
      (mkLedOutput (PyFloat (S754_zero false)) (PyInt 0) (PyInt 0) (PyInt 0))
    = Raise (ValueError msg) /\
    between 0 (PyFloat (S754_zero false)) 0x1f = true.
Proof. eexists. split; reflexivity. Qed.

(** Lines that fail from their hundredth write on: the first commit of
    eight LEDs raises and leaves the flag set. *)
Example commit_over_failing_lines :
  fst (commit (fresh 8 (failing_lines 100))) = Raise OSError /\
  _data_modified (snd (commit (fresh 8 (failing_lines 100)))) = true /\
  List.length (written (_lines (snd (commit (fresh 8 (failing_lines 100))))))
  = 100%nat.
Proof.
  destruct (commit_rejected (fresh 8 (failing_lines 100)) eq_refl
              ltac:(vm_compute; reflexivity)) as [E D].
  split; [exact E |]. split; [exact D |]. vm_compute. reflexivity.
Qed.

(* ================================================================= *)
(** ** More on validation *)

(** X1: the check returns exactly on the outputs whose four fields are
    integers, the brightness within [0, 31] and each channel within
    [0, 255]; on every other output, a float within the bounds
    included, it raises. *)
Theorem check_returns_iff_valid (o : LedOutput) :
  _check_ledoutput_range o = Ok tt <-> valid o = true.
Proof.
  split.
  - intros E. destruct (valid o) eqn:V; [reflexivity |].
    destruct (check_rejects_invalid o V) as (f & text & tail & shown & R & _).
    rewrite R in E. discriminate E.
  - apply check_accepts_valid.
Qed.

Lemma check_returns_iff_valid_witness :
  valid (mkLedOutput (PyInt 31) (PyInt 255) (PyInt 0) (PyInt 7)) = true /\
  _check_ledoutput_range (mkLedOutput (PyInt 31) (PyInt 255) (PyInt 0) (PyInt 7))
  = Ok tt.
Proof.
  split; [reflexivity |].
  apply (proj2 (check_returns_iff_valid _)). reflexivity.
Defined.

(** X2: on an output that is not valid the check raises a [ValueError]
    whose text names one field and no other, and that field is the first
    invalid one in the order brightness, red, green, blue. *)
Theorem check_names_first_invalid_field (o : LedOutput) :
  valid o = false ->
  exists (f : field) (text tail : string) (shown : pyval),
    _check_ledoutput_range o
    = Raise (ValueError [Lit class_name_LedOutput; Lit text; Repr shown; Lit tail]) /\
    (forall f', contains (field_word f') text = true <-> f' = f) /\
    field_ok f o = false /\
    (forall f', (field_rank f' < field_rank f)%nat -> field_ok f' o = true).
Proof.
  unfold valid, _check_ledoutput_range, field_ok. rewrite !range_test_int_within.
  intros H.
  destruct (int_within 0 31 (brt o)) eqn:E1; simpl negb; cbv iota.
  2:{ exists Brightness. do 3 eexists. split; [reflexivity |].
      split; [| split; [exact E1 |]].
      - intros []; split; intros K; try reflexivity; discriminate K.
      - intros [] K; simpl in K; lia. }
  destruct (int_within 0 255 (r o)) eqn:E2; simpl negb; cbv iota.
  2:{ exists Red. do 3 eexists. split; [reflexivity |].
      split; [| split; [exact E2 |]].
      - intros []; split; intros K; try reflexivity; discriminate K.
      - intros [] K; simpl in K; try lia. exact E1. }
  destruct (int_within 0 255 (g o)) eqn:E3; simpl negb; cbv iota.
  2:{ exists Green. do 3 eexists. split; [reflexivity |].
      split; [| split; [exact E3 |]].
      - intros []; split; intros K; try reflexivity; discriminate K.
      - intros [] K; simpl in K; try lia; assumption. }
  destruct (int_within 0 255 (b o)) eqn:E4; simpl negb; cbv iota.
  2:{ exists Blue. do 3 eexists. split; [reflexivity |].
      split; [| split; [exact E4 |]].
      - intros []; split; intros K; try reflexivity; discriminate K.
      - intros [] K; simpl in K; try lia; assumption. }
  discriminate H.
Qed.

Lemma check_names_first_invalid_field_witness :
  valid (mkLedOutput (PyInt 3) (PyInt 256) (PyInt (-1)) (PyInt 0)) = false /\
  exists (f : field) (text tail : string) (shown : pyval),
    _check_ledoutput_range (mkLedOutput (PyInt 3) (PyInt 256) (PyInt (-1)) (PyInt 0))
    = Raise (ValueError [Lit class_name_LedOutput; Lit text; Repr shown; Lit tail]) /\
    (forall f', contains (field_word f') text = true <-> f' = f) /\
    field_ok f (mkLedOutput (PyInt 3) (PyInt 256) (PyInt (-1)) (PyInt 0)) = false /\
    (forall f', (field_rank f' < field_rank f)%nat ->
                field_ok f' (mkLedOutput (PyInt 3) (PyInt 256) (PyInt (-1)) (PyInt 0)) = true).
Proof.
  split; [reflexivity |].
  apply (check_names_first_invalid_field
           (mkLedOutput (PyInt 3) (PyInt 256) (PyInt (-1)) (PyInt 0))).
  reflexivity.
Defined.

(** X3: the indexed set checks the value before the index: with an
    output that is not valid it raises the [ValueError] of the check at
    every index, one out of range included, and leaves the object as it
    was. *)
Theorem setitem_checks_value_before_index (i : Z) (o : LedOutput) (s : APA102) :
  valid o = false ->
  exists msg,
    __setitem__ i o s = (Raise (ValueError msg), s) /\
    _check_ledoutput_range o = Raise (ValueError msg).
Proof.
  intros V. destruct (setitem_rejects_invalid i o s V) as (msg & C & E).
  exists msg. split; assumption.
Qed.

Lemma setitem_checks_value_before_index_witness :
  valid (mkLedOutput (PyInt 32) (PyInt 0) (PyInt 0) (PyInt 0)) = false /\
  exists msg,
    __setitem__ 99 (mkLedOutput (PyInt 32) (PyInt 0) (PyInt 0) (PyInt 0))
                (fresh 8 quiet_lines)
    = (Raise (ValueError msg), fresh 8 quiet_lines) /\
    _check_ledoutput_range (mkLedOutput (PyInt 32) (PyInt 0) (PyInt 0) (PyInt 0))
    = Raise (ValueError msg).
Proof.
  split; [reflexivity |].
  apply (setitem_checks_value_before_index 99
           (mkLedOutput (PyInt 32) (PyInt 0) (PyInt 0) (PyInt 0))
           (fresh 8 quiet_lines)).
  reflexivity.
Defined.

(* ================================================================= *)
(** ** More on packing *)

Lemma byte_tests_agree (z : Z) :
  (0 <=? z) && (z <=? 255) = (0 <=? z) && (z <? 256).
Proof.
  destruct (Z.leb_spec 0 z), (Z.leb_spec z 255), (Z.ltb_spec z 256);
    try reflexivity; lia.
Qed.

(** One store into a buffer of at least [k + 1] bytes, in the terms of
    the item of [struct.pack]. *)
Lemma bytearray_setitem_run (k : nat) (v : pyval) (d : list Z) :
  (k < List.length d)%nat ->
  match struct_B v with
  | Ok z => bytearray_setitem k v d = (Ok tt, firstn k d ++ [z] ++ skipn (S k) d)
  | Raise _ => exists e, bytearray_setitem k v d = (Raise e, d)
  end.
Proof.
  intros H. unfold bytearray_setitem, struct_B.
  destruct (Nat.ltb_spec k (List.length d)) as [_ | H']; [| lia].
  destruct v as [z | f]; [| eexists; reflexivity].
  rewrite byte_tests_agree.
  destruct ((0 <=? z) && (z <? 256)); [reflexivity | eexists; reflexivity].
Qed.

(** X4: the two packers agree: on any output, packing into a scratch
    word of four bytes returns exactly when [_pack_wrgb] returns, and
    then the scratch word holds the bytes [_pack_wrgb] returns. *)
Theorem pack_direct_agrees_with_pack (o : LedOutput) (scratch w : list Z) :
  List.length scratch = 4%nat ->
  (_pack_wrgb o = Ok w <-> _pack_wrgb_direct o scratch = (Ok tt, w)).
Proof.
  intros L.
  destruct scratch as [| s0 [| s1 [| s2 [| s3 [| ? ?]]]]]; try discriminate L.
  unfold _pack_wrgb, _pack_wrgb_direct, bind, lift.
  destruct (py_or (brt o) 224) as [v0 | e]; cbn [rbind];
    [| split; intros K; discriminate K].
  pose proof (bytearray_setitem_run 0 v0 [s0; s1; s2; s3] ltac:(simpl; lia)) as R0.
  destruct (struct_B v0) as [b0 | e]; cbn [rbind];
    [rewrite R0 | destruct R0 as (e0 & ->); split; intros K; discriminate K].
  cbn [firstn skipn app].
  pose proof (bytearray_setitem_run 1 (b o) [b0; s1; s2; s3] ltac:(simpl; lia)) as R1.
  destruct (struct_B (b o)) as [b1 | e]; cbn [rbind];
    [rewrite R1 | destruct R1 as (e1 & ->); split; intros K; discriminate K].
  cbn [firstn skipn app].
  pose proof (bytearray_setitem_run 2 (g o) [b0; b1; s2; s3] ltac:(simpl; lia)) as R2.
  destruct (struct_B (g o)) as [b2 | e]; cbn [rbind];
    [rewrite R2 | destruct R2 as (e2 & ->); split; intros K; discriminate K].
  cbn [firstn skipn app].
  pose proof (bytearray_setitem_run 3 (r o) [b0; b1; b2; s3] ltac:(simpl; lia)) as R3.
  destruct (struct_B (r o)) as [b3 | e]; cbn [rbind];
    [rewrite R3 | destruct R3 as (e3 & ->); split; intros K; discriminate K].
  cbn [firstn skipn app].
  split; intros K; injection K as <-; reflexivity.
Qed.

Lemma pack_direct_agrees_with_pack_witness :
  List.length [9; 9; 9; 9] = 4%nat /\
  _pack_wrgb (mkLedOutput (PyInt 11) (PyInt 125) (PyInt 65) (PyInt 200))
  = Ok [235; 200; 65; 125] /\
  _pack_wrgb_direct (mkLedOutput (PyInt 11) (PyInt 125) (PyInt 65) (PyInt 200))
                    [9; 9; 9; 9]
  = (Ok tt, [235; 200; 65; 125]).
Proof.
  split; [reflexivity |]. split; [reflexivity |].
  apply (proj1 (pack_direct_agrees_with_pack
                  (mkLedOutput (PyInt 11) (PyInt 125) (PyInt 65) (PyInt 200))
                  [9; 9; 9; 9] [235; 200; 65; 125] eq_refl)).
  reflexivity.
Defined.

(** The marker keeps a byte a byte, and nothing else. *)
Lemma marker_byte_iff (w : Z) :
  0 <= Z.lor w 0xe0 <= 255 <-> 0 <= w <= 255.
Proof.
  split.
  - intros [H1 H2].
    assert (Hw : 0 <= w) by (apply Z.lor_nonneg in H1; tauto).
    split; [exact Hw |].
    destruct (Z.eq_dec w 0) as [-> | Hne]; [lia |].
    assert (Hl : Z.log2 (Z.lor w 0xe0) < 8).
    { apply Z.log2_lt_pow2; [| change (2 ^ 8) with 256; lia].
      assert (0 <> Z.lor w 0xe0); [| lia].
      intros E. symmetry in E. apply Z.lor_eq_0_iff in E. lia. }
    rewrite Z.log2_lor in Hl by lia.
    assert (Z.log2 w < 8) by lia.
    assert (w < 2 ^ 8) by (apply Z.log2_lt_pow2; lia).
    change (2 ^ 8) with 256 in *. lia.
  - intros H.
    assert (C : ((0 <=? Z.lor w 0xe0) && (Z.lor w 0xe0 <=? 255)) = true).
    { apply (by_cases_below 256
               (fun w => (0 <=? Z.lor w 0xe0) && (Z.lor w 0xe0 <=? 255)));
        [vm_compute; reflexivity | lia]. }
    apply andb_prop in C as [C1 C2]. lia.
Qed.

Lemma marker_over_byte (w : Z) :
  0 <= w <= 255 -> Z.lor w 0xe0 = 0xe0 + w mod 32.
Proof.
  intros H. apply Z.eqb_eq.
  apply (by_cases_below 256 (fun w => Z.lor w 0xe0 =? 0xe0 + w mod 32));
    [vm_compute; reflexivity | lia].
Qed.

(** X5: [_pack_wrgb] returns exactly on four integers that are bytes,
    the brightness included: of a brightness within [0, 255] it keeps the
    low five bits under the marker, so it does not tell 32 from 0. *)
Theorem pack_returns_iff_bytes (o : LedOutput) (p : list Z) :
  _pack_wrgb o = Ok p <->
  exists w x y z,
    o = mkLedOutput (PyInt w) (PyInt x) (PyInt y) (PyInt z) /\
    0 <= w <= 255 /\ 0 <= x <= 255 /\ 0 <= y <= 255 /\ 0 <= z <= 255 /\
    p = [0xe0 + w mod 32; z; y; x].
Proof.
  split.
  - destruct o as [[w | f] vr vg vb]; unfold _pack_wrgb; cbn [py_or rbind brt r g b];
      [| discriminate].
    unfold struct_B at 1.
    destruct ((0 <=? Z.lor w 224) && (Z.lor w 224 <=? 255)) eqn:E0;
      cbn [rbind]; [| discriminate].
    destruct vb as [z | f]; cbn [struct_B rbind]; [| discriminate].
    destruct ((0 <=? z) && (z <=? 255)) eqn:E1; cbn [rbind]; [| discriminate].
    destruct vg as [y | f]; cbn [struct_B rbind]; [| discriminate].
    destruct ((0 <=? y) && (y <=? 255)) eqn:E2; cbn [rbind]; [| discriminate].
    destruct vr as [x | f]; cbn [struct_B rbind]; [| discriminate].
    destruct ((0 <=? x) && (x <=? 255)) eqn:E3; cbn [rbind]; [| discriminate].
    intros K. injection K as <-.
    apply andb_prop in E0 as [A0 B0], E1 as [A1 B1], E2 as [A2 B2], E3 as [A3 B3].
    assert (Hw : 0 <= w <= 255) by (apply marker_byte_iff; lia).
    exists w, x, y, z. repeat split; try lia.
    now rewrite (marker_over_byte w Hw).
  - intros (w & x & y & z & -> & Hw & Hx & Hy & Hz & ->).
    unfold _pack_wrgb. cbn [py_or rbind brt r g b].
    rewrite (struct_B_byte (Z.lor w 224)) by (apply marker_byte_iff; exact Hw).
    rewrite !struct_B_byte by assumption. cbn [rbind].
    now rewrite (marker_over_byte w Hw).
Qed.

Lemma pack_returns_iff_bytes_witness :
  _pack_wrgb (mkLedOutput (PyInt 32) (PyInt 1) (PyInt 2) (PyInt 3))
  = Ok [0xe0 + 32 mod 32; 3; 2; 1].
Proof.
  apply (proj2 (pack_returns_iff_bytes
                  (mkLedOutput (PyInt 32) (PyInt 1) (PyInt 2) (PyInt 3))
                  [0xe0 + 32 mod 32; 3; 2; 1])).
  exists 32, 1, 2, 3. repeat split; lia.
Defined.

(** X6: unpacking needs four bytes: a command of fewer raises an
    [IndexError], and of a longer command only the first four bytes are
    read. *)
Theorem unpack_reads_four_bytes (command : list Z) :
  ((List.length command < 4)%nat ->
     exists msg, _ledoutput_from_led_command command = Raise (IndexError msg)) /\
  ((4 <= List.length command)%nat ->
     exists v, _ledoutput_from_led_command command = Ok v /\
               _ledoutput_from_led_command (firstn 4 command) = Ok v).
Proof.
  destruct command as [| c0 [| c1 [| c2 [| c3 rest]]]]; simpl List.length;
    (split; intros H; [| lia]) || (split; intros H; [lia |]);
    try (eexists; reflexivity).
  eexists. split; reflexivity.
Qed.

Lemma unpack_reads_four_bytes_witness :
  ((List.length [0xe1; 2; 3] < 4)%nat /\
   exists msg, _ledoutput_from_led_command [0xe1; 2; 3] = Raise (IndexError msg)) /\
  ((4 <= List.length [0xe1; 2; 3; 4; 5])%nat /\
   exists v, _ledoutput_from_led_command [0xe1; 2; 3; 4; 5] = Ok v /\
             _ledoutput_from_led_command (firstn 4 [0xe1; 2; 3; 4; 5]) = Ok v).
Proof.
  split; (split; [simpl; lia |]).
  - apply (proj1 (unpack_reads_four_bytes [0xe1; 2; 3])). simpl; lia.
  - apply (proj2 (unpack_reads_four_bytes [0xe1; 2; 3; 4; 5])). simpl; lia.
Defined.

Lemma masked_byte_facts (x : Z) :
  0 <= x < 256 ->
  Z.lor (Z.land x 0x1f) 0xe0 = Z.lor x 0xe0 /\ 0 <= Z.land x 0x1f <= 31.
Proof.
  intros H.
  assert (C : ((Z.lor (Z.land x 0x1f) 0xe0 =? Z.lor x 0xe0) &&
               ((0 <=? Z.land x 0x1f) && (Z.land x 0x1f <=? 31))) = true).
  { apply (by_cases_below 256
             (fun x => (Z.lor (Z.land x 0x1f) 0xe0 =? Z.lor x 0xe0) &&
                       ((0 <=? Z.land x 0x1f) && (Z.land x 0x1f <=? 31))));
      [vm_compute; reflexivity | lia]. }
  apply andb_prop in C as [C1 C2]. apply andb_prop in C2 as [C2 C3].
  split; lia.
Qed.

(** X7: unpacking forgets the top three bits of the first byte: any four
    bytes unpack to a valid output, and packing it gives the four bytes
    back with the marker set on the first. *)
Theorem repack_sets_marker (w0 w1 w2 w3 : Z) :
  0 <= w0 < 256 -> 0 <= w1 < 256 -> 0 <= w2 < 256 -> 0 <= w3 < 256 ->
  exists v,
    _ledoutput_from_led_command [w0; w1; w2; w3] = Ok v /\
    valid v = true /\
    _pack_wrgb v = Ok [Z.lor w0 0xe0; w1; w2; w3].
Proof.
  intros H0 H1 H2 H3. destruct (masked_byte_facts w0 H0) as [Hm Hb].
  eexists. split; [reflexivity |]. split.
  - unfold valid, int_within, py_and. cbn [brt r g b].
    repeat (apply andb_true_intro; split); apply Z.leb_le; lia.
  - unfold py_and. rewrite pack_of_valid by lia. now rewrite Hm.
Qed.

Lemma repack_sets_marker_witness :
  (0 <= 0x05 < 256 /\ 0 <= 1 < 256 /\ 0 <= 2 < 256 /\ 0 <= 3 < 256) /\
  exists v,
    _ledoutput_from_led_command [0x05; 1; 2; 3] = Ok v /\
    valid v = true /\
    _pack_wrgb v = Ok [Z.lor 0x05 0xe0; 1; 2; 3].
Proof.
  split; [lia |].
  apply (repack_sets_marker 0x05 1 2 3); lia.
Defined.

(* ================================================================= *)
(** ** More on the indexed set *)

(** X8: a set touches one LED only: after [Set(i, v)] with a valid [v]
    every other LED reads as it did before. *)
Theorem set_leaves_other_leds (i j : Z) (v : LedOutput) (s : APA102) :
  well_formed s = true -> live s = true ->
  0 <= i < _leds s -> 0 <= j < _leds s -> j <> i -> valid v = true ->
  fst (__getitem__ j (snd (__setitem__ i v s))) = fst (__getitem__ j s).
Proof.
  intros W L Hi Hj Hne V.
  destruct (packed_valid v V) as (packed & P & _ & L4 & _).
  pose proof (word_room s i W Hi) as Ri. pose proof (word_room s j W Hj) as Rj.
  rewrite setitem_valid by assumption.
  rewrite (set_unchecked_valid i v s packed) by assumption. cbn [snd].
  destruct (list_eqb packed (led_word s i)).
  - apply getitem_reads; reflexivity.
  - rewrite !getitem_in_range by assumption. cbn [fst]. f_equal.
    unfold led_word. cbn [_data set_data_modified set_data].
    apply store_word_other; (assumption || lia).
Qed.

Lemma set_leaves_other_leds_witness :
  (well_formed (fresh 8 quiet_lines) = true /\ live (fresh 8 quiet_lines) = true /\
   0 <= 2 < _leds (fresh 8 quiet_lines) /\ 0 <= 5 < _leds (fresh 8 quiet_lines) /\
   5 <> 2 /\ valid (mkLedOutput (PyInt 1) (PyInt 4) (PyInt 5) (PyInt 6)) = true) /\
  fst (__getitem__ 5
         (snd (__setitem__ 2 (mkLedOutput (PyInt 1) (PyInt 4) (PyInt 5) (PyInt 6))
                           (fresh 8 quiet_lines))))
  = fst (__getitem__ 5 (fresh 8 quiet_lines)).
Proof.
  split; [repeat split; try reflexivity; simpl; lia |].
  apply (set_leaves_other_leds 2 5 (mkLedOutput (PyInt 1) (PyInt 4) (PyInt 5) (PyInt 6))
           (fresh 8 quiet_lines));
    try reflexivity; simpl; lia.
Defined.

(** X9: in every state a program reaches, by construction and then any
    operations within the contract, the framebuffer is the start
    sequence, the words of the LEDs and the end sequence, all of its
    elements are bytes, and the first byte of the word of every LED has
    its top three bits set. *)
Theorem reachable_layout (gpiod : string -> Z * Z -> result Lines) (s : APA102) :
  reachable gpiod s ->
  0 <= _leds s /\
  _data s = APA102_START ++ led_words s ++ _generate_end_sequence (_leds s) /\
  List.length (led_words s) = Z.to_nat (4 * _leds s) /\
  forallb byteb (_data s) = true /\
  (forall i, 0 <= i < _leds s -> marked_word (led_word s i) = true).
Proof.
  intros R. pose proof (reachable_well_formed gpiod s R) as W.
  pose proof (layout_split s W) as E.
  apply well_formed_inv in W as (W1 & W2 & W3 & _ & W5 & _).
  split; [exact W1 |]. split; [exact E |]. split; [| split; assumption].
  unfold led_words. rewrite length_firstn, length_skipn.
  unfold frame_length, len in W2.
  pose proof (len_nonneg Z (_generate_end_sequence (_leds s))) as K. unfold len in K.
  lia.
Qed.

Lemma reachable_layout_witness :
  reachable gpiod_quiet
    (run_op (Set_ 0 (mkLedOutput (PyInt 1) (PyInt 4) (PyInt 5) (PyInt 6)))
            (fresh 8 quiet_lines)) /\
  forallb byteb
    (_data (run_op (Set_ 0 (mkLedOutput (PyInt 1) (PyInt 4) (PyInt 5) (PyInt 6)))
                   (fresh 8 quiet_lines))) = true.
Proof.
  assert (R : reachable gpiod_quiet
                (run_op (Set_ 0 (mkLedOutput (PyInt 1) (PyInt 4) (PyInt 5) (PyInt 6)))
                        (fresh 8 quiet_lines))).
  { apply reach_step; [| reflexivity].
    apply (reach_init gpiod_quiet "/dev/gpiochip0" 8 24 23 false). reflexivity. }
  split; [exact R |].
  exact (proj1 (proj2 (proj2 (proj2 (reachable_layout gpiod_quiet _ R))))).
Defined.

(* ================================================================= *)
(** ** The membership test *)

Lemma contains_scan_run (o : LedOutput) (packed : list Z) (indices : list Z)
    (s : APA102) :
  live s = true -> _pack_wrgb o = Ok packed ->
  contains_scan o indices s
  = (Ok (existsb (fun i => list_eqb packed (led_word s i)) indices), s).
Proof.
  intros L P. unfold live in L. destruct (_view s) eqn:Ev; [| discriminate L].
  induction indices as [| i rest IH]; cbn [contains_scan existsb].
  - reflexivity.
  - unfold bind, lift, view_getslice. rewrite P, Ev. unfold led_word.
    destruct (list_eqb packed (getslice (_data s) (4 + i * 4) (8 + i * 4)));
      [reflexivity | exact IH].
Qed.

(** X10: on a controller that was not closed, the membership test of an
    output that can be packed returns, leaves the object as it was, and
    answers true exactly when the packed output is the stored word of
    some LED. *)
Theorem contains_iff_some_word (o : LedOutput) (packed : list Z) (s : APA102) :
  live s = true -> 0 <= _leds s -> _pack_wrgb o = Ok packed ->
  exists answer : bool,
    __contains__ o s = (Ok answer, s) /\
    (answer = true <-> exists i, 0 <= i < _leds s /\ led_word s i = packed).
Proof.
  intros L H P.
  exists (existsb (fun i => list_eqb packed (led_word s i)) (range (_leds s))).
  split.
  - unfold __contains__, bind, len_self, __len__.
    destruct (Z.ltb_spec (_leds s) 0); [lia |].
    apply contains_scan_run; assumption.
  - rewrite existsb_exists. split.
    + intros (i & Hi & E). exists i. split; [apply range_inv, Hi |].
      symmetry. apply list_eqb_eq, E.
    + intros (i & Hi & E). exists i. split; [apply in_range, Hi |].
      apply list_eqb_eq. now symmetry.
Qed.

Lemma contains_iff_some_word_witness :
  (live (fresh 8 quiet_lines) = true /\ 0 <= _leds (fresh 8 quiet_lines) /\
   _pack_wrgb off = Ok [0xe0; 0; 0; 0]) /\
  exists answer : bool,
    __contains__ off (fresh 8 quiet_lines) = (Ok answer, fresh 8 quiet_lines) /\
    (answer = true <->
     exists i, 0 <= i < _leds (fresh 8 quiet_lines) /\
               led_word (fresh 8 quiet_lines) i = [0xe0; 0; 0; 0]).
Proof.
  split; [repeat split; try reflexivity; simpl; lia |].
  apply (contains_iff_some_word off [0xe0; 0; 0; 0] (fresh 8 quiet_lines));
    try reflexivity; simpl; lia.
Defined.

(** A stored word is the packed form of an output exactly when the get
    of its LED returns the output. *)
Lemma stored_word_iff_get (i : Z) (v : LedOutput) (packed : list Z) (s : APA102) :
  well_formed s = true -> live s = true -> 0 <= i < _leds s ->
  _pack_wrgb v = Ok packed -> _ledoutput_from_led_command packed = Ok v ->
  (led_word s i = packed <-> __getitem__ i s = (Ok v, s)).
Proof.
  intros W L Hi P U. rewrite getitem_in_range by assumption. split.
  - intros ->. now rewrite U.
  - intros G. injection G as G.
    pose proof (pack_after_unpack _ (stored_word_marked i s W Hi)) as R.
    rewrite G in R. cbn [rbind] in R. congruence.
Qed.

(** X11: on a controller that was not closed, the membership test of a
    valid output answers true exactly when the get of some LED returns
    that output. *)
Theorem contains_iff_some_get (v : LedOutput) (s : APA102) :
  well_formed s = true -> live s = true -> valid v = true ->
  exists answer : bool,
    __contains__ v s = (Ok answer, s) /\
    (answer = true <-> exists i, 0 <= i < _leds s /\ __getitem__ i s = (Ok v, s)).
Proof.
  intros W L V.
  destruct (packed_valid v V) as (packed & P & _ & _ & _ & U).
  exists (existsb (fun i => list_eqb packed (led_word s i)) (range (_leds s))).
  split.
  - unfold __contains__, bind, len_self, __len__.
    apply well_formed_inv in W as (W1 & _).
    destruct (Z.ltb_spec (_leds s) 0); [lia |].
    apply contains_scan_run; assumption.
  - rewrite existsb_exists. split.
    + intros (i & Hi & E). apply range_inv in Hi. exists i. split; [exact Hi |].
      apply (stored_word_iff_get i v packed s); try assumption.
      symmetry. apply list_eqb_eq, E.
    + intros (i & Hi & G). exists i. split; [apply in_range, Hi |].
      apply list_eqb_eq. symmetry.
      apply (stored_word_iff_get i v packed s); assumption.
Qed.

Lemma contains_iff_some_get_witness :
  (well_formed (fresh 8 quiet_lines) = true /\ live (fresh 8 quiet_lines) = true /\
   valid (mkLedOutput (PyInt 5) (PyInt 5) (PyInt 5) (PyInt 5)) = true) /\
  exists answer : bool,
    __contains__ (mkLedOutput (PyInt 5) (PyInt 5) (PyInt 5) (PyInt 5))
                 (fresh 8 quiet_lines)
    = (Ok answer, fresh 8 quiet_lines) /\
    (answer = true <->
     exists i, 0 <= i < _leds (fresh 8 quiet_lines) /\
               __getitem__ i (fresh 8 quiet_lines)
               = (Ok (mkLedOutput (PyInt 5) (PyInt 5) (PyInt 5) (PyInt 5)),
                  fresh 8 quiet_lines)).
Proof.
  split; [repeat split; reflexivity |].
  apply (contains_iff_some_get (mkLedOutput (PyInt 5) (PyInt 5) (PyInt 5) (PyInt 5))
           (fresh 8 quiet_lines)); reflexivity.
Defined.

(** X12: the membership test packs the output inside its loop: an
    output that cannot be packed makes it raise the error of the packer
    when there is at least one LED, and answer false when there is
    none. *)
Theorem contains_of_unpackable (o : LedOutput) (e : exn) (s : APA102) :
  _pack_wrgb o = Raise e ->
  (_leds s = 0 -> __contains__ o s = (Ok false, s)) /\
  (0 < _leds s -> __contains__ o s = (Raise e, s)).
Proof.
  intros P. unfold __contains__, bind, len_self, __len__. split; intros H.
  - rewrite H. reflexivity.
  - destruct (Z.ltb_spec (_leds s) 0); [lia |].
    unfold range. destruct (Z.to_nat (_leds s)) as [| n] eqn:E; [lia |].
    cbn [seq map contains_scan]. unfold bind, lift. now rewrite P.
Qed.

Lemma contains_of_unpackable_witness :
  _pack_wrgb (mkLedOutput (PyInt 0) (PyInt 256) (PyInt 0) (PyInt 0)) = Raise StructError /\
  __contains__ (mkLedOutput (PyInt 0) (PyInt 256) (PyInt 0) (PyInt 0))
               (fresh 0 quiet_lines) = (Ok false, fresh 0 quiet_lines) /\
  __contains__ (mkLedOutput (PyInt 0) (PyInt 256) (PyInt 0) (PyInt 0))
               (fresh 8 quiet_lines) = (Raise StructError, fresh 8 quiet_lines).
Proof.
  split; [reflexivity |]. split.
  - apply (proj1 (contains_of_unpackable
                    (mkLedOutput (PyInt 0) (PyInt 256) (PyInt 0) (PyInt 0))
                    StructError (fresh 0 quiet_lines) eq_refl)). reflexivity.
  - apply (proj2 (contains_of_unpackable
                    (mkLedOutput (PyInt 0) (PyInt 256) (PyInt 0) (PyInt 0))
                    StructError (fresh 8 quiet_lines) eq_refl)). simpl; lia.
Defined.

(* ================================================================= *)
(** ** After [close] *)

(** X13: [close] returns and changes neither the framebuffer nor the
    flag, but the view is released: after it a get in range raises the
    [ValueError] of the released view instead of reading, a get out of
    range still raises the [IndexError], and a set of a valid output in
    range raises that [ValueError] and stores nothing. *)
Theorem closed_controller_refuses_access (s : APA102) (i : Z) (v : LedOutput) :
  fst (close s) = Ok tt /\
  _data (snd (close s)) = _data s /\
  _data_modified (snd (close s)) = _data_modified s /\
  lines_released (_lines (snd (close s))) = true /\
  (0 <= i < _leds s ->
     __getitem__ i (snd (close s)) = (Raise released_view_error, snd (close s))) /\
  (i < 0 \/ _leds s <= i ->
     __getitem__ i (snd (close s)) = (Raise out_of_range_error, snd (close s))) /\
  (well_formed s = true -> valid v = true -> 0 <= i < _leds s ->
     exists c,
       __setitem__ i v (snd (close s)) = (Raise released_view_error, c) /\
       _data c = _data s /\ _data_modified c = _data_modified s).
Proof.
  repeat split.
  - intros H. apply getitem_released; [reflexivity | exact H].
  - intros H. apply getitem_out_of_range. exact H.
  - intros W V H. destruct (packed_valid v V) as (packed & P & _).
    assert (W' : well_formed (snd (close s)) = true)
      by (rewrite <- W; now apply well_formed_ext).
    exists (set_wrgb_buffer packed (snd (close s))).
    split; [| split; reflexivity].
    rewrite setitem_valid by assumption.
    apply (set_unchecked_released i v (snd (close s)) packed);
      [exact W' | reflexivity | exact V | exact P].
Qed.

Lemma closed_controller_refuses_access_witness :
  (0 <= 3 < _leds (fresh 8 quiet_lines) /\
   __getitem__ 3 (snd (close (fresh 8 quiet_lines)))
   = (Raise released_view_error, snd (close (fresh 8 quiet_lines)))) /\
  (well_formed (fresh 8 quiet_lines) = true /\ valid off = true /\
   exists c,
     __setitem__ 3 off (snd (close (fresh 8 quiet_lines)))
     = (Raise released_view_error, c) /\
     _data c = _data (fresh 8 quiet_lines) /\
     _data_modified c = _data_modified (fresh 8 quiet_lines)).
Proof.
  destruct (closed_controller_refuses_access (fresh 8 quiet_lines) 3 off)
    as (_ & _ & _ & _ & G & _ & S).
  split; (split; [try reflexivity; simpl; lia |]).
  - apply G. simpl; lia.
  - split; [reflexivity |]. apply S; try reflexivity. simpl; lia.
Defined.

(* ================================================================= *)
(** ** The unchecked set outside its contract *)

(** The scratch word after packing four bytes into it, the brightness
    any byte. *)
Lemma pack_direct_bytes (w x y z : Z) (scratch : list Z) :
  0 <= w <= 255 -> 0 <= x <= 255 -> 0 <= y <= 255 -> 0 <= z <= 255 ->
  List.length scratch = 4%nat ->
  _pack_wrgb_direct (mkLedOutput (PyInt w) (PyInt x) (PyInt y) (PyInt z)) scratch
  = (Ok tt, [Z.lor w 0xe0; z; y; x]).
Proof.
  intros Hw Hx Hy Hz L.
  destruct scratch as [| a [| b0 [| c [| d0 [| ? ?]]]]]; try discriminate L.
  pose proof (proj2 (marker_byte_iff w) Hw) as Hm.
  unfold _pack_wrgb_direct, bind, lift, bytearray_setitem.
  cbn [py_or brt r g b List.length Nat.ltb Nat.leb firstn skipn app].
  replace ((0 <=? Z.lor w 224) && (Z.lor w 224 <? 256)) with true
    by (symmetry; apply andb_true_intro; split; [apply Z.leb_le | apply Z.ltb_lt]; lia).
  replace ((0 <=? z) && (z <? 256)) with true
    by (symmetry; apply andb_true_intro; split; [apply Z.leb_le | apply Z.ltb_lt]; lia).
  cbn [List.length Nat.ltb Nat.leb firstn skipn app].
  replace ((0 <=? y) && (y <? 256)) with true
    by (symmetry; apply andb_true_intro; split; [apply Z.leb_le | apply Z.ltb_lt]; lia).
  cbn [List.length Nat.ltb Nat.leb firstn skipn app].
  replace ((0 <=? x) && (x <? 256)) with true
    by (symmetry; apply andb_true_intro; split; [apply Z.leb_le | apply Z.ltb_lt]; lia).
  reflexivity.
Qed.

(** The unchecked set once the scratch word is packed: it compares the
    slice and stores through the view when the slice has four bytes. *)
Lemma set_unchecked_packed (i : Z) (o : LedOutput) (s : APA102) (packed : list Z) :
  live s = true ->
  _pack_wrgb_direct o (_wrgb_buffer s) = (Ok tt, packed) ->
  List.length packed = 4%nat ->
  slice_length (len (_data s)) (4 + i * 4) (8 + i * 4) = 4%nat ->
  set_unchecked i o s
  = (Ok tt,
     if list_eqb packed (getslice (_data s) (4 + i * 4) (8 + i * 4))
     then set_wrgb_buffer packed s
     else set_data_modified true
            (set_data
               (firstn (slice_start (len (_data s)) (4 + i * 4)) (_data s)
                ++ packed
                ++ skipn (slice_start (len (_data s)) (4 + i * 4) + 4) (_data s))
               (set_wrgb_buffer packed s))).
Proof.
  intros L P L4 S4.
  unfold set_unchecked, bind at 1, zoom. rewrite P.
  unfold bind at 1, get. unfold bind at 1, view_getslice.
  unfold live in L. cbn [_view set_wrgb_buffer _data _wrgb_buffer].
  destruct (_view s) eqn:Ev; [| discriminate L].
  destruct (list_eqb packed (getslice (_data s) (4 + i * 4) (8 + i * 4)));
    cbn [negb when]; [reflexivity |].
  unfold bind, view_setslice. cbn [_view _data set_wrgb_buffer].
  rewrite Ev, S4, L4. cbn [Nat.eqb]. reflexivity.
Qed.

(** X14: the unchecked set at index -1 writes over the start sequence:
    the slice of the view it stores into is the first four bytes of the
    framebuffer, so with any valid output it replaces the start sequence
    by the packed word and sets the flag. *)
Theorem set_unchecked_minus_one_overwrites_start (v : LedOutput) (packed : list Z)
    (s : APA102) :
  well_formed s = true -> live s = true ->
  valid v = true -> _pack_wrgb v = Ok packed ->
  set_unchecked (-1) v s
  = (Ok tt,
     set_data_modified true
       (set_data (packed ++ skipn 4 (_data s)) (set_wrgb_buffer packed s))) /\
  firstn 4 (packed ++ skipn 4 (_data s)) <> APA102_START.
Proof.
  intros W L V P.
  apply well_formed_inv in W as (W1 & W2 & _ & W4 & _ & _ & S4).
  apply valid_inv in V as (w & x & y & z & -> & Hw & Hx & Hy & Hz).
  rewrite pack_of_valid in P by assumption. injection P as <-.
  assert (Hm : Z.lor w 224 <> 0)
    by (intros E; apply Z.lor_eq_0_iff in E; lia).
  assert (R : 4 <= len (_data s)).
  { rewrite W2. unfold frame_length.
    pose proof (len_nonneg Z (_generate_end_sequence (_leds s))). lia. }
  assert (A0 : adjust (len (_data s)) 0 = 0) by (apply adjust_inside; lia).
  assert (A4 : adjust (len (_data s)) 4 = 4) by (apply adjust_inside; lia).
  split.
  - rewrite (set_unchecked_packed (-1) _ s [Z.lor w 224; z; y; x]); try assumption.
    + change (4 + -1 * 4) with 0. change (8 + -1 * 4) with 4.
      unfold getslice, slice_start, slice_length. rewrite A0, A4.
      change (Z.to_nat (4 - 0)) with 4%nat. change (Z.to_nat 0) with 0%nat.
      rewrite skipn_O, W4.
      destruct (list_eqb [Z.lor w 224; z; y; x] APA102_START) eqn:E.
      * apply list_eqb_eq in E. inversion E. contradiction.
      * reflexivity.
    + apply pack_direct_valid; assumption.
    + reflexivity.
    + change (4 + -1 * 4) with 0. change (8 + -1 * 4) with 4.
      unfold slice_length. rewrite A0, A4. reflexivity.
  - cbn [app firstn]. intros E. inversion E. contradiction.
Qed.

Lemma set_unchecked_minus_one_overwrites_start_witness :
  (well_formed (fresh 8 quiet_lines) = true /\ live (fresh 8 quiet_lines) = true /\
   valid off = true /\ _pack_wrgb off = Ok [0xe0; 0; 0; 0]) /\
  set_unchecked (-1) off (fresh 8 quiet_lines)
  = (Ok tt,
     set_data_modified true
       (set_data ([0xe0; 0; 0; 0] ++ skipn 4 (_data (fresh 8 quiet_lines)))
                 (set_wrgb_buffer [0xe0; 0; 0; 0] (fresh 8 quiet_lines)))).
Proof.
  split; [repeat split; reflexivity |].
  apply (proj1 (set_unchecked_minus_one_overwrites_start off [0xe0; 0; 0; 0]
                  (fresh 8 quiet_lines) eq_refl eq_refl eq_refl eq_refl)).
Defined.

Lemma brightness_kept_bits (w : Z) :
  0 <= w <= 255 -> Z.land (Z.lor w 0xe0) 0x1f = w mod 32.
Proof.
  intros H. apply Z.eqb_eq.
  apply (by_cases_below 256 (fun w => Z.land (Z.lor w 0xe0) 0x1f =? w mod 32));
    [vm_compute; reflexivity | lia].
Qed.

(** X15: the unchecked set takes a brightness of any byte and keeps its
    low five bits: in range, with a brightness within [0, 255] and
    channels within [0, 255], it returns, and the get that follows
    returns the brightness modulo 32 with the three channels. *)
Theorem set_unchecked_keeps_low_brightness_bits (i w x y z : Z) (s : APA102) :
  well_formed s = true -> live s = true -> 0 <= i < _leds s ->
  0 <= w <= 255 -> 0 <= x <= 255 -> 0 <= y <= 255 -> 0 <= z <= 255 ->
  exists s',
    set_unchecked i (mkLedOutput (PyInt w) (PyInt x) (PyInt y) (PyInt z)) s
    = (Ok tt, s') /\
    __getitem__ i s'
    = (Ok (mkLedOutput (PyInt (w mod 32)) (PyInt x) (PyInt y) (PyInt z)), s').
Proof.
  intros W L Hi Hw Hx Hy Hz.
  pose proof (word_room s i W Hi) as R.
  destruct (word_slice Z (_data s) i ltac:(lia) R) as [Sa Sl].
  pose proof W as W'.
  apply well_formed_inv in W' as (_ & _ & _ & _ & _ & _ & S4).
  rewrite (set_unchecked_packed i _ s [Z.lor w 224; z; y; x]);
    [| exact L | apply pack_direct_bytes; assumption | reflexivity | exact Sl].
  rewrite Sa.
  destruct (list_eqb [Z.lor w 224; z; y; x]
              (getslice (_data s) (4 + i * 4) (8 + i * 4))) eqn:E.
  - eexists. split; [reflexivity |].
    rewrite getitem_in_range by assumption.
    apply list_eqb_eq in E. unfold led_word. cbn [_data set_wrgb_buffer].
    rewrite <- E. cbn [_ledoutput_from_led_command getitem nth_error rbind].
    unfold py_and. now rewrite brightness_kept_bits.
  - eexists. split; [reflexivity |].
    rewrite getitem_in_range by assumption.
    unfold led_word. cbn [_data set_data_modified set_data set_wrgb_buffer].
    change (firstn (Z.to_nat (4 + i * 4)) (_data s) ++ [Z.lor w 224; z; y; x]
            ++ skipn (Z.to_nat (4 + i * 4) + 4) (_data s))
      with (store_word i [Z.lor w 224; z; y; x] (_data s)).
    rewrite store_word_same by (reflexivity || lia).
    cbn [_ledoutput_from_led_command getitem nth_error rbind].
    unfold py_and. now rewrite brightness_kept_bits.
Qed.

Lemma set_unchecked_keeps_low_brightness_bits_witness :
  (well_formed (fresh 8 quiet_lines) = true /\ live (fresh 8 quiet_lines) = true /\
   0 <= 0 < _leds (fresh 8 quiet_lines) /\
   0 <= 33 <= 255 /\ 0 <= 1 <= 255 /\ 0 <= 2 <= 255 /\ 0 <= 3 <= 255) /\
  exists s',
    set_unchecked 0 (mkLedOutput (PyInt 33) (PyInt 1) (PyInt 2) (PyInt 3))
                  (fresh 8 quiet_lines) = (Ok tt, s') /\
    __getitem__ 0 s'
    = (Ok (mkLedOutput (PyInt (33 mod 32)) (PyInt 1) (PyInt 2) (PyInt 3)), s').
Proof.
  split; [repeat split; try reflexivity; simpl; lia |].
  apply (set_unchecked_keeps_low_brightness_bits 0 33 1 2 3 (fresh 8 quiet_lines));
    try reflexivity; simpl; lia.
Defined.

(** The unchecked set stores nothing when it raises. *)
Lemma set_unchecked_raised (i : Z) (o : LedOutput) (s s' : APA102) (e : exn) :
  set_unchecked i o s = (Raise e, s') ->
  exists scratch, s' = set_wrgb_buffer scratch s.
Proof.
  destruct s as [leds flag lines data view scratch0].
  unfold set_unchecked, bind, zoom, get, when, modify, ret.
  cbn [_wrgb_buffer set_wrgb_buffer].
  destruct (_pack_wrgb_direct o scratch0) as [[[] | e0] scratch].
  2:{ intros E. injection E as _ <-. now exists scratch. }
  unfold view_getslice, view_setslice.
  cbn [_view _data _wrgb_buffer _leds _lines _data_modified set_wrgb_buffer set_data].
  destruct view.
  2:{ intros E. injection E as _ <-. now exists scratch. }
  destruct (negb (list_eqb scratch (getslice data (4 + i * 4) (8 + i * 4)))).
  2:{ intros E. discriminate E. }
  cbn [_view _data _wrgb_buffer _leds _lines _data_modified set_wrgb_buffer set_data].
  destruct (slice_length (len data) (4 + i * 4) (8 + i * 4) =? List.length scratch)%nat.
  - intros E. discriminate E.
  - intros E. injection E as _ <-. now exists scratch.
Qed.

(** X16: a set that raises stores nothing: whatever the index and the
    output, when [set_unchecked] or [__setitem__] raises, the
    framebuffer, the flag, the lines, the view and the LED count are as
    before; only the scratch word may have changed. *)
Theorem failed_set_stores_nothing (i : Z) (o : LedOutput) (s s' : APA102) (e : exn) :
  set_unchecked i o s = (Raise e, s') \/ __setitem__ i o s = (Raise e, s') ->
  exists scratch, s' = set_wrgb_buffer scratch s.
Proof.
  intros [E | E].
  - apply (set_unchecked_raised i o s s' e E).
  - unfold __setitem__, bind, lift, get, raise in E.
    destruct (_check_ledoutput_range o) as [[] | e0].
    2:{ injection E as _ <-. exists (_wrgb_buffer s). now destruct s. }
    destruct (negb ((0 <=? i) && (i <? _leds s))).
    + injection E as _ <-. exists (_wrgb_buffer s). now destruct s.
    + apply (set_unchecked_raised i o s s' e E).
Qed.

Lemma failed_set_stores_nothing_witness :
  set_unchecked 0 (mkLedOutput (PyInt 0) (PyInt 0) (PyInt 0) (PyInt 999))
                (set_wrgb_buffer [7; 7; 7; 7] (fresh 8 quiet_lines))
  = (Raise (ValueError [Lit "byte must be in range(0, 256)"]),
     set_wrgb_buffer [0xe0; 7; 7; 7] (fresh 8 quiet_lines)) /\
  exists scratch,
    set_wrgb_buffer [0xe0; 7; 7; 7] (fresh 8 quiet_lines)
    = set_wrgb_buffer scratch (set_wrgb_buffer [7; 7; 7; 7] (fresh 8 quiet_lines)).
Proof.
  assert (E : set_unchecked 0 (mkLedOutput (PyInt 0) (PyInt 0) (PyInt 0) (PyInt 999))
                (set_wrgb_buffer [7; 7; 7; 7] (fresh 8 quiet_lines))
              = (Raise (ValueError [Lit "byte must be in range(0, 256)"]),
                 set_wrgb_buffer [0xe0; 7; 7; 7] (fresh 8 quiet_lines)))
    by reflexivity.
  split; [exact E |].
  apply (failed_set_stores_nothing 0 _ _ _ _ (or_introl E)).
Defined.

(** X23: setting the same valid output twice is setting it once: the
    second set returns and leaves the object exactly as the first left
    it. *)
Theorem set_twice_is_set_once (i : Z) (v : LedOutput) (s : APA102) :
  well_formed s = true -> live s = true -> 0 <= i < _leds s -> valid v = true ->
  exists s',
    __setitem__ i v s = (Ok tt, s') /\ __setitem__ i v s' = (Ok tt, s').
Proof.
  intros W L Hi V.
  destruct (packed_valid v V) as (packed & P & _ & L4 & _).
  pose proof (word_room s i W Hi) as R.
  pose proof (setitem_well_formed i v s W) as W'.
  rewrite setitem_valid in W' |- * by assumption.
  rewrite (set_unchecked_valid i v s packed) in W' |- * by assumption.
  cbn [snd] in W'.
  destruct (list_eqb packed (led_word s i)) eqn:E.
  - eexists. split; [reflexivity |].
    rewrite setitem_valid by assumption.
    rewrite (set_unchecked_valid i v _ packed) by assumption.
    change (led_word (set_wrgb_buffer packed s) i) with (led_word s i).
    rewrite E. reflexivity.
  - eexists. split; [reflexivity |].
    rewrite setitem_valid by assumption.
    rewrite (set_unchecked_valid i v _ packed) by assumption.
    unfold led_word at 1. cbn [_data set_data_modified set_data].
    rewrite store_word_same by (assumption || lia).
    rewrite list_eqb_refl. reflexivity.
Qed.

Lemma set_twice_is_set_once_witness :
  (well_formed (fresh 8 quiet_lines) = true /\ live (fresh 8 quiet_lines) = true /\
   0 <= 7 < _leds (fresh 8 quiet_lines) /\
   valid (mkLedOutput (PyInt 31) (PyInt 255) (PyInt 255) (PyInt 255)) = true) /\
  exists s',
    __setitem__ 7 (mkLedOutput (PyInt 31) (PyInt 255) (PyInt 255) (PyInt 255))
                (fresh 8 quiet_lines) = (Ok tt, s') /\
    __setitem__ 7 (mkLedOutput (PyInt 31) (PyInt 255) (PyInt 255) (PyInt 255)) s'
    = (Ok tt, s').
Proof.
  split; [repeat split; try reflexivity; simpl; lia |].
  apply (set_twice_is_set_once 7
           (mkLedOutput (PyInt 31) (PyInt 255) (PyInt 255) (PyInt 255))
           (fresh 8 quiet_lines)); try reflexivity; simpl; lia.
Defined.

(* ================================================================= *)
(** ** More on the constructor *)

(** X17: the constructor refuses a negative LED count: once the lines
    are requested, taking the length of the new object raises the
    [ValueError] of a negative [__len__], with or without reset, and no
    controller is built. *)
Theorem construction_refuses_negative_count
    (gpiod : string -> Z * Z -> result Lines)
    (chip : string) (leds clk data : Z) (reset : bool) (lines : Lines) :
  gpiod chip (clk, data) = Ok lines -> leds < 0 ->
  exists msg, __init__ gpiod chip leds clk data reset = Raise (ValueError msg).
Proof.
  intros G H. eexists. apply (init_negative gpiod chip leds clk data reset lines G H).
Qed.

Lemma construction_refuses_negative_count_witness :
  (gpiod_quiet "/dev/gpiochip0" (24, 23) = Ok quiet_lines /\ -1 < 0) /\
  exists msg,
    __init__ gpiod_quiet "/dev/gpiochip0" (-1) 24 23 true = Raise (ValueError msg).
Proof.
  split; [split; [reflexivity | lia] |].
  apply (construction_refuses_negative_count gpiod_quiet "/dev/gpiochip0"
           (-1) 24 23 true quiet_lines eq_refl). lia.
Defined.

Lemma init_reset_rejected (gpiod : string -> Z * Z -> result Lines)
    (chip : string) (leds clk data : Z) (lines : Lines) :
  gpiod chip (clk, data) = Ok lines -> 0 <= leds ->
  accepts lines (waveform (_data (fresh leds lines))) = false ->
  __init__ gpiod chip leds clk data true = Raise OSError.
Proof.
  intros G H A. unfold __init__. rewrite G. cbn [rbind].
  change (_pack_wrgb (mkLedOutput (PyInt 0) (PyInt 0) (PyInt 0) (PyInt 0)))
    with (@Ok (list Z) [0xe0; 0; 0; 0]).
  cbn [rbind]. unfold len_self, __len__. cbn [_leds].
  destruct (Z.ltb_spec leds 0); [lia |].
  change (mkAPA102 leds true lines
            (APA102_START ++ repeat_bytes [0xe0; 0; 0; 0] leds ++ _generate_end_sequence leds)
            ViewOfData [0; 0; 0; 0]) with (fresh leds lines).
  destruct (commit_rejected (fresh leds lines) eq_refl A) as [E _].
  destruct (commit (fresh leds lines)) as [x s1]. cbn [fst] in E. now rewrite E.
Qed.

(** X18: construction with reset transmits the zeroed framebuffer
    before it returns: when the lines take all the writes the controller
    comes with the flag clear and the whole waveform on the lines, so a
    commit right after writes nothing; when the lines refuse one of the
    writes the constructor raises [OSError] and no controller is
    built. *)
Theorem construction_with_reset_commits
    (gpiod : string -> Z * Z -> result Lines)
    (chip : string) (N clk data : Z) (lines : Lines) :
  gpiod chip (clk, data) = Ok lines -> 0 <= N ->
  (accepts lines (waveform (_data (fresh N lines))) = true ->
   exists s,
     __init__ gpiod chip N clk data true = Ok s /\
     _data s = _data (fresh N lines) /\
     _data_modified s = false /\
     written (_lines s) = written lines ++ waveform (_data s) /\
     commit s = (Ok tt, s)) /\
  (accepts lines (waveform (_data (fresh N lines))) = false ->
   __init__ gpiod chip N clk data true = Raise OSError).
Proof.
  intros G H. split; intros A.
  - eexists. split; [apply (init_with_reset gpiod chip N clk data lines G H A) |].
    split; [reflexivity |]. split; [reflexivity |]. split; [reflexivity |].
    apply commit_clean. reflexivity.
  - apply (init_reset_rejected gpiod chip N clk data lines); assumption.
Qed.

Lemma construction_with_reset_commits_witness :
  (gpiod_quiet "/dev/gpiochip0" (24, 23) = Ok quiet_lines /\ 0 <= 8 /\
   accepts quiet_lines (waveform (_data (fresh 8 quiet_lines))) = true) /\
  exists s,
    __init__ gpiod_quiet "/dev/gpiochip0" 8 24 23 true = Ok s /\
    _data s = _data (fresh 8 quiet_lines) /\
    _data_modified s = false /\
    written (_lines s) = written quiet_lines ++ waveform (_data s) /\
    commit s = (Ok tt, s).
Proof.
  assert (A : accepts quiet_lines (waveform (_data (fresh 8 quiet_lines))) = true)
    by (vm_compute; reflexivity).
  split; [split; [reflexivity | split; [lia | exact A]] |].
  apply (proj1 (construction_with_reset_commits gpiod_quiet "/dev/gpiochip0"
                  8 24 23 quiet_lines eq_refl ltac:(lia)) A).
Defined.

(* ================================================================= *)
(** ** The single colour program *)

Lemma firstn_exact (A : Type) (a rest : list A) :
  firstn (List.length a) (a ++ rest) = a.
Proof.
  rewrite firstn_app, Nat.sub_diag, firstn_O, app_nil_r. apply firstn_all.
Qed.

Lemma skipn_exact (A : Type) (a rest : list A) :
  skipn (List.length a) (a ++ rest) = rest.
Proof.
  rewrite skipn_app, Nat.sub_diag, skipn_O, skipn_all. reflexivity.
Qed.

(** Storing the word a slot already holds changes nothing. *)
Lemma store_word_same_word (d w : list Z) (i : Z) :
  0 <= i -> 8 + i * 4 <= len d ->
  getslice d (4 + i * 4) (8 + i * 4) = w -> store_word i w d = d.
Proof.
  intros Hi R G. rewrite getslice_word in G by assumption. subst w.
  unfold store_word. symmetry. apply split_around.
Qed.

Lemma concat_repeat_snoc (w : list Z) (k : nat) :
  List.concat (repeat w k) ++ w = w ++ List.concat (repeat w k).
Proof.
  induction k as [| k IH]; cbn [repeat List.concat].
  - now rewrite app_nil_r.
  - now rewrite <- app_assoc, IH.
Qed.

Section Painting.

Variables (n : Z) (w : list Z).
Hypothesis four : List.length w = 4%nat.

Lemma painted_prefix_length (k : nat) :
  List.length (APA102_START ++ List.concat (repeat w k)) = Z.to_nat (4 + Z.of_nat k * 4).
Proof.
  rewrite length_app, concat_repeat_length, four. simpl List.length. lia.
Qed.

Lemma painted_split (k : nat) :
  painted n w k
  = (APA102_START ++ List.concat (repeat w k))
    ++ List.concat (repeat [0xe0; 0; 0; 0] (Z.to_nat n - k))
    ++ _generate_end_sequence n.
Proof. unfold painted. now rewrite <- app_assoc. Qed.

Lemma painted_len (k : nat) :
  (k <= Z.to_nat n)%nat -> 0 <= n ->
  len (painted n w k) = frame_length n.
Proof.
  intros H Hn. unfold painted, frame_length, len.
  rewrite !length_app, !concat_repeat_length, four. simpl List.length. lia.
Qed.

(** The slot of LED [k] of a framebuffer painted up to [k] holds the
    word of a dark LED. *)
Lemma painted_word (k : nat) :
  (k < Z.to_nat n)%nat ->
  getslice (painted n w k) (4 + Z.of_nat k * 4) (8 + Z.of_nat k * 4) = [0xe0; 0; 0; 0].
Proof.
  intros H.
  rewrite getslice_word; [| lia | rewrite painted_len by lia; unfold frame_length;
    pose proof (len_nonneg Z (_generate_end_sequence n)); lia].
  rewrite painted_split, <- painted_prefix_length, skipn_exact.
  destruct (Z.to_nat n - k)%nat as [| m] eqn:E; [lia |]. reflexivity.
Qed.

(** Storing the word for LED [k] paints one LED more. *)
Lemma painted_store (k : nat) :
  (k < Z.to_nat n)%nat ->
  store_word (Z.of_nat k) w (painted n w k) = painted n w (S k).
Proof.
  intros H. unfold store_word.
  rewrite <- (painted_prefix_length k), (Nat.add_comm _ 4), <- skipn_skipn.
  rewrite !painted_split, firstn_exact, skipn_exact.
  replace (Z.to_nat n - k)%nat with (S (Z.to_nat n - S k)) by lia.
  cbn [repeat List.concat]. rewrite <- !app_assoc.
  change (skipn 4 ([224; 0; 0; 0] ++ ?x)) with x.
  rewrite (app_assoc (List.concat (repeat w k)) w), concat_repeat_snoc, <- app_assoc.
  reflexivity.
Qed.

End Painting.


Lemma reliable_wrote (ws : list (Z * Z)) (l : Lines) :
  reliable l -> reliable (wrote ws l).
Proof. intros R h v. apply R. Qed.

(** The loop of the script from LED [k] on, over a framebuffer painted
    up to [k]: every set returns and paints its LED. *)
Lemma paint_loop (colour : LedOutput) (packed : list Z) (m k : nat) (s : APA102) :
  valid colour = true -> _pack_wrgb colour = Ok packed ->
  well_formed s = true -> live s = true ->
  _data s = painted (_leds s) packed k ->
  (k + m = Z.to_nat (_leds s))%nat ->
  exists s',
    for_each (map Z.of_nat (seq k m)) (fun led => __setitem__ led colour) s
    = (Ok tt, s') /\
    well_formed s' = true /\ live s' = true /\
    _leds s' = _leds s /\ _lines s' = _lines s /\
    _data s' = painted (_leds s) packed (k + m) /\
    _data_modified s'
    = _data_modified s || ((0 <? m)%nat && negb (list_eqb packed [0xe0; 0; 0; 0])).
Proof.
  intros V P. destruct (packed_valid colour V) as (packed' & P' & _ & L4 & _).
  assert (packed' = packed) by congruence. subst packed'. clear P'.
  revert k s. induction m as [| m IH]; intros k s W L D K.
  - exists s. cbn [seq map for_each]. rewrite Nat.add_0_r.
    repeat split; try assumption. cbn. now rewrite orb_false_r.
  - assert (Hk : 0 <= Z.of_nat k < _leds s) by lia.
    pose proof (word_room s _ W Hk) as R.
    assert (E : led_word s (Z.of_nat k) = [0xe0; 0; 0; 0]).
    { unfold led_word. rewrite D. apply painted_word; [exact L4 | lia]. }
    assert (S1 : store_word (Z.of_nat k) packed (_data s)
                 = painted (_leds s) packed (S k)).
    { rewrite D. apply painted_store; [exact L4 | lia]. }
    pose proof (setitem_well_formed (Z.of_nat k) colour s W) as W1.
    rewrite setitem_valid in W1 by assumption.
    rewrite (set_unchecked_valid _ colour s packed) in W1 by assumption.
    cbn [snd] in W1. rewrite E in W1.
    cbn [seq map for_each]. unfold bind at 1.
    rewrite setitem_valid by assumption.
    rewrite (set_unchecked_valid _ colour s packed) by assumption. rewrite E.
    destruct (list_eqb packed [0xe0; 0; 0; 0]) eqn:Q.
    + assert (S2 : _data s = painted (_leds s) packed (S k)).
      { rewrite <- S1. symmetry. apply store_word_same_word; [lia | exact R |].
        apply list_eqb_eq in Q. rewrite Q. exact E. }
      destruct (IH (S k) (set_wrgb_buffer packed s) W1 L S2 ltac:(cbn [_leds set_wrgb_buffer]; lia))
        as (s' & F & W' & L' & N' & I' & D' & M').
      exists s'. split; [exact F |].
      replace (k + S m)%nat with (S k + m)%nat by lia.
      repeat split; try assumption.
      rewrite M'. cbn [_data_modified set_wrgb_buffer negb]. now rewrite !andb_false_r.
    + destruct (IH (S k)
                  (set_data_modified true
                     (set_data (store_word (Z.of_nat k) packed (_data s))
                               (set_wrgb_buffer packed s)))
                  W1 L S1 ltac:(cbn [_leds set_data_modified set_data set_wrgb_buffer]; lia))
        as (s' & F & W' & L' & N' & I' & D' & M').
      exists s'. split; [exact F |].
      replace (k + S m)%nat with (S k + m)%nat by lia.
      repeat split; try assumption.
      rewrite M'. cbn [_data_modified set_data_modified negb Nat.ltb Nat.leb].
      now rewrite orb_true_r.
Qed.

(** X20: the single colour program, over lines that take every write,
    with a valid colour and a non-negative LED count, runs to its end:
    it leaves a closed controller with the lines released, the flag
    clear and a framebuffer in which every LED holds the packed colour;
    the lines were written the waveform of the zeroed framebuffer, by the
    reset, and then that of the painted one, unless there is no LED or
    the colour is the dark one, in which case the second commit wrote
    nothing. *)
Theorem single_color_paints_every_led
    (gpiod : string -> Z * Z -> result Lines) (chip : string)
    (clk data N brightness red green blue : Z) (lines : Lines) (packed : list Z) :
  gpiod chip (clk, data) = Ok lines -> reliable lines -> 0 <= N ->
  valid (mkLedOutput (PyInt brightness) (PyInt red) (PyInt green) (PyInt blue)) = true ->
  _pack_wrgb (mkLedOutput (PyInt brightness) (PyInt red) (PyInt green) (PyInt blue))
  = Ok packed ->
  exists s,
    single_color_main gpiod chip clk data N brightness red green blue
    = (Ok tt, Some s) /\
    _data s = APA102_START ++ repeat_bytes packed N ++ _generate_end_sequence N /\
    _data_modified s = false /\ live s = false /\
    lines_released (_lines s) = true /\
    written (_lines s)
    = written lines ++ waveform (_data (fresh N lines))
      ++ (if (0 <? N) && negb (list_eqb packed [0xe0; 0; 0; 0])
          then waveform (_data s) else []).
Proof.
  intros G R H V P.
  pose proof (reliable_accepts (waveform (_data (fresh N lines))) lines R) as A0.
  unfold single_color_main.
  rewrite (init_with_reset gpiod chip N clk data lines G H A0).
  set (s0 := set_data_modified false
               (set_lines (wrote (waveform (_data (fresh N lines))) lines)
                          (fresh N lines))).
  assert (W0 : well_formed s0 = true)
    by (rewrite <- (fresh_well_formed N lines H); now apply well_formed_ext).
  assert (D0 : _data s0 = painted (_leds s0) packed 0).
  { unfold painted. cbn [repeat List.concat app]. rewrite Nat.sub_0_r. reflexivity. }
  destruct (paint_loop _ packed (Z.to_nat N) 0 s0 V P W0 eq_refl D0 eq_refl)
    as (s1 & F & W1 & L1 & N1 & I1 & D1 & M1).
  cbn [_leds s0 set_data_modified set_lines fresh Nat.add] in N1, D1.
  cbn [_data_modified _lines s0 set_data_modified set_lines orb] in M1, I1.
  assert (D1' : _data s1 = APA102_START ++ repeat_bytes packed N ++ _generate_end_sequence N).
  { rewrite D1. unfold painted, repeat_bytes. now rewrite Nat.sub_diag. }
  assert (Q : (0 <? Z.to_nat N)%nat = (0 <? N)).
  { destruct (Z.ltb_spec 0 N), (Nat.ltb_spec 0 (Z.to_nat N)); try reflexivity; lia. }
  rewrite Q in M1.
  unfold single_color_body, bind at 1, len_self, __len__.
  cbn [_leds s0 set_data_modified set_lines fresh].
  destruct (Z.ltb_spec N 0) as [Hneg | _]; [lia |].
  unfold bind at 1. unfold range. rewrite F. unfold bind.
  destruct ((0 <? N) && negb (list_eqb packed [224; 0; 0; 0])) eqn:C.
  - rewrite (commit_accepted s1 M1)
      by (apply reliable_accepts; rewrite I1; apply reliable_wrote, R).
    eexists. split; [reflexivity |].
    cbn [close bind modify snd _data _data_modified _lines _view live
         set_data_modified set_lines set_view release_lines lines_released written wrote].
    split; [exact D1' |]. split; [reflexivity |]. split; [reflexivity |].
    split; [reflexivity |].
    rewrite I1. cbn [written wrote]. now rewrite <- app_assoc.
  - rewrite (commit_clean s1 M1).
    eexists. split; [reflexivity |].
    cbn [close bind modify snd _data _data_modified _lines _view live
         set_data_modified set_lines set_view release_lines lines_released written wrote].
    split; [exact D1' |]. split; [exact M1 |]. split; [reflexivity |].
    split; [reflexivity |].
    rewrite I1. cbn [written wrote]. now rewrite app_nil_r.
Qed.

Lemma single_color_paints_every_led_witness :
  (gpiod_quiet "/dev/gpiochip0" (24, 23) = Ok quiet_lines /\ reliable quiet_lines /\
   0 <= 3 /\
   valid (mkLedOutput (PyInt 31) (PyInt 255) (PyInt 0) (PyInt 0)) = true /\
   _pack_wrgb (mkLedOutput (PyInt 31) (PyInt 255) (PyInt 0) (PyInt 0))
   = Ok [255; 0; 0; 255]) /\
  exists s,
    single_color_main gpiod_quiet "/dev/gpiochip0" 24 23 3 31 255 0 0 = (Ok tt, Some s) /\
    _data s = APA102_START ++ repeat_bytes [255; 0; 0; 255] 3 ++ _generate_end_sequence 3.
Proof.
  assert (R : reliable quiet_lines) by (intros h v; reflexivity).
  split; [repeat split; try reflexivity; try exact R; lia |].
  destruct (single_color_paints_every_led gpiod_quiet "/dev/gpiochip0" 24 23 3 31 255 0 0
              quiet_lines [255; 0; 0; 255] eq_refl R ltac:(lia) eq_refl eq_refl)
    as (s & E & D & _).
  exists s. split; assumption.
Defined.



(* ================================================================= *)
(** ** From a set to the chain *)

(** X19: what is set is what the chain receives: after [Set(i, v)] with
    a valid [v], a commit that finds the flag set and whose writes all
    succeed puts on the lines a waveform from which a chain sampling the
    data at each rising clock edge reads the framebuffer back, and in it,
    at the place of LED [i], the packed form of [v]. *)
Theorem set_then_commit_delivers (i : Z) (v : LedOutput) (packed : list Z)
    (s : APA102) :
  well_formed s = true -> live s = true -> 0 <= i < _leds s ->
  valid v = true -> _pack_wrgb v = Ok packed ->
  exists s',
    __setitem__ i v s = (Ok tt, s') /\
    (_data_modified s' = true ->
     accepts (_lines s') (waveform (_data s')) = true ->
     exists ws,
       commit s'
       = (Ok tt, set_data_modified false (set_lines (wrote ws (_lines s')) s')) /\
       forall clock,
         received clock ws = _data s' /\
         getslice (received clock ws) (4 + i * 4) (8 + i * 4) = packed).
Proof.
  intros W L Hi V P.
  destruct (packed_valid v V) as (packed' & P' & _ & _ & _ & U).
  assert (packed' = packed) by congruence. subst packed'.
  pose proof (setitem_well_formed i v s W) as W'.
  destruct (set_then_get i v s W L Hi V) as (s' & HS & HG & N' & L').
  rewrite HS in W'. cbn [snd] in W'.
  exists s'. split; [exact HS |].
  intros D A. exists (waveform (_data s')).
  split; [apply commit_accepted; assumption |].
  intros clock.
  assert (B : forallb byteb (_data s') = true)
    by now apply well_formed_inv in W' as (_ & _ & B & _).
  rewrite (received_waveform _ clock B). split; [reflexivity |].
  apply (stored_word_iff_get i v packed s'); try assumption. lia.
Qed.

Lemma set_then_commit_delivers_witness :
  (well_formed (fresh 8 quiet_lines) = true /\ live (fresh 8 quiet_lines) = true /\
   0 <= 2 < _leds (fresh 8 quiet_lines) /\
   valid (mkLedOutput (PyInt 1) (PyInt 4) (PyInt 5) (PyInt 6)) = true /\
   _pack_wrgb (mkLedOutput (PyInt 1) (PyInt 4) (PyInt 5) (PyInt 6)) = Ok [225; 6; 5; 4]) /\
  exists s',
    __setitem__ 2 (mkLedOutput (PyInt 1) (PyInt 4) (PyInt 5) (PyInt 6))
                (fresh 8 quiet_lines) = (Ok tt, s').
Proof.
  split; [repeat split; try reflexivity; simpl; lia |].
  destruct (set_then_commit_delivers 2 (mkLedOutput (PyInt 1) (PyInt 4) (PyInt 5) (PyInt 6))
              [225; 6; 5; 4] (fresh 8 quiet_lines)
              eq_refl eq_refl ltac:(simpl; lia) eq_refl eq_refl) as (s' & E & _).
  exists s'. exact E.
Defined.

(* ================================================================= *)
(** ** The length *)

(** X22: the length of a controller is the LED count it was constructed
    with, after any sequence of operations, a close included: [len]
    returns it and changes nothing. *)
Theorem length_is_constructed_count
    (gpiod : string -> Z * Z -> result Lines)
    (chip : string) (N clk data : Z) (reset : bool) (s : APA102) (ops : list op) :
  __init__ gpiod chip N clk data reset = Ok s ->
  len_self (run_ops ops s) = (Ok N, run_ops ops s) /\ 0 <= N.
Proof.
  intros E. apply init_inv in E as (lines & _ & H & E).
  assert (K : _leds s = N).
  { destruct E as [[_ ->] | [_ E]]; [reflexivity |].
    destruct (commit_outcome (fresh N lines)) as (flag & ws & K).
    rewrite E in K. cbn [snd] in K. now subst s. }
  split; [| exact H].
  unfold len_self, __len__. rewrite (proj2 (run_ops_frame ops s)), K.
  destruct (Z.ltb_spec N 0); [lia | reflexivity].
Qed.

Lemma length_is_constructed_count_witness :
  __init__ gpiod_quiet "/dev/gpiochip0" 8 24 23 false = Ok (fresh 8 quiet_lines) /\
  len_self (run_ops [Set_ 0 off; Commit; Close] (fresh 8 quiet_lines))
  = (Ok 8, run_ops [Set_ 0 off; Commit; Close] (fresh 8 quiet_lines)).
Proof.
  split; [reflexivity |].
  apply (proj1 (length_is_constructed_count gpiod_quiet "/dev/gpiochip0" 8 24 23 false
                  (fresh 8 quiet_lines) [Set_ 0 off; Commit; Close] eq_refl)).
Defined.
